(** * Gap analyzer: daily gap analytics and the 0-15 minute overlay

    A shallow embedding of the analysis core of the gap analyzer, of its
    fetchers and of its HTTP handlers, with the properties of them that
    the specification states and further properties read off the code.

    Sources.  The two-pass version of the program (the file that defines
    [analyzeDaily], [analyzeFirst15], [sessionDateNYFromDaily]) is the one
    embedded here; main.go holds the earlier single-pass [analyzeGaps],
    whose loop has the same text as that of [analyzeDaily] but labels the
    bars with [dateNY] and [weekdayNY].  Both are instances of one loop,
    [analyzeCore], below.  The helpers [sign], [rate], [avg], [round1],
    [round2], [round3], [defaultBins], [labelFor] are the same in all
    versions.

    Modelling conventions.
    - A Go [float64] is an exact rational ([Q]); comparisons are the
      boolean tests on [Q], [math.Abs] is [Qabs], [math.Round] rounds half
      away from zero.  NaN, infinities and binary rounding error are not
      part of the model: a float64 sum can miss an exact cancellation or
      an exact tie by a few units in the last place.  The statements on
      [BestStrategy] and [MeanGap], which the code decides on such sums,
      are therefore made on the values the summary reports and with the
      margin of their rounding, not on exact totals.
    - A Go [int] is a [Z]; the counters only count list elements, so no
      wrap-around can occur.
    - A Go [map[string]*agg] is a [gmap string agg]: every key owns its
      own accumulator, a missing key reads as [None] (Go's nil pointer).
    - A slice is a [list]; [append] adds at the end; a nil slice and a nil
      map are the empty list and the empty map.  The overlay updates the
      events through [&pts[i]], in the slice the response holds: the
      model returns the updated list as the new [Data].
    - [sort.Slice(outBins, func(i, j int) bool { return i < j })] leaves
      the four-element table as it is (the insertion sort used for short
      slices swaps only when [less(j, j-1)], which is never the case), so
      the tables are in bin order.
    - The [time] package is modelled on millisecond instants; the zone
      table behind [time.LoadLocation("America/New_York")] is a parameter
      of the development (a [Location]).
    - Record fields keep their Go names inside a module per struct
      ([polygonBar.C], [GapPoint.Bin], ...).
    - The provider is a parameter of the fetchers and of the handlers: the
      reply to a GET of a URL ([http.Get] followed by the status test and
      the JSON decoder), taken as a function of the URL.  The handlers are
      modelled on the query as it is after trimming and parsing, and they
      return what they write: an error status with its message, or the
      response they encode.  The pacing [time.Sleep] of the minute fetcher
      has no effect on what is returned and is left out. *)

From Stdlib Require Import ZArith QArith Qabs Qround Lqa Lia Sorted.
From stdpp Require Import base gmap strings list pretty sorting.

Local Open Scope Q_scope.

(** ** Numbers *)

Definition Qltb (x y : Q) : bool := negb (Qle_bool y x).

Definition float64 (n : Z) : Q := inject_Z n.

(** [math.Round]: nearest integer, halves away from zero. *)
Definition mathRound (x : Q) : Q :=
  if Qle_bool 0 x then inject_Z (Qfloor (x + 0.5))
  else inject_Z (- Qfloor (- x + 0.5)).

Definition sign (x : Q) : Z :=
  if Qltb 0 x then 1%Z
  else if Qltb x 0 then (-1)%Z
  else 0%Z.

Definition round1 (f : Q) : Q := mathRound (f * 10) / 10.
Definition round2 (f : Q) : Q := mathRound (f * 100) / 100.
Definition round3 (f : Q) : Q := mathRound (f * 1000) / 1000.

Definition rate (n d : Z) : Q :=
  if (d =? 0)%Z then 0
  else round1 (float64 n / float64 d * 100.0).

Definition avg (sum : Q) (n : Z) : Q :=
  if (n =? 0)%Z then 0
  else round3 (sum / float64 n).

(** ** Text helpers *)

(** One decimal digit. *)
Definition digit (n : Z) : string :=
  String (Ascii.ascii_of_N (48 + Z.to_N (n mod 10))) EmptyString.

Definition pad2 (n : Z) : string := digit (n / 10) +:+ digit n.
Definition pad4 (n : Z) : string := pad2 (n / 100) +:+ pad2 n.

(** [fmt.Sprintf("%.1f", x)]: one digit after the point, ties to even. *)
Definition roundEven (x : Q) : Z :=
  let f := Qfloor x in
  let r := x - inject_Z f in
  if Qltb r (1 # 2) then f
  else if Qltb (1 # 2) r then (f + 1)%Z
  else if Z.even f then f else (f + 1)%Z.

Definition sprintf1f (x : Q) : string :=
  let t := roundEven (x * 10) in
  (if (t <? 0)%Z then "-" else "") +:+
  pretty (Z.abs t / 10)%Z +:+ "." +:+ digit (Z.abs t).

(** ** Wire types *)

Module polygonBar.
Record t := mk {
  T : Z;   (* ms epoch *)
  O : Q;
  H : Q;
  L : Q;
  C : Q;
  V : Q
}.
End polygonBar.

Module GapPoint.
Record t := mk {
  Date : string;
  GapPct : Q;
  DailyReturnPct : Q;
  Direction : Z;
  SameDir : Z;
  Filled : Z;
  Bin : string;
  Open : Q;
  Close : Q;
  PrevClose : Q;
  DayOfWeek : string;
  Ret15mPct : Q;
  FilledBy0945 : Z
}.
End GapPoint.

Module BinStat.
Record t := mk {
  Label : string;
  Count : Z;
  ContinuationRate : Q;
  GapFillRate : Q;
  FadeAvg : Q;
  FollowAvg : Q;
  Recommendation : string
}.
End BinStat.

Module SideStat.
Record t := mk {
  Count : Z;
  ContinuationRate : Q;
  FadeAvg : Q;
  FollowAvg : Q
}.
Definition zero : t := mk 0 0 0 0.
End SideStat.

Module DowStat.
Record t := mk {
  Count : Z;
  ContinuationRate : Q;
  FadeAvg : Q;
  FollowAvg : Q
}.
End DowStat.

Module Summary.
Record t := mk {
  Sessions : Z;
  ContinuationRate : Q;
  GapUps : Z;
  GapDowns : Z;
  MeanGap : Q;
  MaxGapUp : Q;
  MaxGapDown : Q;
  FadeAvg : Q;
  FollowAvg : Q;
  BestStrategy : string;
  ExpectedReturn : Q
}.
Definition zero : t := mk 0 0 0 0 0 0 0 0 0 "" 0.
End Summary.

Module Summary15.
Record t := mk {
  Sessions : Z;
  ContinuationRate : Q;
  FadeAvg : Q;
  FollowAvg : Q;
  BestStrategy : string;
  ExpectedReturn : Q;
  GapFillBy0945Rate : Q
}.
Definition zero : t := mk 0 0 0 0 "" 0 0.
End Summary15.

Module BinStat15.
Record t := mk {
  Label : string;
  Count : Z;
  ContinuationRate : Q;
  GapFillBy0945Rate : Q;
  FadeAvg : Q;
  FollowAvg : Q;
  Recommendation : string
}.
End BinStat15.

Module AnalyzeResponse.
Record t := mk {
  Success : bool;
  Error : string;
  Ticker : string;
  Years : Z;
  MinGap : Q;
  Data : list GapPoint.t;
  (* daily analytics *)
  Summary : Summary.t;
  Bins : list BinStat.t;
  ByDOW : gmap string DowStat.t;
  UpSide : SideStat.t;
  DownSide : SideStat.t;
  CumDates : list string;
  CumFade : list Q;
  CumFollow : list Q;
  (* 0-15m analytics *)
  Summary15 : Summary15.t;
  Bins15 : list BinStat15.t;
  ByDOW15 : gmap string DowStat.t;
  UpSide15 : SideStat.t;
  DownSide15 : SideStat.t
}.
End AnalyzeResponse.

(** ** Bins *)

Record gapBin := { min : Q; max : Q; lab : string }.

Definition defaultBins (minGap : Q) : list gapBin :=
  let start := if Qltb minGap 0.1 then 0.1 else minGap in
  [ {| min := start; max := 0.5; lab := sprintf1f start +:+ "–0.5%" |};
    {| min := 0.5; max := 1.0; lab := "0.5–1.0%" |};
    {| min := 1.0; max := 1.5; lab := "1.0–1.5%" |};
    {| min := 1.5; max := 99.0; lab := ">1.5%" |} ].

Fixpoint labelFor (absGap : Q) (bins : list gapBin) : string :=
  match bins with
  | [] => "other"
  | b :: rest =>
      if Qle_bool (min b) absGap && Qltb absGap (max b) then lab b
      else labelFor absGap rest
  end.

(** The recommendation thresholds, written out twice in the source (daily
    bins and 0-15m bins) with the same text. *)
Definition recommendation (cr : Q) : string :=
  if Qltb 60 cr then "FOLLOW"
  else if Qltb cr 40 then "FADE"
  else "NEUTRAL".

(** ** Accumulators *)

Record agg := {
  count : Z; cont : Z; filled : Z;
  sumFade : Q; sumFollow : Q
}.

Definition agg0 : agg :=
  {| count := 0; cont := 0; filled := 0; sumFade := 0; sumFollow := 0 |}.

(** The update of a bin accumulator (counts fills too). *)
Definition aggBin (a : agg) (followRet fadeRet : Q) (same fill : Z) : agg :=
  {| count := count a + 1;
     cont := if (same =? 1)%Z then cont a + 1 else cont a;
     filled := if (fill =? 1)%Z then filled a + 1 else filled a;
     sumFade := sumFade a + fadeRet;
     sumFollow := sumFollow a + followRet |}.

(** The update of a side or weekday accumulator (fills are not counted). *)
Definition aggSide (a : agg) (followRet fadeRet : Q) (same : Z) : agg :=
  {| count := count a + 1;
     cont := if (same =? 1)%Z then cont a + 1 else cont a;
     filled := filled a;
     sumFade := sumFade a + fadeRet;
     sumFollow := sumFollow a + followRet |}.

Definition weekdays : list string := ["Mon"; "Tue"; "Wed"; "Thu"; "Fri"].

Definition newAggs (keys : list string) : gmap string agg :=
  foldl (fun m k => <[k := agg0]> m) ∅ keys.

Module agg15.
Record t := mk {
  count : Z; cont : Z; filledBy0945 : Z;
  sumFade : Q; sumFollow : Q
}.
Definition zero : t := mk 0 0 0 0 0.
End agg15.

(** ** Time *)

(** A time zone: the offset from UTC, in milliseconds, in force at an
    instant.  The zone table itself is not part of the repository. *)
Record Location := { utcOffset : Z -> Z }.

(** A zone with a constant offset (as [time.FixedZone]). *)
Definition fixedZone (offsetMs : Z) : Location :=
  {| utcOffset := fun _ => offsetMs |}.

Definition msPerDay : Z := 86400000.

(** Civil date of a day number counted from 1970-01-01, as (year, month,
    day), in the proleptic Gregorian calendar. *)
Definition civil (days : Z) : Z * Z * Z :=
  let z := (days + 719468)%Z in
  let era := (z / 146097)%Z in
  let doe := (z - era * 146097)%Z in
  let yoe := ((doe - doe / 1460 + doe / 36524 - doe / 146096) / 365)%Z in
  let doy := (doe - (365 * yoe + yoe / 4 - yoe / 100))%Z in
  let mp := ((5 * doy + 2) / 153)%Z in
  let d := (doy - (153 * mp + 2) / 5 + 1)%Z in
  let m := (if (mp <? 10)%Z then mp + 3 else mp - 9)%Z in
  let y := (yoe + era * 400 + (if (m <=? 2)%Z then 1 else 0))%Z in
  (y, m, d).

Definition weekdayNames : list string :=
  ["Sunday"; "Monday"; "Tuesday"; "Wednesday"; "Thursday"; "Friday"; "Saturday"].

Section Analysis.

(** [loc, _ := time.LoadLocation("America/New_York")] *)
Variable newYork : Location.

(** A [time.Time] in the New York zone is its instant in ms; [wall] is
    what its clock and calendar show. *)
Definition wall (t : Z) : Z := (t + utcOffset newYork t)%Z.

(** [t.Format("2006-01-02")] *)
Definition formatDate (t : Z) : string :=
  let '(y, m, d) := civil (wall t / msPerDay) in
  pad4 y +:+ "-" +:+ pad2 m +:+ "-" +:+ pad2 d.

(** [t.Weekday().String()[:3]] *)
Definition weekday3 (t : Z) : string :=
  let i := ((wall t / msPerDay + 4) mod 7)%Z in
  String.substring 0 3 (nth (Z.to_nat i) weekdayNames "").

Definition Hour (t : Z) : Z := ((wall t mod msPerDay) / 3600000)%Z.
Definition Minute (t : Z) : Z := ((wall t mod 3600000) / 60000)%Z.

Definition dateNY (tms : Z) : string := formatDate tms.
Definition weekdayNY (tms : Z) : string := weekday3 tms.

(** Polygon daily [t] is 00:00 UTC of the session; shifted by 24h to label
    the bar by the date of its 09:30 open. *)
Definition sessionDateNYFromDaily (tms : Z) : string :=
  formatDate (tms + 24 * 3600000).
Definition sessionWeekdayNYFromDaily (tms : Z) : string :=
  weekday3 (tms + 24 * 3600000).

(** ** Pass 1: daily analytics *)

(** The local variables of the loop of [analyzeDaily]. *)
Record dailyState := {
  binAgg : gmap string agg;
  upAgg : agg;
  downAgg : agg;
  dowAgg : gmap string agg;
  points : list GapPoint.t;
  fadeSum : Q; followSum : Q;
  contCount : Z;
  upCount : Z; downCount : Z;
  meanAbsGap : Q;
  maxGapUp : Q; maxGapDown : Q;
  cumFade : Q; cumFollow : Q;
  cumDates : list string;
  cumFadeArr : list Q; cumFollowArr : list Q
}.

Definition dailyInit (bins : list gapBin) : dailyState :=
  {| binAgg := newAggs (lab <$> bins);
     upAgg := agg0; downAgg := agg0;
     dowAgg := newAggs weekdays;
     points := [];
     fadeSum := 0; followSum := 0;
     contCount := 0; upCount := 0; downCount := 0;
     meanAbsGap := 0; maxGapUp := 0; maxGapDown := 0;
     cumFade := 0; cumFollow := 0;
     cumDates := []; cumFadeArr := []; cumFollowArr := [] |}.

Definition gapPctOf (prevClose open : Q) : Q :=
  (open - prevClose) / prevClose * 100.0.

Definition returnPctOf (open close : Q) : Q :=
  (close - open) / open * 100.0.

(** [sign(dr) == dir && dir != 0 && dr != 0] *)
Definition sameOf (dr : Q) (dir : Z) : Z :=
  if (sign dr =? dir)%Z && negb (dir =? 0)%Z && negb (Qeq_bool dr 0)
  then 1 else 0.

(** [(dir == 1 && day.L <= prevClose) || (dir == -1 && day.H >= prevClose)] *)
Definition filledOf (dir : Z) (day : polygonBar.t) (prevClose : Q) : Z :=
  if ((dir =? 1)%Z && Qle_bool (polygonBar.L day) prevClose)
     || ((dir =? -1)%Z && Qle_bool prevClose (polygonBar.H day))
  then 1 else 0.

(** [if a := m[k]; a != nil { ... }] *)
Definition bump (m : gmap string agg) (k : string) (f : agg -> agg)
  : gmap string agg :=
  match m !! k with
  | Some a => <[k := f a]> m
  | None => m
  end.

Section DailyLoop.

(** How a daily bar is labelled: [sessionDateNYFromDaily] and
    [sessionWeekdayNYFromDaily] in [analyzeDaily], [dateNY] and
    [weekdayNY] in the single-pass [analyzeGaps]; the loops are otherwise
    the same text. *)
Variables dateOf dowOf : Z -> string.

(** One iteration of [for i := 1; i < len(daily); i++], with
    [prev = daily[i-1]] and [day = daily[i]]. *)
Definition dailyStep (minGap : Q) (bins : list gapBin)
    (st : dailyState) (prev day : polygonBar.t) : dailyState :=
  let prevClose := polygonBar.C prev in
  let open := polygonBar.O day in
  let close := polygonBar.C day in
  if Qle_bool prevClose 0 || Qle_bool open 0 then st
  else
  let gapPct := gapPctOf prevClose open in
  if Qltb (Qabs gapPct) minGap then st
  else
  let dr := returnPctOf open close in
  let dir := sign gapPct in
  let same := sameOf dr dir in
  let fill := filledOf dir day prevClose in
  let absGap := Qabs gapPct in
  let bin := labelFor absGap bins in
  let dow := dowOf (polygonBar.T day) in
  let followRet := float64 dir * dr in
  let fadeRet := - float64 dir * dr in
  let sessDate := dateOf (polygonBar.T day) in
  let cumFollow' := cumFollow st + followRet in
  let cumFade' := cumFade st + fadeRet in
  {| binAgg := bump (binAgg st) bin (fun a => aggBin a followRet fadeRet same fill);
     upAgg := if (dir =? 1)%Z then aggSide (upAgg st) followRet fadeRet same
              else upAgg st;
     downAgg := if (dir =? 1)%Z then downAgg st
                else aggSide (downAgg st) followRet fadeRet same;
     dowAgg := bump (dowAgg st) dow (fun a => aggSide a followRet fadeRet same);
     points := points st ++
       [ {| GapPoint.Date := sessDate;
            GapPoint.GapPct := round3 gapPct;
            GapPoint.DailyReturnPct := round3 dr;
            GapPoint.Direction := dir;
            GapPoint.SameDir := same;
            GapPoint.Filled := fill;
            GapPoint.Bin := bin;
            GapPoint.Open := open;
            GapPoint.Close := close;
            GapPoint.PrevClose := prevClose;
            GapPoint.DayOfWeek := dow;
            GapPoint.Ret15mPct := 0;
            GapPoint.FilledBy0945 := 0 |} ];
     fadeSum := fadeSum st + fadeRet;
     followSum := followSum st + followRet;
     contCount := if (same =? 1)%Z then contCount st + 1 else contCount st;
     upCount := if (dir =? 1)%Z then upCount st + 1 else upCount st;
     downCount := if (dir =? 1)%Z then downCount st
                  else if (dir =? -1)%Z then downCount st + 1
                  else downCount st;
     meanAbsGap := meanAbsGap st + absGap;
     maxGapUp := if Qltb (maxGapUp st) gapPct then gapPct else maxGapUp st;
     maxGapDown := if Qltb gapPct (maxGapDown st) then gapPct else maxGapDown st;
     cumFade := cumFade';
     cumFollow := cumFollow';
     cumDates := cumDates st ++ [sessDate];
     cumFadeArr := cumFadeArr st ++ [round3 cumFade'];
     cumFollowArr := cumFollowArr st ++ [round3 cumFollow'] |}.

(** The loop over consecutive pairs, [prev] being the bar before [rest]. *)
Fixpoint dailyLoop (minGap : Q) (bins : list gapBin) (st : dailyState)
    (prev : polygonBar.t) (rest : list polygonBar.t) : dailyState :=
  match rest with
  | [] => st
  | day :: rest' => dailyLoop minGap bins (dailyStep minGap bins st prev day) day rest'
  end.

(** One entry of the [Bins] table. *)
Definition binStatOf (m : gmap string agg) (b : gapBin) : BinStat.t :=
  match m !! lab b with
  | None => BinStat.mk (lab b) 0 0 0 0 0 ""
  | Some ba =>
      if (count ba =? 0)%Z then BinStat.mk (lab b) 0 0 0 0 0 ""
      else
      let cr := float64 (cont ba) / float64 (count ba) * 100.0 in
      let gr := float64 (filled ba) / float64 (count ba) * 100.0 in
      let fa := sumFade ba / float64 (count ba) in
      let fo := sumFollow ba / float64 (count ba) in
      {| BinStat.Label := lab b;
         BinStat.Count := count ba;
         BinStat.ContinuationRate := round1 cr;
         BinStat.GapFillRate := round1 gr;
         BinStat.FadeAvg := round3 fa;
         BinStat.FollowAvg := round3 fo;
         BinStat.Recommendation := recommendation cr |}
  end.

Definition sideStatOf (a : agg) : SideStat.t :=
  {| SideStat.Count := count a;
     SideStat.ContinuationRate := rate (cont a) (count a);
     SideStat.FadeAvg := avg (sumFade a) (count a);
     SideStat.FollowAvg := avg (sumFollow a) (count a) |}.

Definition dowStatOf (v : agg) : DowStat.t :=
  {| DowStat.Count := count v;
     DowStat.ContinuationRate := rate (cont v) (count v);
     DowStat.FadeAvg := avg (sumFade v) (count v);
     DowStat.FollowAvg := avg (sumFollow v) (count v) |}.

Definition summaryOf (st : dailyState) : Summary.t :=
  let total := Z.of_nat (length (points st)) in
  let contRate := if (0 <? total)%Z
                  then float64 (contCount st) / float64 total * 100.0 else 0 in
  let fadeAvg := if (0 <? total)%Z then fadeSum st / float64 total else 0 in
  let followAvg := if (0 <? total)%Z then followSum st / float64 total else 0 in
  let best := if Qltb fadeAvg followAvg then "FOLLOW"
              else if Qltb followAvg fadeAvg then "FADE"
              else "NEUTRAL" in
  let exp := if Qltb fadeAvg followAvg then followAvg
             else if Qltb followAvg fadeAvg then fadeAvg
             else 0.0 in
  let meanAbsGapPct := if (0 <? total)%Z then meanAbsGap st / float64 total
                       else 0.0 in
  {| Summary.Sessions := total;
     Summary.ContinuationRate := round1 contRate;
     Summary.GapUps := upCount st;
     Summary.GapDowns := downCount st;
     Summary.MeanGap := round2 meanAbsGapPct;
     Summary.MaxGapUp := round2 (maxGapUp st);
     Summary.MaxGapDown := round2 (maxGapDown st);
     Summary.FadeAvg := round3 fadeAvg;
     Summary.FollowAvg := round3 followAvg;
     Summary.BestStrategy := best;
     Summary.ExpectedReturn := round3 exp |}.

(** The response before the loop: [AnalyzeResponse{Success: true, ...}],
    or with the error set. *)
Definition emptyResponse (ok : bool) (err : string)
    (minGap : Q) (years : Z) (ticker : string) : AnalyzeResponse.t :=
  {| AnalyzeResponse.Success := ok;
     AnalyzeResponse.Error := err;
     AnalyzeResponse.Ticker := ticker;
     AnalyzeResponse.Years := years;
     AnalyzeResponse.MinGap := minGap;
     AnalyzeResponse.Data := [];
     AnalyzeResponse.Summary := Summary.zero;
     AnalyzeResponse.Bins := [];
     AnalyzeResponse.ByDOW := ∅;
     AnalyzeResponse.UpSide := SideStat.zero;
     AnalyzeResponse.DownSide := SideStat.zero;
     AnalyzeResponse.CumDates := [];
     AnalyzeResponse.CumFade := [];
     AnalyzeResponse.CumFollow := [];
     AnalyzeResponse.Summary15 := Summary15.zero;
     AnalyzeResponse.Bins15 := [];
     AnalyzeResponse.ByDOW15 := ∅;
     AnalyzeResponse.UpSide15 := SideStat.zero;
     AnalyzeResponse.DownSide15 := SideStat.zero |}.

(** "Fill response (daily portion)". *)
Definition dailyResponse (bins : list gapBin) (st : dailyState)
    (minGap : Q) (years : Z) (ticker : string) : AnalyzeResponse.t :=
  {| AnalyzeResponse.Success := true;
     AnalyzeResponse.Error := "";
     AnalyzeResponse.Ticker := ticker;
     AnalyzeResponse.Years := years;
     AnalyzeResponse.MinGap := minGap;
     AnalyzeResponse.Data := points st;
     AnalyzeResponse.Summary := summaryOf st;
     AnalyzeResponse.Bins := binStatOf (binAgg st) <$> bins;
     AnalyzeResponse.ByDOW := dowStatOf <$> dowAgg st;
     AnalyzeResponse.UpSide := sideStatOf (upAgg st);
     AnalyzeResponse.DownSide := sideStatOf (downAgg st);
     AnalyzeResponse.CumDates := cumDates st;
     AnalyzeResponse.CumFade := cumFadeArr st;
     AnalyzeResponse.CumFollow := cumFollowArr st;
     AnalyzeResponse.Summary15 := Summary15.zero;
     AnalyzeResponse.Bins15 := [];
     AnalyzeResponse.ByDOW15 := ∅;
     AnalyzeResponse.UpSide15 := SideStat.zero;
     AnalyzeResponse.DownSide15 := SideStat.zero |}.

(** The final state of the loop over [daily] (for [len(daily) >= 2]). *)
Definition dailyRun (daily : list polygonBar.t) (minGap : Q) : dailyState :=
  match daily with
  | [] => dailyInit (defaultBins minGap)
  | first :: rest =>
      dailyLoop minGap (defaultBins minGap) (dailyInit (defaultBins minGap)) first rest
  end.

Definition analyzeCore (daily : list polygonBar.t) (minGap : Q) (years : Z)
    (ticker : string) : AnalyzeResponse.t * list GapPoint.t :=
  if (Z.of_nat (length daily) <? 2)%Z then
    (emptyResponse false "not enough data" minGap years ticker, [])
  else
    let st := dailyRun daily minGap in
    (dailyResponse (defaultBins minGap) st minGap years ticker, points st).

End DailyLoop.

(** Pass 1 (part_001): daily analytics and the list of gap sessions. *)
Definition analyzeDaily (daily : list polygonBar.t) (minGap : Q) (years : Z)
    (ticker : string) : AnalyzeResponse.t * list GapPoint.t :=
  analyzeCore sessionDateNYFromDaily sessionWeekdayNYFromDaily
    daily minGap years ticker.

(** The single-pass analysis of main.go. *)
Definition analyzeGaps (bars : list polygonBar.t) (minGap : Q) (years : Z)
    (ticker : string) : AnalyzeResponse.t :=
  fst (analyzeCore dateNY weekdayNY bars minGap years ticker).

(** ** Pass 2: 0-15m analytics from 1-minute bars *)

(** The local variables of the loop of [analyzeFirst15]. *)
Record state15 := {
  binAgg15 : gmap string agg15.t;
  upAgg15 : agg15.t;
  downAgg15 : agg15.t;
  dowAgg15 : gmap string agg15.t;
  fadeSum15 : Q; followSum15 : Q;
  contCount15 : Z; filledBy0945Count : Z; sessions15 : Z
}.

Definition newAggs15 (keys : list string) : gmap string agg15.t :=
  foldl (fun m k => <[k := agg15.zero]> m) ∅ keys.

Definition init15 (bins : list gapBin) : state15 :=
  {| binAgg15 := newAggs15 (lab <$> bins);
     upAgg15 := agg15.zero; downAgg15 := agg15.zero;
     dowAgg15 := newAggs15 weekdays;
     fadeSum15 := 0; followSum15 := 0;
     contCount15 := 0; filledBy0945Count := 0; sessions15 := 0 |}.

Definition agg15Add (a : agg15.t) (followRet15 fadeRet15 : Q)
    (cont15 filled0945 : Z) : agg15.t :=
  {| agg15.count := agg15.count a + 1;
     agg15.cont := if (cont15 =? 1)%Z then agg15.cont a + 1 else agg15.cont a;
     agg15.filledBy0945 := if (filled0945 =? 1)%Z then agg15.filledBy0945 a + 1
                           else agg15.filledBy0945 a;
     agg15.sumFade := agg15.sumFade a + fadeRet15;
     agg15.sumFollow := agg15.sumFollow a + followRet15 |}.

(** [a := m[k]; if a == nil { a = &agg15{}; m[k] = a }; ...] *)
Definition bump15 (m : gmap string agg15.t) (k : string)
    (f : agg15.t -> agg15.t) : gmap string agg15.t :=
  <[k := f (default agg15.zero (m !! k))]> m.

(** 09:30..09:44 (NY) *)
Definition inFirst15 (b : polygonBar.t) : bool :=
  (Hour (polygonBar.T b) =? 9)%Z
  && (30 <=? Minute (polygonBar.T b))%Z
  && (Minute (polygonBar.T b) <=? 44)%Z.

(** the fallback window: any minute of the 9 o'clock hour up to :45 *)
Definition upTo0945 (b : polygonBar.t) : bool :=
  (Hour (polygonBar.T b) =? 9)%Z && (Minute (polygonBar.T b) <=? 45)%Z.

Definition withPoint15 (p : GapPoint.t) (ret15m : Q) (filled0945 : Z)
  : GapPoint.t :=
  {| GapPoint.Date := GapPoint.Date p;
     GapPoint.GapPct := GapPoint.GapPct p;
     GapPoint.DailyReturnPct := GapPoint.DailyReturnPct p;
     GapPoint.Direction := GapPoint.Direction p;
     GapPoint.SameDir := GapPoint.SameDir p;
     GapPoint.Filled := GapPoint.Filled p;
     GapPoint.Bin := GapPoint.Bin p;
     GapPoint.Open := GapPoint.Open p;
     GapPoint.Close := GapPoint.Close p;
     GapPoint.PrevClose := GapPoint.PrevClose p;
     GapPoint.DayOfWeek := GapPoint.DayOfWeek p;
     GapPoint.Ret15mPct := ret15m;
     GapPoint.FilledBy0945 := filled0945 |}.

(** One iteration of [for i := range pts] on [p := &pts[i]]: the new
    locals and the point as it is left in the slice. *)
Definition step15 (minutesByDate : gmap string (list polygonBar.t))
    (st : state15) (p : GapPoint.t) : state15 * GapPoint.t :=
  let mins := default [] (minutesByDate !! GapPoint.Date p) in
  if (length mins =? 0)%nat then (st, p)
  else
  let rth0 := List.filter inFirst15 mins in
  let rth := if (length rth0 =? 0)%nat then List.filter upTo0945 mins else rth0 in
  if (length rth =? 0)%nat then (st, p)
  else
  let open0930a :=
    match List.find (fun b => (Minute (polygonBar.T b) =? 30)%Z) rth with
    | Some b => polygonBar.O b
    | None => 0
    end in
  let open0930 := if Qeq_bool open0930a 0 then GapPoint.Open p else open0930a in
  if Qle_bool open0930 0 then (st, p)
  else
  let close0945 :=
    match last rth with Some b => polygonBar.C b | None => 0 end in
  let dir := GapPoint.Direction p in
  let filled0945 :=
    if (dir =? 1)%Z then
      if existsb (fun b => Qle_bool (polygonBar.L b) (GapPoint.PrevClose p)) rth
      then 1%Z else 0%Z
    else if (dir =? -1)%Z then
      if existsb (fun b => Qle_bool (GapPoint.PrevClose p) (polygonBar.H b)) rth
      then 1%Z else 0%Z
    else 0%Z in
  let ret15 := returnPctOf open0930 close0945 in
  let cont15 := sameOf ret15 dir in
  let followRet15 := float64 dir * ret15 in
  let fadeRet15 := - float64 dir * ret15 in
  let upd := fun a => agg15Add a followRet15 fadeRet15 cont15 filled0945 in
  ({| binAgg15 := bump15 (binAgg15 st) (GapPoint.Bin p) upd;
      upAgg15 := if (dir =? 1)%Z then upd (upAgg15 st) else upAgg15 st;
      downAgg15 := if (dir =? 1)%Z then downAgg15 st else upd (downAgg15 st);
      dowAgg15 := bump15 (dowAgg15 st) (GapPoint.DayOfWeek p) upd;
      fadeSum15 := fadeSum15 st + fadeRet15;
      followSum15 := followSum15 st + followRet15;
      contCount15 := contCount15 st + cont15;
      filledBy0945Count := filledBy0945Count st + filled0945;
      sessions15 := sessions15 st + 1 |},
   withPoint15 p (round3 ret15) filled0945).

Fixpoint loop15 (minutesByDate : gmap string (list polygonBar.t))
    (st : state15) (pts : list GapPoint.t) : state15 * list GapPoint.t :=
  match pts with
  | [] => (st, [])
  | p :: rest =>
      let '(st1, p1) := step15 minutesByDate st p in
      let '(st2, rest2) := loop15 minutesByDate st1 rest in
      (st2, p1 :: rest2)
  end.

Definition summary15Of (st : state15) : Summary15.t :=
  let n := sessions15 st in
  let contRate15 := if (0 <? n)%Z
                    then float64 (contCount15 st) / float64 n * 100.0 else 0 in
  let fadeAvg15 := if (0 <? n)%Z then fadeSum15 st / float64 n else 0 in
  let followAvg15 := if (0 <? n)%Z then followSum15 st / float64 n else 0 in
  let fill0945Rate := if (0 <? n)%Z
                      then float64 (filledBy0945Count st) / float64 n * 100.0
                      else 0 in
  let best15 := if Qltb fadeAvg15 followAvg15 then "FOLLOW"
                else if Qltb followAvg15 fadeAvg15 then "FADE"
                else "NEUTRAL" in
  let exp15 := if Qltb fadeAvg15 followAvg15 then followAvg15
               else if Qltb followAvg15 fadeAvg15 then fadeAvg15
               else 0.0 in
  {| Summary15.Sessions := n;
     Summary15.ContinuationRate := round1 contRate15;
     Summary15.FadeAvg := round3 fadeAvg15;
     Summary15.FollowAvg := round3 followAvg15;
     Summary15.BestStrategy := best15;
     Summary15.ExpectedReturn := round3 exp15;
     Summary15.GapFillBy0945Rate := round1 fill0945Rate |}.

(** One entry of the [Bins15] table. *)
Definition binStat15Of (m : gmap string agg15.t) (b : gapBin) : BinStat15.t :=
  match m !! lab b with
  | None => BinStat15.mk (lab b) 0 0 0 0 0 ""
  | Some ba =>
      if (agg15.count ba =? 0)%Z then BinStat15.mk (lab b) 0 0 0 0 0 ""
      else
      let cr := float64 (agg15.cont ba) / float64 (agg15.count ba) * 100.0 in
      let gr := float64 (agg15.filledBy0945 ba) / float64 (agg15.count ba) * 100.0 in
      let fa := agg15.sumFade ba / float64 (agg15.count ba) in
      let fo := agg15.sumFollow ba / float64 (agg15.count ba) in
      {| BinStat15.Label := lab b;
         BinStat15.Count := agg15.count ba;
         BinStat15.ContinuationRate := round1 cr;
         BinStat15.GapFillBy0945Rate := round1 gr;
         BinStat15.FadeAvg := round3 fa;
         BinStat15.FollowAvg := round3 fo;
         BinStat15.Recommendation := recommendation cr |}
  end.

Definition sideStat15Of (a : agg15.t) : SideStat.t :=
  {| SideStat.Count := agg15.count a;
     SideStat.ContinuationRate := rate (agg15.cont a) (agg15.count a);
     SideStat.FadeAvg := avg (agg15.sumFade a) (agg15.count a);
     SideStat.FollowAvg := avg (agg15.sumFollow a) (agg15.count a) |}.

Definition dowStat15Of (v : agg15.t) : DowStat.t :=
  {| DowStat.Count := agg15.count v;
     DowStat.ContinuationRate := rate (agg15.cont v) (agg15.count v);
     DowStat.FadeAvg := avg (agg15.sumFade v) (agg15.count v);
     DowStat.FollowAvg := avg (agg15.sumFollow v) (agg15.count v) |}.

(** The state of the overlay loop once it has gone through [resp.Data]. *)
Definition run15 (resp : AnalyzeResponse.t)
    (minutesByDate : gmap string (list polygonBar.t))
  : state15 * list GapPoint.t :=
  loop15 minutesByDate (init15 (defaultBins (AnalyzeResponse.MinGap resp)))
    (AnalyzeResponse.Data resp).

(** [analyzeFirst15(resp *AnalyzeResponse, minutesByDate)]: the response
    the pointer refers to after the call ([None] for a nil pointer). *)
Definition analyzeFirst15 (resp : option AnalyzeResponse.t)
    (minutesByDate : gmap string (list polygonBar.t))
  : option AnalyzeResponse.t :=
  match resp with
  | None => None
  | Some r =>
      if (length (AnalyzeResponse.Data r) =? 0)%nat then Some r
      else
      let bins := defaultBins (AnalyzeResponse.MinGap r) in
      let '(st, pts) := run15 r minutesByDate in
      Some
        {| AnalyzeResponse.Success := AnalyzeResponse.Success r;
           AnalyzeResponse.Error := AnalyzeResponse.Error r;
           AnalyzeResponse.Ticker := AnalyzeResponse.Ticker r;
           AnalyzeResponse.Years := AnalyzeResponse.Years r;
           AnalyzeResponse.MinGap := AnalyzeResponse.MinGap r;
           AnalyzeResponse.Data := pts;
           AnalyzeResponse.Summary := AnalyzeResponse.Summary r;
           AnalyzeResponse.Bins := AnalyzeResponse.Bins r;
           AnalyzeResponse.ByDOW := AnalyzeResponse.ByDOW r;
           AnalyzeResponse.UpSide := AnalyzeResponse.UpSide r;
           AnalyzeResponse.DownSide := AnalyzeResponse.DownSide r;
           AnalyzeResponse.CumDates := AnalyzeResponse.CumDates r;
           AnalyzeResponse.CumFade := AnalyzeResponse.CumFade r;
           AnalyzeResponse.CumFollow := AnalyzeResponse.CumFollow r;
           AnalyzeResponse.Summary15 := summary15Of st;
           AnalyzeResponse.Bins15 := binStat15Of (binAgg15 st) <$> bins;
           AnalyzeResponse.ByDOW15 := dowStat15Of <$> dowAgg15 st;
           AnalyzeResponse.UpSide15 := sideStat15Of (upAgg15 st);
           AnalyzeResponse.DownSide15 := sideStat15Of (downAgg15 st) |}
  end.

End Analysis.

(** ** Fetchers *)

(** What a GET comes back with: [http.Get] returns an error; the status is
    not 200; the body does not decode into a [polygonResp]; or the decoded
    [Results]. *)
Inductive httpReply :=
| GetFailed (err : string)
| NotOK (status : string)
| Undecodable (err : string)
| Decoded (results : list polygonBar.t).

Definition dailyURL (polygonAPIKey ticker from to : string) : string :=
  "https://api.polygon.io/v2/aggs/ticker/" +:+ ticker +:+ "/range/1/day/"
  +:+ from +:+ "/" +:+ to +:+ "?adjusted=false&sort=asc&apiKey="
  +:+ polygonAPIKey.

Definition minuteURL (polygonAPIKey ticker d : string) : string :=
  "https://api.polygon.io/v2/aggs/ticker/" +:+ ticker +:+ "/range/1/minute/"
  +:+ d +:+ "/" +:+ d +:+ "?adjusted=false&sort=asc&limit=50000&apiKey="
  +:+ polygonAPIKey.

(** [sort.Strings]: the ascending arrangement of the strings, in the
    byte-wise order of Go strings. *)
Definition sortStrings (l : list string) : list string :=
  merge_sort (fun a b : string => String.leb a b) l.

(** The query of a request to /api/gaps after [TrimSpace], [ToUpper] and
    parsing: [qYears] and [qMinGap] hold the value of a parameter that is
    present and parses ([strconv.Atoi], [strconv.ParseFloat]). *)
Record query := {
  qTicker : string;
  qYears : option Z;
  qMinGap : option Q
}.

(** What a handler writes: [http.Error] with a status and a message, or
    the JSON encoding of a response. *)
Inductive served :=
| Refused (code : Z) (message : string)
| Encoded (resp : AnalyzeResponse.t).

(** [resp.Success = false; resp.Error = msg] *)
Definition withError (resp : AnalyzeResponse.t) (msg : string)
  : AnalyzeResponse.t :=
  {| AnalyzeResponse.Success := false;
     AnalyzeResponse.Error := msg;
     AnalyzeResponse.Ticker := AnalyzeResponse.Ticker resp;
     AnalyzeResponse.Years := AnalyzeResponse.Years resp;
     AnalyzeResponse.MinGap := AnalyzeResponse.MinGap resp;
     AnalyzeResponse.Data := AnalyzeResponse.Data resp;
     AnalyzeResponse.Summary := AnalyzeResponse.Summary resp;
     AnalyzeResponse.Bins := AnalyzeResponse.Bins resp;
     AnalyzeResponse.ByDOW := AnalyzeResponse.ByDOW resp;
     AnalyzeResponse.UpSide := AnalyzeResponse.UpSide resp;
     AnalyzeResponse.DownSide := AnalyzeResponse.DownSide resp;
     AnalyzeResponse.CumDates := AnalyzeResponse.CumDates resp;
     AnalyzeResponse.CumFade := AnalyzeResponse.CumFade resp;
     AnalyzeResponse.CumFollow := AnalyzeResponse.CumFollow resp;
     AnalyzeResponse.Summary15 := AnalyzeResponse.Summary15 resp;
     AnalyzeResponse.Bins15 := AnalyzeResponse.Bins15 resp;
     AnalyzeResponse.ByDOW15 := AnalyzeResponse.ByDOW15 resp;
     AnalyzeResponse.UpSide15 := AnalyzeResponse.UpSide15 resp;
     AnalyzeResponse.DownSide15 := AnalyzeResponse.DownSide15 resp |}.

(** [years := 3; if v >= 1 && v <= 5 { years = v }] *)
Definition yearsOf (q : query) : Z :=
  match qYears q with
  | Some v => if (1 <=? v)%Z && (v <=? 5)%Z then v else 3%Z
  | None => 3%Z
  end.

(** [minGap := 0.3; if v > 0 && v < 20 { minGap = v }] *)
Definition minGapOf (q : query) : Q :=
  match qMinGap q with
  | Some v => if Qltb 0 v && Qltb v 20 then v else 0.3
  | None => 0.3
  end.

(** One iteration of the loop of [handleAnalyze] that collects the dates
    of the events: [if !seen[p.Date] { seen[p.Date] = true; dates =
    append(dates, p.Date) }]. *)
Definition collectStep (acc : gset string * list string) (p : GapPoint.t)
  : gset string * list string :=
  if bool_decide (GapPoint.Date p ∈ acc.1) then acc
  else ({[GapPoint.Date p]} ∪ acc.1, acc.2 ++ [GapPoint.Date p]).

Definition collectDates (points : list GapPoint.t) : list string :=
  (foldl collectStep (∅, []) points).2.

Section Server.

Variable newYork : Location.
Variable polygonAPIKey : string.

(** The reply of the provider to a GET of a URL. *)
Variable httpGet : string -> httpReply.

(** [now.AddDate(-years, 0, 0).Format("2006-01-02")] and
    [now.Format("2006-01-02")] at the time of the request. *)
Variable span : Z -> string * string.

(** Daily bars: an error of the transport, of the status or of the
    decoder is returned as the error. *)
Definition fetchPolygonDaily (ticker from to : string)
  : string + list polygonBar.t :=
  match httpGet (dailyURL polygonAPIKey ticker from to) with
  | GetFailed err => inl err
  | NotOK status => inl ("polygon: " +:+ status)
  | Undecodable err => inl err
  | Decoded results => inr results
  end.

(** The loop of [fetchPolygon1MinForDates] on the dates still to fetch:
    an error of the transport ends the fetch; a date the provider answers
    with another status, or with a body that does not decode, is
    skipped. *)
Fixpoint fetch1MinLoop (ticker : string) (dates : list string)
    (out : gmap string (list polygonBar.t))
  : string + gmap string (list polygonBar.t) :=
  match dates with
  | [] => inr out
  | d :: rest =>
      match httpGet (minuteURL polygonAPIKey ticker d) with
      | GetFailed err => inl err
      | NotOK _ => fetch1MinLoop ticker rest out
      | Undecodable _ => fetch1MinLoop ticker rest out
      | Decoded results => fetch1MinLoop ticker rest (<[d := results]> out)
      end
  end.

Definition fetchPolygon1MinForDates (ticker : string) (dates : list string)
  : string + gmap string (list polygonBar.t) :=
  fetch1MinLoop ticker dates ∅.

(** ** HTTP handlers *)

(** [handleAnalyze] of the two-pass version. *)
Definition handleAnalyze (q : query) : served :=
  let ticker := qTicker q in
  if String.eqb ticker "" then Refused 400 "ticker required"
  else
  let years := yearsOf q in
  let minGap := minGapOf q in
  match fetchPolygonDaily ticker (span years).1 (span years).2 with
  | inl err => Refused 502 err
  | inr daily =>
      let resp := (analyzeDaily newYork daily minGap years ticker).1 in
      let points := (analyzeDaily newYork daily minGap years ticker).2 in
      let dates := sortStrings (collectDates points) in
      match fetchPolygon1MinForDates ticker dates with
      | inl err => Encoded (withError resp ("intraday fetch failed: " +:+ err))
      | inr minutesByDate =>
          Encoded (default resp (analyzeFirst15 newYork (Some resp) minutesByDate))
      end
  end.

(** [handleAnalyze] of main.go. *)
Definition handleAnalyzeGaps (q : query) : served :=
  let ticker := qTicker q in
  if String.eqb ticker "" then Refused 400 "ticker required"
  else
  let years := yearsOf q in
  let minGap := minGapOf q in
  match fetchPolygonDaily ticker (span years).1 (span years).2 with
  | inl err => Refused 502 err
  | inr bars => Encoded (analyzeGaps newYork bars minGap years ticker)
  end.

End Server.

(** ** A concrete setting to run the definitions *)

(** Eastern Standard Time all year (UTC-5). *)
Definition est : Location := fixedZone (-18000000).

Definition bar (t : Z) (o h l c : Q) : polygonBar.t := polygonBar.mk t o h l c 0.

(** Two sessions: Friday 2024-03-01 closing at 100, Monday 2024-03-04
    opening at 101 (a 1% gap up) and closing at 99. *)
Definition gapUpThenDown : list polygonBar.t :=
  [ bar 1709251200000 100 100 100 100;
    bar 1709510400000 101 102 100.5 99 ].

(** Two sessions: a close at 1.00 followed by an open at 2.00, a gap of
    exactly 100% (a price doubling overnight, or a 1-for-2 reverse split
    on unadjusted bars). *)
Definition doubling : list polygonBar.t :=
  [ bar 1709251200000 1 1 1 1;
    bar 1709510400000 2 2 2 2 ].

(** A gap up of 0.07%, below the smallest lower edge a first bin can have. *)
Definition tinyGap : list polygonBar.t :=
  [ bar 1709251200000 100 100 100 100;
    bar 1709510400000 100.07 100.1 100 100.05 ].

(** Three sessions: Fri 2024-03-01, Mon 2024-03-04 (gap up 1%, closing
    lower) and Tue 2024-03-05 (gap down about 1%, closing higher). *)
Definition threeSessions : list polygonBar.t :=
  [ bar 1709251200000 100 100 100 100;
    bar 1709510400000 101 102 100.5 99;
    bar 1709596800000 98 99 97.5 98.5 ].

(** A gap up of 1% followed by a session that closes where it opened. *)
Definition flatDay : list polygonBar.t :=
  [ bar 1709251200000 100 100 100 100;
    bar 1709510400000 101 102 100.5 101 ].

(** A single gap down of 1%. *)
Definition gapDownOnly : list polygonBar.t :=
  [ bar 1709251200000 100 100 100 100;
    bar 1709510400000 99 99.5 98 98.5 ].

(** Two one-minute bars, 09:30 and 09:31 (EST), of Tue 2024-03-05; no
    bars for Mon 2024-03-04. *)
Definition minutes0305 : gmap string (list polygonBar.t) :=
  {[ "2024-03-05" := [ bar 1709649000000 98 98.2 97.9 98.1;
                       bar 1709649060000 98.1 99.1 98 98.3 ] ]}.

(** The sessions of [gapUpThenDown] after one more session, Thu 2024-02-29,
    that closes at the price the next one opens at. *)
Definition paddedGapUpThenDown : list polygonBar.t :=
  bar 1709164800000 100 100 100 100 :: gapUpThenDown.

(** The daily response of [threeSessions], and the same response after the
    overlay with [minutes0305]. *)
Definition dailyOfThree : AnalyzeResponse.t :=
  fst (analyzeDaily est threeSessions 0.3 3 "X").

Definition overlaidThree : AnalyzeResponse.t :=
  default dailyOfThree (analyzeFirst15 est (Some dailyOfThree) minutes0305).

(** A provider with the key "k" that has the daily bars of
    [threeSessions] for "X", minute bars for 2024-03-05 only, and answers
    every other request with a 404; and one whose minute requests all
    fail in transport. *)
Definition provider (url : string) : httpReply :=
  if String.eqb url (dailyURL "k" "X" "2021-03-05" "2024-03-05")
  then Decoded threeSessions
  else if String.eqb url (minuteURL "k" "X" "2024-03-05")
  then Decoded [ bar 1709649000000 98 98.2 97.9 98.1;
                 bar 1709649060000 98.1 99.1 98 98.3 ]
  else NotOK "404 Not Found".

Definition flakyProvider (url : string) : httpReply :=
  if String.eqb url (dailyURL "k" "X" "2021-03-05" "2024-03-05")
  then Decoded threeSessions
  else GetFailed "timeout".

Definition threeYears (years : Z) : string * string :=
  ("2021-03-05", "2024-03-05").

(** A query for "X" with a number of years out of range and no
    threshold. *)
Definition queryX : query :=
  {| qTicker := "X"; qYears := Some 9%Z; qMinGap := None |}.

(** ** Vocabulary of the statements *)

(** The consecutive pairs [(daily[i-1], daily[i])], for [i = 1 ..]. *)
Definition adjacent (daily : list polygonBar.t)
  : list (polygonBar.t * polygonBar.t) :=
  match daily with
  | [] => []
  | first :: rest => zip (first :: rest) rest
  end.

(** A pair passes both [continue] guards of the daily loop. *)
Definition qualifies (minGap : Q) (pd : polygonBar.t * polygonBar.t) : bool :=
  negb (Qle_bool (polygonBar.C pd.1) 0 || Qle_bool (polygonBar.O pd.2) 0)
  && negb (Qltb (Qabs (gapPctOf (polygonBar.C pd.1) (polygonBar.O pd.2))) minGap).

(** The unrounded quantities of an event, from the prices it records. *)
Definition gapOf (p : GapPoint.t) : Q :=
  gapPctOf (GapPoint.PrevClose p) (GapPoint.Open p).
Definition returnOf (p : GapPoint.t) : Q :=
  returnPctOf (GapPoint.Open p) (GapPoint.Close p).
Definition followRetOf (p : GapPoint.t) : Q :=
  float64 (GapPoint.Direction p) * returnOf p.
Definition fadeRetOf (p : GapPoint.t) : Q :=
  - float64 (GapPoint.Direction p) * returnOf p.

(** Left-to-right running sums [acc + x1], [acc + x1 + x2], ... *)
Fixpoint runningSums (acc : Q) (xs : list Q) : list Q :=
  match xs with
  | [] => []
  | x :: rest => (acc + x) :: runningSums (acc + x) rest
  end.

(** Left-to-right total [acc + x1 + ... + xn]. *)
Definition total (acc : Q) (xs : list Q) : Q := foldl Qplus acc xs.

(** The event the daily loop appends for a qualifying pair. *)
Definition eventOf (dateOf dowOf : Z -> string) (bins : list gapBin)
    (pd : polygonBar.t * polygonBar.t) : GapPoint.t :=
  let prevClose := polygonBar.C pd.1 in
  let open := polygonBar.O pd.2 in
  let gapPct := gapPctOf prevClose open in
  let dr := returnPctOf open (polygonBar.C pd.2) in
  {| GapPoint.Date := dateOf (polygonBar.T pd.2);
     GapPoint.GapPct := round3 gapPct;
     GapPoint.DailyReturnPct := round3 dr;
     GapPoint.Direction := sign gapPct;
     GapPoint.SameDir := sameOf dr (sign gapPct);
     GapPoint.Filled := filledOf (sign gapPct) pd.2 prevClose;
     GapPoint.Bin := labelFor (Qabs gapPct) bins;
     GapPoint.Open := open;
     GapPoint.Close := polygonBar.C pd.2;
     GapPoint.PrevClose := prevClose;
     GapPoint.DayOfWeek := dowOf (polygonBar.T pd.2);
     GapPoint.Ret15mPct := 0;
     GapPoint.FilledBy0945 := 0 |}.

(** The continuation rule of an event, on its unrounded daily return. *)
Definition continuationRule (p : GapPoint.t) : Prop :=
  (GapPoint.SameDir p = 1%Z
   <-> (sign (returnOf p) = GapPoint.Direction p
        /\ GapPoint.Direction p <> 0%Z
        /\ ~ returnOf p == 0))
  /\ (GapPoint.SameDir p = 0%Z \/ GapPoint.SameDir p = 1%Z)
  /\ (returnOf p == 0 -> GapPoint.SameDir p = 0%Z)
  /\ GapPoint.Direction p = sign (gapOf p).

(** The gap-fill rule of the event [p] emitted for the pair [pd]. *)
Definition fillRule (p : GapPoint.t) (pd : polygonBar.t * polygonBar.t) : Prop :=
  GapPoint.PrevClose p = polygonBar.C pd.1
  /\ (GapPoint.Filled p = 1%Z
      <-> ((GapPoint.Direction p = 1%Z
            /\ polygonBar.L pd.2 <= polygonBar.C pd.1)
           \/ (GapPoint.Direction p = (-1)%Z
               /\ polygonBar.C pd.1 <= polygonBar.H pd.2)))
  /\ (GapPoint.Filled p = 0%Z \/ GapPoint.Filled p = 1%Z).

(** Dates in the layout YYYY-MM-DD compare as their text does. *)
Definition dateLe (a b : string) : Prop := String.leb a b = true.

(** The threshold rule between a continuation rate and a recommendation. *)
Definition thresholdRule (cr : Q) (rec : string) : Prop :=
  (rec = "FOLLOW" <-> 60 < cr)
  /\ (rec = "FADE" <-> cr < 40)
  /\ (rec = "NEUTRAL" <-> (40 <= cr /\ cr <= 60)).

(** The events of a bin, and how many of them continued. *)
Definition inBin (k : string) (pts : list GapPoint.t) : list GapPoint.t :=
  List.filter (fun p => String.eqb (GapPoint.Bin p) k) pts.
Definition countIn (k : string) (pts : list GapPoint.t) : Z :=
  Z.of_nat (length (inBin k pts)).
Definition contIn (k : string) (pts : list GapPoint.t) : Z :=
  Z.of_nat (length (List.filter (fun p => (GapPoint.SameDir p =? 1)%Z) (inBin k pts))).

(** An entry [s] of the daily [Bins] table against its bin [b], for the
    returned events [pts]. *)
Definition binRule (pts : list GapPoint.t) (s : BinStat.t) (b : gapBin) : Prop :=
  BinStat.Label s = lab b
  /\ BinStat.Count s = countIn (lab b) pts
  /\ (BinStat.Count s = 0%Z -> BinStat.Recommendation s = "")
  /\ (BinStat.Count s <> 0%Z ->
      thresholdRule
        (float64 (contIn (lab b) pts) / float64 (countIn (lab b) pts) * 100.0)
        (BinStat.Recommendation s))
  /\ (BinStat.Count s = 0%Z -> BinStat.ContinuationRate s = 0)
  /\ (BinStat.Count s <> 0%Z ->
      BinStat.ContinuationRate s
      = round1 (float64 (contIn (lab b) pts)
                / float64 (countIn (lab b) pts) * 100.0)).

(** An entry [s] of the [Bins15] table against its bin [b], for the
    accumulators [m] of the overlay. *)
Definition binRule15 (m : gmap string agg15.t) (s : BinStat15.t) (b : gapBin)
  : Prop :=
  BinStat15.Label s = lab b
  /\ BinStat15.Count s = agg15.count (default agg15.zero (m !! lab b))
  /\ (BinStat15.Count s = 0%Z -> BinStat15.Recommendation s = "")
  /\ (BinStat15.Count s <> 0%Z ->
      thresholdRule
        (float64 (agg15.cont (default agg15.zero (m !! lab b)))
         / float64 (agg15.count (default agg15.zero (m !! lab b))) * 100.0)
        (BinStat15.Recommendation s))
  /\ (BinStat15.Count s = 0%Z -> BinStat15.ContinuationRate s = 0)
  /\ (BinStat15.Count s <> 0%Z ->
      BinStat15.ContinuationRate s
      = round1 (float64 (agg15.cont (default agg15.zero (m !! lab b)))
                / float64 (agg15.count (default agg15.zero (m !! lab b)))
                * 100.0)).

(** The intraday map has bars for the session of the event. *)
Definition hasBars (minutesByDate : gmap string (list polygonBar.t))
    (p : GapPoint.t) : bool :=
  negb (length (default [] (minutesByDate !! GapPoint.Date p)) =? 0)%nat.

(** Two events agree on every field the daily pass fills. *)
Definition sameDaily (p p' : GapPoint.t) : Prop :=
  GapPoint.Date p' = GapPoint.Date p
  /\ GapPoint.GapPct p' = GapPoint.GapPct p
  /\ GapPoint.DailyReturnPct p' = GapPoint.DailyReturnPct p
  /\ GapPoint.Direction p' = GapPoint.Direction p
  /\ GapPoint.SameDir p' = GapPoint.SameDir p
  /\ GapPoint.Filled p' = GapPoint.Filled p
  /\ GapPoint.Bin p' = GapPoint.Bin p
  /\ GapPoint.Open p' = GapPoint.Open p
  /\ GapPoint.Close p' = GapPoint.Close p
  /\ GapPoint.PrevClose p' = GapPoint.PrevClose p
  /\ GapPoint.DayOfWeek p' = GapPoint.DayOfWeek p.

(** Two responses agree on every field the daily pass fills, apart from
    the events. *)
Definition sameDailyTables (r r' : AnalyzeResponse.t) : Prop :=
  AnalyzeResponse.Success r' = AnalyzeResponse.Success r
  /\ AnalyzeResponse.Error r' = AnalyzeResponse.Error r
  /\ AnalyzeResponse.Ticker r' = AnalyzeResponse.Ticker r
  /\ AnalyzeResponse.Years r' = AnalyzeResponse.Years r
  /\ AnalyzeResponse.MinGap r' = AnalyzeResponse.MinGap r
  /\ AnalyzeResponse.Summary r' = AnalyzeResponse.Summary r
  /\ AnalyzeResponse.Bins r' = AnalyzeResponse.Bins r
  /\ AnalyzeResponse.ByDOW r' = AnalyzeResponse.ByDOW r
  /\ AnalyzeResponse.UpSide r' = AnalyzeResponse.UpSide r
  /\ AnalyzeResponse.DownSide r' = AnalyzeResponse.DownSide r
  /\ AnalyzeResponse.CumDates r' = AnalyzeResponse.CumDates r
  /\ AnalyzeResponse.CumFade r' = AnalyzeResponse.CumFade r
  /\ AnalyzeResponse.CumFollow r' = AnalyzeResponse.CumFollow r.

(** The 0-15m tables of [r'] are those computed from the overlay
    accumulators [st]. *)
Definition tables15From (st : state15) (r' : AnalyzeResponse.t) : Prop :=
  AnalyzeResponse.Summary15 r' = summary15Of st
  /\ AnalyzeResponse.Bins15 r'
     = binStat15Of (binAgg15 st) <$> defaultBins (AnalyzeResponse.MinGap r')
  /\ AnalyzeResponse.ByDOW15 r' = dowStat15Of <$> dowAgg15 st
  /\ AnalyzeResponse.UpSide15 r' = sideStat15Of (upAgg15 st)
  /\ AnalyzeResponse.DownSide15 r' = sideStat15Of (downAgg15 st).

(** The lower edge of the first bin. *)
Definition effectiveMin (minGap : Q) : Q :=
  if Qltb minGap 0.1 then 0.1 else minGap.

(** A value lies in a bin. *)
Definition inRange (a : Q) (b : gapBin) : Prop := min b <= a /\ a < max b.

Definition sumZ (l : list Z) : Z := foldr Z.add 0%Z l.

(** The events that some bin holds. *)
Definition binned (pts : list GapPoint.t) : list GapPoint.t :=
  List.filter (fun p => negb (String.eqb (GapPoint.Bin p) "other")) pts.

(** ** Invariants of the daily loop *)

(** The extremes start at 0 and only move away from it. *)
Definition maxInv (st : dailyState) : Prop :=
  0 <= maxGapUp st
  /\ maxGapDown st <= 0
  /\ (Forall (fun p => ~ 0 < gapOf p) (points st) -> maxGapUp st = 0)
  /\ (Forall (fun p => ~ gapOf p < 0) (points st) -> maxGapDown st = 0).

(** Weekday accumulators: the keys never change, and a key no event
    carries keeps its initial accumulator. *)
Definition dowInv (st : dailyState) : Prop :=
  dom (dowAgg st) = dom (newAggs weekdays)
  /\ (forall k, Forall (fun p => GapPoint.DayOfWeek p <> k) (points st) ->
      dowAgg st !! k = newAggs weekdays !! k).

(** The accumulators of the two strategies, in terms of the events
    emitted so far. *)
Definition cumInv (st : dailyState) : Prop :=
  cumDates st = GapPoint.Date <$> points st
  /\ cumFollow st = total 0 (followRetOf <$> points st)
  /\ cumFade st = total 0 (fadeRetOf <$> points st)
  /\ followSum st = total 0 (followRetOf <$> points st)
  /\ fadeSum st = total 0 (fadeRetOf <$> points st)
  /\ cumFollowArr st = round3 <$> runningSums 0 (followRetOf <$> points st)
  /\ cumFadeArr st = round3 <$> runningSums 0 (fadeRetOf <$> points st).

(** Every bin accumulator counts the events of its bin. *)
Definition binInv (minGap : Q) (st : dailyState) : Prop :=
  dom (binAgg st) = dom (newAggs (lab <$> defaultBins minGap))
  /\ (forall k a, binAgg st !! k = Some a ->
      count a = countIn k (points st) /\ cont a = contIn k (points st)).

(** ** Further vocabulary *)

(** Rounding to a grid of [1/k]: [round1], [round2] and [round3] are
    [roundTo 10], [roundTo 100] and [roundTo 1000]. *)
Definition roundTo (k : Q) (f : Q) : Q := mathRound (f * k) / k.

(** What the daily loop does with the locals once an event [e] is
    determined, written on the fields of the event. *)
Definition applyEvent (st : dailyState) (e : GapPoint.t) : dailyState :=
  let followRet := followRetOf e in
  let fadeRet := fadeRetOf e in
  let dir := GapPoint.Direction e in
  let same := GapPoint.SameDir e in
  {| binAgg := bump (binAgg st) (GapPoint.Bin e)
                 (fun a => aggBin a followRet fadeRet same (GapPoint.Filled e));
     upAgg := if (dir =? 1)%Z then aggSide (upAgg st) followRet fadeRet same
              else upAgg st;
     downAgg := if (dir =? 1)%Z then downAgg st
                else aggSide (downAgg st) followRet fadeRet same;
     dowAgg := bump (dowAgg st) (GapPoint.DayOfWeek e)
                 (fun a => aggSide a followRet fadeRet same);
     points := points st ++ [e];
     fadeSum := fadeSum st + fadeRet;
     followSum := followSum st + followRet;
     contCount := if (same =? 1)%Z then contCount st + 1 else contCount st;
     upCount := if (dir =? 1)%Z then upCount st + 1 else upCount st;
     downCount := if (dir =? 1)%Z then downCount st
                  else if (dir =? -1)%Z then downCount st + 1
                  else downCount st;
     meanAbsGap := meanAbsGap st + Qabs (gapOf e);
     maxGapUp := if Qltb (maxGapUp st) (gapOf e) then gapOf e else maxGapUp st;
     maxGapDown := if Qltb (gapOf e) (maxGapDown st) then gapOf e
                   else maxGapDown st;
     cumFade := cumFade st + fadeRet;
     cumFollow := cumFollow st + followRet;
     cumDates := cumDates st ++ [GapPoint.Date e];
     cumFadeArr := cumFadeArr st ++ [round3 (cumFade st + fadeRet)];
     cumFollowArr := cumFollowArr st ++ [round3 (cumFollow st + followRet)] |}.

(** How many events satisfy a test. *)
Definition countIf (f : GapPoint.t -> bool) (pts : list GapPoint.t) : Z :=
  Z.of_nat (length (List.filter f pts)).

Definition isUp (p : GapPoint.t) : bool := (GapPoint.Direction p =? 1)%Z.
Definition isDown (p : GapPoint.t) : bool := (GapPoint.Direction p =? -1)%Z.
Definition continued (p : GapPoint.t) : bool := (GapPoint.SameDir p =? 1)%Z.
Definition onWeekday (k : string) (p : GapPoint.t) : bool :=
  String.eqb (GapPoint.DayOfWeek p) k.

(** A value is a percentage. *)
Definition isPercent (x : Q) : Prop := 0 <= x /\ x <= 100.

(** An accumulator is consistent: continuations and fills are among the
    counted events, and the two sums mirror each other. *)
Definition aggOK (a : agg) : Prop :=
  (0 <= cont a <= count a)%Z
  /\ (0 <= filled a <= count a)%Z
  /\ sumFade a == - sumFollow a.

(** The counters and accumulators of the daily loop, in terms of the
    events emitted so far. *)
Definition tallyInv (st : dailyState) : Prop :=
  upCount st = countIf isUp (points st)
  /\ downCount st = countIf isDown (points st)
  /\ contCount st = countIf continued (points st)
  /\ count (upAgg st) = countIf isUp (points st)
  /\ count (downAgg st) = countIf (fun p => negb (isUp p)) (points st)
  /\ aggOK (upAgg st)
  /\ aggOK (downAgg st)
  /\ (forall k a, binAgg st !! k = Some a -> aggOK a)
  /\ (forall k a, dowAgg st !! k = Some a ->
      aggOK a /\ count a = countIf (onWeekday k) (points st))
  /\ fadeSum st == - followSum st
  /\ meanAbsGap st = total 0 ((fun p => Qabs (gapOf p)) <$> points st).

(** The two extremes bound every gap seen and are 0 or one of them. *)
Definition extremeInv (st : dailyState) : Prop :=
  Forall (fun p => gapOf p <= maxGapUp st /\ maxGapDown st <= gapOf p)
    (points st)
  /\ (maxGapUp st = 0 \/ exists p, p ∈ points st /\ maxGapUp st = gapOf p)
  /\ (maxGapDown st = 0 \/ exists p, p ∈ points st /\ maxGapDown st = gapOf p).

(** The counts of the summary and of the two sides against the events. *)
Definition talliesRule (resp : AnalyzeResponse.t) (pts : list GapPoint.t)
  : Prop :=
  Summary.Sessions (AnalyzeResponse.Summary resp) = Z.of_nat (length pts)
  /\ Summary.GapUps (AnalyzeResponse.Summary resp) = countIf isUp pts
  /\ Summary.GapDowns (AnalyzeResponse.Summary resp) = countIf isDown pts
  /\ SideStat.Count (AnalyzeResponse.UpSide resp) = countIf isUp pts
  /\ SideStat.Count (AnalyzeResponse.DownSide resp)
     = (Z.of_nat (length pts) - countIf isUp pts)%Z
  /\ (countIf isUp pts + countIf isDown pts <= Z.of_nat (length pts))%Z.

(** Every rate the daily tables report is a percentage. *)
Definition percentTables (resp : AnalyzeResponse.t) : Prop :=
  isPercent (Summary.ContinuationRate (AnalyzeResponse.Summary resp))
  /\ Forall (fun b => isPercent (BinStat.ContinuationRate b)
                      /\ isPercent (BinStat.GapFillRate b))
       (AnalyzeResponse.Bins resp)
  /\ isPercent (SideStat.ContinuationRate (AnalyzeResponse.UpSide resp))
  /\ isPercent (SideStat.ContinuationRate (AnalyzeResponse.DownSide resp))
  /\ (forall k d, AnalyzeResponse.ByDOW resp !! k = Some d ->
      isPercent (DowStat.ContinuationRate d)).

(** In every daily table the fade figure is the negation of the follow
    figure. *)
Definition mirrorTables (resp : AnalyzeResponse.t) : Prop :=
  Summary.FadeAvg (AnalyzeResponse.Summary resp)
  == - Summary.FollowAvg (AnalyzeResponse.Summary resp)
  /\ Forall2 (fun a b => a == - b)
       (AnalyzeResponse.CumFade resp) (AnalyzeResponse.CumFollow resp)
  /\ Forall (fun b => BinStat.FadeAvg b == - BinStat.FollowAvg b)
       (AnalyzeResponse.Bins resp)
  /\ SideStat.FadeAvg (AnalyzeResponse.UpSide resp)
     == - SideStat.FollowAvg (AnalyzeResponse.UpSide resp)
  /\ SideStat.FadeAvg (AnalyzeResponse.DownSide resp)
     == - SideStat.FollowAvg (AnalyzeResponse.DownSide resp)
  /\ (forall k d, AnalyzeResponse.ByDOW resp !! k = Some d ->
      DowStat.FadeAvg d == - DowStat.FollowAvg d).

(** The best strategy and its expected return against the follow average
    the summary reports: the strategy is decided by the sign of the
    average before rounding, so a reported average that is not 0 fixes
    it, and each strategy bounds the sign of the reported average. *)
Definition bestRule (resp : AnalyzeResponse.t) : Prop :=
  (0 < Summary.FollowAvg (AnalyzeResponse.Summary resp) ->
   Summary.BestStrategy (AnalyzeResponse.Summary resp) = "FOLLOW")
  /\ (Summary.FollowAvg (AnalyzeResponse.Summary resp) < 0 ->
      Summary.BestStrategy (AnalyzeResponse.Summary resp) = "FADE")
  /\ (Summary.BestStrategy (AnalyzeResponse.Summary resp) = "FOLLOW" ->
      0 <= Summary.FollowAvg (AnalyzeResponse.Summary resp))
  /\ (Summary.BestStrategy (AnalyzeResponse.Summary resp) = "FADE" ->
      Summary.FollowAvg (AnalyzeResponse.Summary resp) <= 0)
  /\ (Summary.BestStrategy (AnalyzeResponse.Summary resp) = "NEUTRAL" ->
      Summary.FollowAvg (AnalyzeResponse.Summary resp) == 0)
  /\ (Summary.BestStrategy (AnalyzeResponse.Summary resp) = "FOLLOW"
      \/ Summary.BestStrategy (AnalyzeResponse.Summary resp) = "FADE"
      \/ Summary.BestStrategy (AnalyzeResponse.Summary resp) = "NEUTRAL")
  /\ Summary.ExpectedReturn (AnalyzeResponse.Summary resp)
     == Qabs (Summary.FollowAvg (AnalyzeResponse.Summary resp))
  /\ 0 <= Summary.ExpectedReturn (AnalyzeResponse.Summary resp).

(** Direction and continuation of an event, read on its three prices. *)
Definition priceRule (p : GapPoint.t) : Prop :=
  (GapPoint.Direction p = 1%Z <-> GapPoint.PrevClose p < GapPoint.Open p)
  /\ (GapPoint.Direction p = (-1)%Z <-> GapPoint.Open p < GapPoint.PrevClose p)
  /\ (GapPoint.SameDir p = 1%Z
      <-> ((GapPoint.PrevClose p < GapPoint.Open p
            /\ GapPoint.Open p < GapPoint.Close p)
           \/ (GapPoint.Open p < GapPoint.PrevClose p
               /\ GapPoint.Close p < GapPoint.Open p)))
  /\ (GapPoint.SameDir p = 1%Z <-> 0 < followRetOf p).

(** Two events agree on everything but their date and weekday labels. *)
Definition sameButLabels (p p' : GapPoint.t) : Prop :=
  GapPoint.GapPct p' = GapPoint.GapPct p
  /\ GapPoint.DailyReturnPct p' = GapPoint.DailyReturnPct p
  /\ GapPoint.Direction p' = GapPoint.Direction p
  /\ GapPoint.SameDir p' = GapPoint.SameDir p
  /\ GapPoint.Filled p' = GapPoint.Filled p
  /\ GapPoint.Bin p' = GapPoint.Bin p
  /\ GapPoint.Open p' = GapPoint.Open p
  /\ GapPoint.Close p' = GapPoint.Close p
  /\ GapPoint.PrevClose p' = GapPoint.PrevClose p
  /\ GapPoint.Ret15mPct p' = GapPoint.Ret15mPct p
  /\ GapPoint.FilledBy0945 p' = GapPoint.FilledBy0945 p.

(** Two runs of the daily loop agree on every local that does not depend
    on the labels. *)
Definition agreeInv (st st' : dailyState) : Prop :=
  binAgg st' = binAgg st
  /\ upAgg st' = upAgg st
  /\ downAgg st' = downAgg st
  /\ Forall2 sameButLabels (points st) (points st')
  /\ fadeSum st' = fadeSum st
  /\ followSum st' = followSum st
  /\ contCount st' = contCount st
  /\ upCount st' = upCount st
  /\ downCount st' = downCount st
  /\ meanAbsGap st' = meanAbsGap st
  /\ maxGapUp st' = maxGapUp st
  /\ maxGapDown st' = maxGapDown st
  /\ cumFade st' = cumFade st
  /\ cumFollow st' = cumFollow st
  /\ cumFadeArr st' = cumFadeArr st
  /\ cumFollowArr st' = cumFollowArr st.

(** ** Vocabulary of the overlay *)

(** The bars of the first 15 minutes that the overlay uses for an event:
    those stamped 09:30..09:44, or, when there is none, those stamped
    09:00..09:45. *)
Definition window15 (loc : Location)
    (minutesByDate : gmap string (list polygonBar.t)) (p : GapPoint.t)
  : list polygonBar.t :=
  let mins := default [] (minutesByDate !! GapPoint.Date p) in
  let rth0 := List.filter (inFirst15 loc) mins in
  if (length rth0 =? 0)%nat then List.filter (upTo0945 loc) mins else rth0.

(** The opening price the overlay uses: the open of the first bar of the
    window stamped at minute 30, or the daily open when there is none or
    it is 0. *)
Definition open0930Of (loc : Location) (rth : list polygonBar.t)
    (p : GapPoint.t) : Q :=
  let o := match List.find (fun b => (Minute loc (polygonBar.T b) =? 30)%Z) rth with
           | Some b => polygonBar.O b
           | None => 0
           end in
  if Qeq_bool o 0 then GapPoint.Open p else o.

(** What an iteration of the overlay computes for an event: the unrounded
    0-15m return, the continuation flag and the filled-by-09:45 flag, or
    nothing when the iteration is skipped. *)
Definition overlayOf (loc : Location)
    (minutesByDate : gmap string (list polygonBar.t)) (p : GapPoint.t)
  : option (Q * Z * Z) :=
  let rth := window15 loc minutesByDate p in
  if (length rth =? 0)%nat then None
  else
  let open0930 := open0930Of loc rth p in
  if Qle_bool open0930 0 then None
  else
  let close0945 := match last rth with Some b => polygonBar.C b | None => 0 end in
  let dir := GapPoint.Direction p in
  let filled0945 :=
    if (dir =? 1)%Z then
      if existsb (fun b => Qle_bool (polygonBar.L b) (GapPoint.PrevClose p)) rth
      then 1%Z else 0%Z
    else if (dir =? -1)%Z then
      if existsb (fun b => Qle_bool (GapPoint.PrevClose p) (polygonBar.H b)) rth
      then 1%Z else 0%Z
    else 0%Z in
  let ret15 := returnPctOf open0930 close0945 in
  Some (ret15, sameOf ret15 dir, filled0945).

(** What an iteration that is not skipped does with the locals. *)
Definition update15 (st : state15) (p : GapPoint.t)
    (ret15 : Q) (cont15 filled0945 : Z) : state15 :=
  let dir := GapPoint.Direction p in
  let followRet15 := float64 dir * ret15 in
  let fadeRet15 := - float64 dir * ret15 in
  let upd := fun a => agg15Add a followRet15 fadeRet15 cont15 filled0945 in
  {| binAgg15 := bump15 (binAgg15 st) (GapPoint.Bin p) upd;
     upAgg15 := if (dir =? 1)%Z then upd (upAgg15 st) else upAgg15 st;
     downAgg15 := if (dir =? 1)%Z then downAgg15 st else upd (downAgg15 st);
     dowAgg15 := bump15 (dowAgg15 st) (GapPoint.DayOfWeek p) upd;
     fadeSum15 := fadeSum15 st + fadeRet15;
     followSum15 := followSum15 st + followRet15;
     contCount15 := contCount15 st + cont15;
     filledBy0945Count := filledBy0945Count st + filled0945;
     sessions15 := sessions15 st + 1 |}.

(** The overlay computes something for the event. *)
Definition covered (loc : Location)
    (minutesByDate : gmap string (list polygonBar.t)) (p : GapPoint.t) : bool :=
  match overlayOf loc minutesByDate p with Some _ => true | None => false end.

(** An overlay accumulator is consistent. *)
Definition agg15OK (a : agg15.t) : Prop :=
  (0 <= agg15.cont a <= agg15.count a)%Z
  /\ (0 <= agg15.filledBy0945 a <= agg15.count a)%Z
  /\ agg15.sumFade a == - agg15.sumFollow a.

(** The locals of the overlay loop are consistent. *)
Definition inv15 (st : state15) : Prop :=
  (0 <= contCount15 st <= sessions15 st)%Z
  /\ (0 <= filledBy0945Count st <= sessions15 st)%Z
  /\ (agg15.count (upAgg15 st) + agg15.count (downAgg15 st))%Z = sessions15 st
  /\ agg15OK (upAgg15 st)
  /\ agg15OK (downAgg15 st)
  /\ (forall k a, binAgg15 st !! k = Some a -> agg15OK a)
  /\ (forall k a, dowAgg15 st !! k = Some a -> agg15OK a)
  /\ fadeSum15 st == - followSum15 st.

(** Every rate the 0-15m tables report is a percentage. *)
Definition percentTables15 (resp : AnalyzeResponse.t) : Prop :=
  isPercent (Summary15.ContinuationRate (AnalyzeResponse.Summary15 resp))
  /\ isPercent (Summary15.GapFillBy0945Rate (AnalyzeResponse.Summary15 resp))
  /\ Forall (fun b => isPercent (BinStat15.ContinuationRate b)
                      /\ isPercent (BinStat15.GapFillBy0945Rate b))
       (AnalyzeResponse.Bins15 resp)
  /\ isPercent (SideStat.ContinuationRate (AnalyzeResponse.UpSide15 resp))
  /\ isPercent (SideStat.ContinuationRate (AnalyzeResponse.DownSide15 resp))
  /\ (forall k d, AnalyzeResponse.ByDOW15 resp !! k = Some d ->
      isPercent (DowStat.ContinuationRate d)).

(** In every 0-15m table the fade figure is the negation of the follow
    figure. *)
Definition mirrorTables15 (resp : AnalyzeResponse.t) : Prop :=
  Summary15.FadeAvg (AnalyzeResponse.Summary15 resp)
  == - Summary15.FollowAvg (AnalyzeResponse.Summary15 resp)
  /\ Forall (fun b => BinStat15.FadeAvg b == - BinStat15.FollowAvg b)
       (AnalyzeResponse.Bins15 resp)
  /\ SideStat.FadeAvg (AnalyzeResponse.UpSide15 resp)
     == - SideStat.FollowAvg (AnalyzeResponse.UpSide15 resp)
  /\ SideStat.FadeAvg (AnalyzeResponse.DownSide15 resp)
     == - SideStat.FollowAvg (AnalyzeResponse.DownSide15 resp)
  /\ (forall k d, AnalyzeResponse.ByDOW15 resp !! k = Some d ->
      DowStat.FadeAvg d == - DowStat.FollowAvg d).

(** The session counts of the 0-15m tables against the events the overlay
    was given. *)
Definition sessions15Rule (loc : Location)
    (minutesByDate : gmap string (list polygonBar.t))
    (pts : list GapPoint.t) (resp : AnalyzeResponse.t) : Prop :=
  Summary15.Sessions (AnalyzeResponse.Summary15 resp)
  = countIf (covered loc minutesByDate) pts
  /\ (countIf (covered loc minutesByDate) pts
      <= countIf (hasBars minutesByDate) pts <= Z.of_nat (length pts))%Z
  /\ (SideStat.Count (AnalyzeResponse.UpSide15 resp)
      + SideStat.Count (AnalyzeResponse.DownSide15 resp))%Z
     = Summary15.Sessions (AnalyzeResponse.Summary15 resp).

(** The covered events of a bin, and of a weekday. *)
Definition coveredIn (loc : Location)
    (minutesByDate : gmap string (list polygonBar.t)) (k : string)
    (p : GapPoint.t) : bool :=
  covered loc minutesByDate p && String.eqb (GapPoint.Bin p) k.

Definition coveredOn (loc : Location)
    (minutesByDate : gmap string (list polygonBar.t)) (k : string)
    (p : GapPoint.t) : bool :=
  covered loc minutesByDate p && String.eqb (GapPoint.DayOfWeek p) k.




(** The intraday map with every bar stamped outside 09:00..09:45 removed. *)
Definition onlyWindow (loc : Location)
    (minutesByDate : gmap string (list polygonBar.t))
  : gmap string (list polygonBar.t) :=
  List.filter (upTo0945 loc) <$> minutesByDate.

(** Coordinated Universal Time ([time.UTC]). *)
Definition utc : Location := fixedZone 0.

(** ** Vocabulary of the fetchers and handlers *)

(** What the provider has for the minute bars of a date: the decoded bars
    of its reply, or nothing. *)
Definition fetchedBars (polygonAPIKey : string) (httpGet : string -> httpReply)
    (ticker d : string) : option (list polygonBar.t) :=
  match httpGet (minuteURL polygonAPIKey ticker d) with
  | Decoded results => Some results
  | _ => None
  end.

(** What every response a handler encodes satisfies: the ticker is that of
    the query and is not empty, the years and the threshold are in the
    ranges the handler accepts, every event has a direction, and gap-ups
    and gap-downs add up to the sessions. *)
Definition servedRule (q : query) (resp : AnalyzeResponse.t) : Prop :=
  qTicker q <> ""
  /\ AnalyzeResponse.Ticker resp = qTicker q
  /\ (1 <= AnalyzeResponse.Years resp <= 5)%Z
  /\ 0 < AnalyzeResponse.MinGap resp
  /\ AnalyzeResponse.MinGap resp < 20
  /\ Forall (fun p => GapPoint.Direction p = 1%Z \/ GapPoint.Direction p = (-1)%Z)
       (AnalyzeResponse.Data resp)
  /\ (Summary.GapUps (AnalyzeResponse.Summary resp)
      + Summary.GapDowns (AnalyzeResponse.Summary resp))%Z
     = Summary.Sessions (AnalyzeResponse.Summary resp).

(** The daily tables of [resp] are those of [r]. *)
Definition dailyTablesOf (r resp : AnalyzeResponse.t) : Prop :=
  AnalyzeResponse.Summary resp = AnalyzeResponse.Summary r
  /\ AnalyzeResponse.Bins resp = AnalyzeResponse.Bins r
  /\ AnalyzeResponse.ByDOW resp = AnalyzeResponse.ByDOW r
  /\ AnalyzeResponse.UpSide resp = AnalyzeResponse.UpSide r
  /\ AnalyzeResponse.DownSide resp = AnalyzeResponse.DownSide r
  /\ AnalyzeResponse.CumDates resp = AnalyzeResponse.CumDates r
  /\ AnalyzeResponse.CumFade resp = AnalyzeResponse.CumFade r
  /\ AnalyzeResponse.CumFollow resp = AnalyzeResponse.CumFollow r.

(** * Properties *)

(** ** Comparisons and rounding *)

Lemma Qltb_lt (x y : Q) : Qltb x y = true <-> x < y.
Proof.
  unfold Qltb. rewrite negb_true_iff. split.
  - intros E. apply Qnot_le_lt. intros Hle.
    apply Qle_bool_iff in Hle. congruence.
  - intros Hlt. destruct (Qle_bool y x) eqn:E; [|reflexivity].
    apply Qle_bool_iff in E. lra.
Qed.

Lemma Qltb_ge (x y : Q) : Qltb x y = false <-> y <= x.
Proof.
  unfold Qltb. rewrite negb_false_iff. apply Qle_bool_iff.
Qed.

Lemma Qle_bool_gt (x y : Q) : Qle_bool x y = false <-> y < x.
Proof.
  rewrite <- Qltb_lt. unfold Qltb. rewrite negb_true_iff. reflexivity.
Qed.

Lemma sign_pos (x : Q) : sign x = 1%Z <-> 0 < x.
Proof.
  unfold sign. destruct (Qltb 0 x) eqn:E1.
  - apply Qltb_lt in E1. tauto.
  - apply Qltb_ge in E1. destruct (Qltb x 0); split; intros; try discriminate; lra.
Qed.

Lemma sign_neg (x : Q) : sign x = (-1)%Z <-> x < 0.
Proof.
  unfold sign. destruct (Qltb 0 x) eqn:E1.
  - apply Qltb_lt in E1. split; intros; try discriminate; lra.
  - destruct (Qltb x 0) eqn:E2.
    + apply Qltb_lt in E2. tauto.
    + apply Qltb_ge in E2. split; intros; try discriminate; lra.
Qed.

Lemma sign_zero (x : Q) : sign x = 0%Z <-> x == 0.
Proof.
  unfold sign. destruct (Qltb 0 x) eqn:E1.
  - apply Qltb_lt in E1. split; intros; try discriminate; lra.
  - apply Qltb_ge in E1. destruct (Qltb x 0) eqn:E2.
    + apply Qltb_lt in E2. split; intros; try discriminate; lra.
    + apply Qltb_ge in E2. split; intros; [lra | reflexivity].
Qed.

Lemma sign_cases (x : Q) : sign x = 1%Z \/ sign x = (-1)%Z \/ sign x = 0%Z.
Proof. unfold sign. destruct (Qltb 0 x), (Qltb x 0); auto. Qed.

Lemma mathRound_nonneg (x : Q) : 0 <= x -> 0 <= mathRound x.
Proof.
  intros Hx. unfold mathRound.
  destruct (Qle_bool 0 x) eqn:E.
  - change 0 with (inject_Z 0). rewrite <- Zle_Qle.
    change 0%Z with (Qfloor 0). apply Qfloor_resp_le. lra.
  - apply Qle_bool_gt in E. lra.
Qed.

Lemma mathRound_nonpos (x : Q) : x <= 0 -> mathRound x <= 0.
Proof.
  intros Hx. unfold mathRound.
  destruct (Qle_bool 0 x) eqn:E.
  - apply Qle_bool_iff in E.
    assert (Hz : x == 0) by lra.
    change 0 with (inject_Z 0). rewrite <- Zle_Qle.
    assert (Hf : (Qfloor (x + 0.5) <= Qfloor 0.5)%Z)
      by (apply Qfloor_resp_le; lra).
    change (Qfloor 0.5) with 0%Z in Hf. exact Hf.
  - change 0 with (inject_Z 0). rewrite <- Zle_Qle.
    assert (Hf : (Qfloor 0 <= Qfloor (- x + 0.5))%Z)
      by (apply Qfloor_resp_le; lra).
    change (Qfloor 0) with 0%Z in Hf. lia.
Qed.

Lemma scaled_nonneg (k : Q) :
  0 < k -> forall x, 0 <= x -> 0 <= mathRound (x * k) / k.
Proof.
  intros Hk x Hx.
  assert (H1 : 0 <= mathRound (x * k)).
  { apply mathRound_nonneg. apply Qmult_le_0_compat; lra. }
  apply Qle_shift_div_l; [exact Hk | lra].
Qed.

Lemma scaled_nonpos (k : Q) :
  0 < k -> forall x, x <= 0 -> mathRound (x * k) / k <= 0.
Proof.
  intros Hk x Hx.
  assert (H1 : mathRound (x * k) <= 0).
  { apply mathRound_nonpos.
    assert (0 <= (- x) * k) by (apply Qmult_le_0_compat; lra). lra. }
  apply Qle_shift_div_r; [exact Hk | lra].
Qed.

Lemma round2_nonneg (x : Q) : 0 <= x -> 0 <= round2 x.
Proof. apply (scaled_nonneg 100). reflexivity. Qed.

Lemma round2_nonpos (x : Q) : x <= 0 -> round2 x <= 0.
Proof. apply (scaled_nonpos 100). reflexivity. Qed.

(** ** The daily loop *)

Section DailyFacts.

Variables dateOf dowOf : Z -> string.
Variable minGap : Q.
Variable bins : list gapBin.

Local Abbreviation step := (dailyStep dateOf dowOf minGap bins).
Local Abbreviation loop := (dailyLoop dateOf dowOf minGap bins).
Local Abbreviation event := (eventOf dateOf dowOf bins).



Ltac step_cases :=
  unfold qualifies, dailyStep; simpl;
  destruct (Qle_bool (polygonBar.C _) 0 || Qle_bool (polygonBar.O _) 0);
    simpl; [rewrite ?app_nil_r; try reflexivity|];
  destruct (Qltb _ minGap); simpl; rewrite ?app_nil_r; try reflexivity.

Lemma dailyStep_points st prev day :
  points (step st prev day)
  = points st ++ (if qualifies minGap (prev, day) then [event (prev, day)] else []).
Proof. step_cases. Qed.

Lemma dailyStep_cumDates st prev day :
  cumDates (step st prev day)
  = cumDates st ++ (if qualifies minGap (prev, day)
                    then [GapPoint.Date (event (prev, day))] else []).
Proof. step_cases. Qed.

Lemma dailyStep_cumFollow st prev day :
  cumFollow (step st prev day)
  = if qualifies minGap (prev, day)
    then cumFollow st + followRetOf (event (prev, day)) else cumFollow st.
Proof. step_cases. Qed.

Lemma dailyStep_cumFade st prev day :
  cumFade (step st prev day)
  = if qualifies minGap (prev, day)
    then cumFade st + fadeRetOf (event (prev, day)) else cumFade st.
Proof. step_cases. Qed.

Lemma dailyStep_followSum st prev day :
  followSum (step st prev day)
  = if qualifies minGap (prev, day)
    then followSum st + followRetOf (event (prev, day)) else followSum st.
Proof. step_cases. Qed.

Lemma dailyStep_fadeSum st prev day :
  fadeSum (step st prev day)
  = if qualifies minGap (prev, day)
    then fadeSum st + fadeRetOf (event (prev, day)) else fadeSum st.
Proof. step_cases. Qed.

Lemma dailyStep_cumFollowArr st prev day :
  cumFollowArr (step st prev day)
  = cumFollowArr st ++
    (if qualifies minGap (prev, day)
     then [round3 (cumFollow st + followRetOf (event (prev, day)))] else []).
Proof. step_cases. Qed.

Lemma dailyStep_cumFadeArr st prev day :
  cumFadeArr (step st prev day)
  = cumFadeArr st ++
    (if qualifies minGap (prev, day)
     then [round3 (cumFade st + fadeRetOf (event (prev, day)))] else []).
Proof. step_cases. Qed.

Lemma dailyStep_dowAgg st prev day :
  dowAgg (step st prev day)
  = if qualifies minGap (prev, day)
    then bump (dowAgg st) (GapPoint.DayOfWeek (event (prev, day)))
           (fun a => aggSide a (followRetOf (event (prev, day)))
                       (fadeRetOf (event (prev, day)))
                       (GapPoint.SameDir (event (prev, day))))
    else dowAgg st.
Proof. step_cases. Qed.

Lemma dailyStep_maxGapUp st prev day :
  maxGapUp (step st prev day)
  = if qualifies minGap (prev, day)
    then (if Qltb (maxGapUp st) (gapOf (event (prev, day)))
          then gapOf (event (prev, day)) else maxGapUp st)
    else maxGapUp st.
Proof. step_cases. Qed.

Lemma dailyStep_maxGapDown st prev day :
  maxGapDown (step st prev day)
  = if qualifies minGap (prev, day)
    then (if Qltb (gapOf (event (prev, day))) (maxGapDown st)
          then gapOf (event (prev, day)) else maxGapDown st)
    else maxGapDown st.
Proof. step_cases. Qed.

(** The loop is a left fold of the step over the consecutive pairs. *)
Lemma dailyLoop_foldl rest : forall st prev,
  loop st prev rest
  = foldl (fun s pd => step s pd.1 pd.2) st (zip (prev :: rest) rest).
Proof.
  induction rest as [|day rest IH]; intros st prev; [reflexivity|].
  simpl. rewrite IH. reflexivity.
Qed.

(** A property kept by every iteration holds when the loop ends. *)
Lemma dailyLoop_inv (P : dailyState -> Prop) :
  (forall st prev day, P st -> P (step st prev day)) ->
  forall rest st prev, P st -> P (loop st prev rest).
Proof.
  intros Hstep. induction rest as [|day rest IH]; intros st prev HP; simpl.
  - exact HP.
  - apply IH, Hstep, HP.
Qed.

(** The events are exactly those of the qualifying pairs, in order. *)
Lemma dailyLoop_points rest : forall st prev,
  points (loop st prev rest)
  = points st ++ (event <$> List.filter (qualifies minGap) (zip (prev :: rest) rest)).
Proof.
  induction rest as [|day rest IH]; intros st prev.
  - simpl. rewrite app_nil_r. reflexivity.
  - change (loop st prev (day :: rest)) with (loop (step st prev day) day rest).
    rewrite IH, dailyStep_points.
    change (zip (prev :: day :: rest) (day :: rest))
      with ((prev, day) :: zip (day :: rest) rest).
    simpl List.filter. destruct (qualifies minGap (prev, day)); simpl.
    + rewrite <- app_assoc. reflexivity.
    + rewrite app_nil_r. reflexivity.
Qed.

End DailyFacts.

(** ** The daily analysis as a whole *)

Section CoreFacts.

Variables dateOf dowOf : Z -> string.
Variable minGap : Q.

Local Abbreviation bins := (defaultBins minGap).
Local Abbreviation event := (eventOf dateOf dowOf bins).
Local Abbreviation run := (dailyRun dateOf dowOf).
Local Abbreviation core := (analyzeCore dateOf dowOf).

Lemma dailyRun_points daily :
  points (run daily minGap)
  = event <$> List.filter (qualifies minGap) (adjacent daily).
Proof.
  destruct daily as [|first rest]; [reflexivity|].
  unfold dailyRun, adjacent. rewrite dailyLoop_points. reflexivity.
Qed.

Lemma adjacent_short daily : (length daily < 2)%nat -> adjacent daily = [].
Proof.
  destruct daily as [|a [|b rest]]; simpl; intros; try reflexivity; lia.
Qed.


Lemma core_short daily years ticker :
  (length daily < 2)%nat ->
  core daily minGap years ticker
  = (emptyResponse false "not enough data" minGap years ticker, []).
Proof.
  intros H. unfold analyzeCore.
  destruct (Z.ltb_spec (Z.of_nat (length daily)) 2); [reflexivity | lia].
Qed.

Lemma core_long daily years ticker :
  (2 <= length daily)%nat ->
  core daily minGap years ticker
  = (dailyResponse bins (run daily minGap) minGap years ticker,
     points (run daily minGap)).
Proof.
  intros H. unfold analyzeCore.
  destruct (Z.ltb_spec (Z.of_nat (length daily)) 2); [lia | reflexivity].
Qed.

Lemma core_cases daily years ticker :
  ((length daily < 2)%nat /\
   core daily minGap years ticker
   = (emptyResponse false "not enough data" minGap years ticker, []))
  \/ ((2 <= length daily)%nat /\
      core daily minGap years ticker
      = (dailyResponse bins (run daily minGap) minGap years ticker,
         points (run daily minGap))).
Proof.
  destruct (Nat.lt_ge_cases (length daily) 2) as [H|H].
  - left. split; [exact H | apply core_short, H].
  - right. split; [exact H | apply core_long, H].
Qed.

(** The returned events, for every input. *)
Lemma core_events daily years ticker :
  snd (core daily minGap years ticker)
  = event <$> List.filter (qualifies minGap) (adjacent daily).
Proof.
  destruct (core_cases daily years ticker) as [[H E]|[H E]]; rewrite E; simpl.
  - rewrite adjacent_short by exact H. reflexivity.
  - apply dailyRun_points.
Qed.

Lemma core_data daily years ticker :
  AnalyzeResponse.Data (fst (core daily minGap years ticker))
  = snd (core daily minGap years ticker).
Proof.
  destruct (core_cases daily years ticker) as [[H E]|[H E]]; rewrite E;
    reflexivity.
Qed.

(** What holds of the event of every qualifying pair holds of every
    returned event. *)
Lemma core_events_Forall (P : GapPoint.t -> Prop) daily years ticker :
  (forall pd, qualifies minGap pd = true -> P (event pd)) ->
  Forall P (snd (core daily minGap years ticker)).
Proof.
  intros HP. rewrite core_events. apply Forall_fmap, Forall_forall.
  intros pd Hin. apply list_elem_of_In, filter_In in Hin.
  apply HP, Hin.
Qed.


End CoreFacts.

Lemma qualifies_threshold minGap pd :
  qualifies minGap pd = true ->
  minGap <= Qabs (gapPctOf (polygonBar.C pd.1) (polygonBar.O pd.2))
  /\ 0 < polygonBar.C pd.1 /\ 0 < polygonBar.O pd.2.
Proof.
  unfold qualifies. rewrite andb_true_iff, !negb_true_iff, orb_false_iff.
  intros [[H1 H2] H3].
  apply Qltb_ge in H3. apply Qle_bool_gt in H1, H2. auto.
Qed.

Lemma Qeq_bool_false (x y : Q) : Qeq_bool x y = false <-> ~ x == y.
Proof.
  split.
  - intros E H. apply Qeq_bool_iff in H. congruence.
  - intros H. destruct (Qeq_bool x y) eqn:E; [|reflexivity].
    apply Qeq_bool_iff in E. contradiction.
Qed.

Lemma sameOf_spec (dr : Q) (dir : Z) :
  sameOf dr dir = 1%Z <-> (sign dr = dir /\ dir <> 0%Z /\ ~ dr == 0).
Proof.
  unfold sameOf.
  destruct (Z.eqb_spec (sign dr) dir) as [E1|E1];
  destruct (Z.eqb_spec dir 0) as [E2|E2];
  destruct (Qeq_bool dr 0) eqn:E3; simpl;
  first [apply Qeq_bool_iff in E3 | apply Qeq_bool_false in E3];
  (split; [intros H; first [discriminate H | tauto] | intros (? & ? & ?); tauto]).
Qed.

Lemma sameOf_flag (dr : Q) (dir : Z) : sameOf dr dir = 0%Z \/ sameOf dr dir = 1%Z.
Proof.
  unfold sameOf.
  destruct ((sign dr =? dir)%Z && negb (dir =? 0)%Z && negb (Qeq_bool dr 0));
    auto.
Qed.

Lemma filledOf_spec (dir : Z) (day : polygonBar.t) (prevClose : Q) :
  filledOf dir day prevClose = 1%Z
  <-> ((dir = 1%Z /\ polygonBar.L day <= prevClose)
       \/ (dir = (-1)%Z /\ prevClose <= polygonBar.H day)).
Proof.
  unfold filledOf.
  destruct (Z.eqb_spec dir 1) as [E1|E1];
  destruct (Z.eqb_spec dir (-1)) as [E2|E2];
  destruct (Qle_bool (polygonBar.L day) prevClose) eqn:E3;
  destruct (Qle_bool prevClose (polygonBar.H day)) eqn:E4; simpl;
  first [apply Qle_bool_iff in E3 | apply Qle_bool_gt in E3];
  first [apply Qle_bool_iff in E4 | apply Qle_bool_gt in E4];
  (split;
   [ intros H; first [discriminate H | tauto]
   | intros [[? ?]|[? ?]]; first [reflexivity | lia | lra] ]).
Qed.

Lemma filledOf_flag dir day prevClose :
  filledOf dir day prevClose = 0%Z \/ filledOf dir day prevClose = 1%Z.
Proof.
  unfold filledOf.
  destruct (((dir =? 1)%Z && Qle_bool (polygonBar.L day) prevClose)
            || ((dir =? -1)%Z && Qle_bool prevClose (polygonBar.H day))); auto.
Qed.

(** ** The extractor *)


(** C5. For every event returned by the daily analysis, the continuation
    flag is 1 exactly when the sign of the daily return equals the gap
    direction, the direction is not 0 and the daily return is not 0; the
    flag is 0 or 1; and an event whose daily return is exactly 0 has flag
    0 whatever its direction.  The daily return is the unrounded
    [(close - open) / open * 100] on the prices the event records. *)
Theorem C5_continuation_flag
    (loc : Location) (daily : list polygonBar.t) (minGap : Q)
    (years : Z) (ticker : string) :
  Forall continuationRule (snd (analyzeDaily loc daily minGap years ticker))
  /\ Forall continuationRule
       (AnalyzeResponse.Data (analyzeGaps loc daily minGap years ticker)).
Proof.
  assert (H : forall dateOf dowOf pd,
             continuationRule (eventOf dateOf dowOf (defaultBins minGap) pd)).
  { intros dateOf dowOf pd. unfold continuationRule, returnOf, gapOf. simpl.
    pose proof (sameOf_spec
      (returnPctOf (polygonBar.O pd.2) (polygonBar.C pd.2))
      (sign (gapPctOf (polygonBar.C pd.1) (polygonBar.O pd.2)))) as Hs.
    pose proof (sameOf_flag
      (returnPctOf (polygonBar.O pd.2) (polygonBar.C pd.2))
      (sign (gapPctOf (polygonBar.C pd.1) (polygonBar.O pd.2)))) as Hf.
    split; [exact Hs|]. split; [exact Hf|]. split; [|reflexivity].
    intros Hz. destruct Hf as [Hf|Hf]; [exact Hf|].
    apply Hs in Hf. tauto. }
  unfold analyzeDaily, analyzeGaps. rewrite core_data.
  split; apply core_events_Forall; intros pd _; apply H.
Qed.

(** C6. The events returned by the daily analysis are, in order, those of
    the consecutive pairs that pass the filter, and the gap-filled flag of
    the event of the pair [(prev, day)] is 1 exactly when its direction is
    +1 and [day.low <= prev.close] or its direction is -1 and
    [day.high >= prev.close]; it is 0 otherwise. *)
Theorem C6_gap_filled_flag
    (loc : Location) (daily : list polygonBar.t) (minGap : Q)
    (years : Z) (ticker : string) :
  Forall2 fillRule
    (snd (analyzeDaily loc daily minGap years ticker))
    (List.filter (qualifies minGap) (adjacent daily))
  /\ Forall2 fillRule
       (AnalyzeResponse.Data (analyzeGaps loc daily minGap years ticker))
       (List.filter (qualifies minGap) (adjacent daily)).
Proof.
  assert (H : forall dateOf dowOf l,
             Forall2 fillRule (eventOf dateOf dowOf (defaultBins minGap) <$> l) l).
  { intros dateOf dowOf l. induction l as [|pd l IH]; constructor; [|exact IH].
    unfold fillRule. simpl. repeat split.
    - apply filledOf_spec.
    - apply filledOf_spec.
    - apply filledOf_flag. }
  unfold analyzeDaily, analyzeGaps. rewrite core_data, !core_events.
  split; apply H.
Qed.

(** C9. With fewer than two daily bars the analysis returns normally with
    [Success = false] and the message ["not enough data"]; the result
    holds no events, no cumulative entries, a zero summary and empty
    tables.  The same holds of [analyzeGaps]. *)
Theorem C9_insufficient_data
    (loc : Location) (daily : list polygonBar.t) (minGap : Q)
    (years : Z) (ticker : string) :
  (length daily < 2)%nat ->
  analyzeDaily loc daily minGap years ticker
  = (emptyResponse false "not enough data" minGap years ticker, [])
  /\ analyzeGaps loc daily minGap years ticker
     = emptyResponse false "not enough data" minGap years ticker
  /\ (let resp := fst (analyzeDaily loc daily minGap years ticker) in
      AnalyzeResponse.Success resp = false
      /\ AnalyzeResponse.Error resp = "not enough data"
      /\ AnalyzeResponse.Data resp = []
      /\ AnalyzeResponse.CumDates resp = []
      /\ AnalyzeResponse.CumFade resp = []
      /\ AnalyzeResponse.CumFollow resp = []
      /\ AnalyzeResponse.Summary resp = Summary.zero
      /\ AnalyzeResponse.Bins resp = []
      /\ AnalyzeResponse.ByDOW resp = ∅).
Proof.
  intros H. unfold analyzeDaily, analyzeGaps.
  rewrite !core_short by exact H. simpl. repeat split.
Qed.

(** ** The aggregates *)

Lemma newAggs_dom (keys : list string) :
  dom (newAggs keys) = (list_to_set keys : gset string).
Proof.
  unfold newAggs.
  assert (H : forall (m : gmap string agg),
            dom (foldl (fun m k => <[k := agg0]> m) m keys)
            = list_to_set keys ∪ dom m).
  { induction keys as [|k keys IH]; intros m; simpl.
    - rewrite (left_id_L ∅ (∪)). reflexivity.
    - rewrite IH, dom_insert_L, (assoc_L (∪)), (comm_L (∪) _ {[k]}).
      reflexivity. }
  rewrite H, dom_empty_L, (right_id_L ∅ (∪)). reflexivity.
Qed.

Section AggregateFacts.

Variables dateOf dowOf : Z -> string.
Variable minGap : Q.

Local Abbreviation bins := (defaultBins minGap).
Local Abbreviation step := (dailyStep dateOf dowOf minGap bins).
Local Abbreviation event := (eventOf dateOf dowOf bins).
Local Abbreviation run := (dailyRun dateOf dowOf).
Local Abbreviation core := (analyzeCore dateOf dowOf).

Lemma maxInv_step st prev day : maxInv st -> maxInv (step st prev day).
Proof.
  intros (Hu & Hd & Hu0 & Hd0). unfold maxInv.
  rewrite dailyStep_maxGapUp, dailyStep_maxGapDown, dailyStep_points.
  destruct (qualifies minGap (prev, day)).
  2:{ rewrite app_nil_r. auto. }
  set (g := gapOf (event (prev, day))).
  repeat split.
  - destruct (Qltb (maxGapUp st) g) eqn:E; [apply Qltb_lt in E; lra | exact Hu].
  - destruct (Qltb g (maxGapDown st)) eqn:E; [apply Qltb_lt in E; lra | exact Hd].
  - intros HF. apply Forall_app in HF as [HF1 HF2].
    apply List.Forall_inv in HF2.
    rewrite (Hu0 HF1).
    destruct (Qltb 0 g) eqn:E; [|reflexivity].
    apply Qltb_lt in E. exfalso. exact (HF2 E).
  - intros HF. apply Forall_app in HF as [HF1 HF2].
    apply List.Forall_inv in HF2.
    rewrite (Hd0 HF1).
    destruct (Qltb g 0) eqn:E; [|reflexivity].
    apply Qltb_lt in E. exfalso. exact (HF2 E).
Qed.

Lemma maxInv_run daily : maxInv (run daily minGap).
Proof.
  assert (H0 : maxInv (dailyInit bins)).
  { unfold maxInv. simpl. repeat split; intros; lra. }
  destruct daily as [|first rest]; [exact H0|].
  unfold dailyRun. apply dailyLoop_inv; [|exact H0].
  intros st prev day. apply maxInv_step.
Qed.

Lemma core_max_gaps daily years ticker :
  0 <= Summary.MaxGapUp (AnalyzeResponse.Summary (fst (core daily minGap years ticker)))
  /\ Summary.MaxGapDown (AnalyzeResponse.Summary (fst (core daily minGap years ticker))) <= 0
  /\ (Forall (fun p => ~ 0 < gapOf p) (snd (core daily minGap years ticker)) ->
      Summary.MaxGapUp (AnalyzeResponse.Summary (fst (core daily minGap years ticker))) == 0)
  /\ (Forall (fun p => ~ gapOf p < 0) (snd (core daily minGap years ticker)) ->
      Summary.MaxGapDown (AnalyzeResponse.Summary (fst (core daily minGap years ticker))) == 0).
Proof.
  destruct (core_cases dateOf dowOf minGap daily years ticker) as [[H E]|[H E]];
    rewrite E; simpl.
  - repeat split; intros; lra.
  - destruct (maxInv_run daily) as (Hu & Hd & Hu0 & Hd0).
    repeat split.
    + apply round2_nonneg, Hu.
    + apply round2_nonpos, Hd.
    + intros HF. rewrite (Hu0 HF). reflexivity.
    + intros HF. rewrite (Hd0 HF). reflexivity.
Qed.

Lemma bump_dom (m : gmap string agg) k f : dom (bump m k f) = dom m.
Proof.
  unfold bump. destruct (m !! k) eqn:E; [|reflexivity].
  rewrite dom_insert_L.
  apply subseteq_union_1_L, singleton_subseteq_l, elem_of_dom. eauto.
Qed.

Lemma bump_lookup_ne (m : gmap string agg) k k' f :
  k <> k' -> bump m k f !! k' = m !! k'.
Proof.
  intros Hne. unfold bump. destruct (m !! k); [|reflexivity].
  apply lookup_insert_ne, Hne.
Qed.

Lemma dowInv_step st prev day : dowInv st -> dowInv (step st prev day).
Proof.
  intros [Hdom Hkeep]. unfold dowInv.
  rewrite dailyStep_dowAgg, dailyStep_points.
  destruct (qualifies minGap (prev, day)).
  2:{ rewrite app_nil_r. auto. }
  split.
  - rewrite bump_dom. exact Hdom.
  - intros k HF. apply Forall_app in HF as [HF1 HF2].
    apply List.Forall_inv in HF2.
    rewrite bump_lookup_ne by exact HF2. apply Hkeep, HF1.
Qed.

Lemma dowInv_run daily : dowInv (run daily minGap).
Proof.
  assert (H0 : dowInv (dailyInit bins)) by (split; intros; reflexivity).
  destruct daily as [|first rest]; [exact H0|].
  unfold dailyRun. apply dailyLoop_inv; [|exact H0].
  intros st prev day. apply dowInv_step.
Qed.

Lemma newAggs_weekdays_dom :
  dom (newAggs weekdays) = (list_to_set weekdays : gset string).
Proof. apply newAggs_dom. Qed.

Lemma newAggs_weekdays_lookup k :
  k ∈ weekdays -> newAggs weekdays !! k = Some agg0.
Proof.
  unfold weekdays. rewrite !elem_of_cons, elem_of_nil.
  intros [->|[->|[->|[->|[->|[]]]]]]; reflexivity.
Qed.

Lemma core_by_dow daily years ticker :
  (2 <= length daily)%nat ->
  dom (AnalyzeResponse.ByDOW (fst (core daily minGap years ticker)))
  = (list_to_set weekdays : gset string)
  /\ (forall k, k ∈ weekdays ->
      Forall (fun p => GapPoint.DayOfWeek p <> k)
        (snd (core daily minGap years ticker)) ->
      AnalyzeResponse.ByDOW (fst (core daily minGap years ticker)) !! k
      = Some (DowStat.mk 0 0 0 0)).
Proof.
  intros H. rewrite core_long by exact H. simpl.
  destruct (dowInv_run daily) as [Hdom Hkeep]. split.
  - rewrite dom_fmap_L, Hdom. apply newAggs_weekdays_dom.
  - intros k Hk HF. rewrite lookup_fmap, (Hkeep k HF).
    rewrite newAggs_weekdays_lookup by exact Hk. reflexivity.
Qed.

End AggregateFacts.

(** C10. For every bar sequence, the daily summary has [MaxGapUp >= 0]
    and [MaxGapDown <= 0]; when no returned event has a positive gap
    percentage [MaxGapUp] is 0, and when none has a negative gap
    percentage [MaxGapDown] is 0.  The same holds of [analyzeGaps]. *)
Theorem C10_max_gap_bounds
    (loc : Location) (daily : list polygonBar.t) (minGap : Q)
    (years : Z) (ticker : string) :
  (0 <= Summary.MaxGapUp
          (AnalyzeResponse.Summary (fst (analyzeDaily loc daily minGap years ticker)))
   /\ Summary.MaxGapDown
        (AnalyzeResponse.Summary (fst (analyzeDaily loc daily minGap years ticker)))
      <= 0
   /\ (Forall (fun p => ~ 0 < gapOf p)
         (snd (analyzeDaily loc daily minGap years ticker)) ->
       Summary.MaxGapUp
         (AnalyzeResponse.Summary (fst (analyzeDaily loc daily minGap years ticker)))
       == 0)
   /\ (Forall (fun p => ~ gapOf p < 0)
         (snd (analyzeDaily loc daily minGap years ticker)) ->
       Summary.MaxGapDown
         (AnalyzeResponse.Summary (fst (analyzeDaily loc daily minGap years ticker)))
       == 0))
  /\ (0 <= Summary.MaxGapUp
             (AnalyzeResponse.Summary (analyzeGaps loc daily minGap years ticker))
      /\ Summary.MaxGapDown
           (AnalyzeResponse.Summary (analyzeGaps loc daily minGap years ticker))
         <= 0
      /\ (Forall (fun p => ~ 0 < gapOf p)
            (AnalyzeResponse.Data (analyzeGaps loc daily minGap years ticker)) ->
          Summary.MaxGapUp
            (AnalyzeResponse.Summary (analyzeGaps loc daily minGap years ticker))
          == 0)
      /\ (Forall (fun p => ~ gapOf p < 0)
            (AnalyzeResponse.Data (analyzeGaps loc daily minGap years ticker)) ->
          Summary.MaxGapDown
            (AnalyzeResponse.Summary (analyzeGaps loc daily minGap years ticker))
          == 0)).
Proof.
  unfold analyzeDaily, analyzeGaps. rewrite core_data.
  split; apply core_max_gaps.
Qed.

(** C8. For every bar sequence of length at least 2, the keys of the daily
    by-weekday map are exactly Mon, Tue, Wed, Thu and Fri, and a weekday
    that no returned event carries is present with count 0, continuation
    rate 0 and fade and follow averages 0.  The same holds of
    [analyzeGaps]. *)
Theorem C8_by_weekday_keys
    (loc : Location) (daily : list polygonBar.t) (minGap : Q)
    (years : Z) (ticker : string) :
  (2 <= length daily)%nat ->
  (dom (AnalyzeResponse.ByDOW (fst (analyzeDaily loc daily minGap years ticker)))
   = (list_to_set weekdays : gset string)
   /\ (forall k, k ∈ weekdays ->
       Forall (fun p => GapPoint.DayOfWeek p <> k)
         (snd (analyzeDaily loc daily minGap years ticker)) ->
       AnalyzeResponse.ByDOW (fst (analyzeDaily loc daily minGap years ticker)) !! k
       = Some (DowStat.mk 0 0 0 0)))
  /\ (dom (AnalyzeResponse.ByDOW (analyzeGaps loc daily minGap years ticker))
      = (list_to_set weekdays : gset string)
      /\ (forall k, k ∈ weekdays ->
          Forall (fun p => GapPoint.DayOfWeek p <> k)
            (AnalyzeResponse.Data (analyzeGaps loc daily minGap years ticker)) ->
          AnalyzeResponse.ByDOW (analyzeGaps loc daily minGap years ticker) !! k
          = Some (DowStat.mk 0 0 0 0))).
Proof.
  intros H. unfold analyzeDaily, analyzeGaps. rewrite core_data.
  split; apply core_by_dow, H.
Qed.

(** ** The cumulative series *)

Lemma runningSums_snoc xs : forall acc x,
  runningSums acc (xs ++ [x]) = runningSums acc xs ++ [total acc xs + x].
Proof.
  induction xs as [|y xs IH]; intros acc x; simpl; [reflexivity|].
  rewrite IH. reflexivity.
Qed.

Lemma runningSums_length xs : forall acc, length (runningSums acc xs) = length xs.
Proof.
  induction xs as [|y xs IH]; intros acc; simpl; [reflexivity|].
  rewrite IH. reflexivity.
Qed.

Lemma runningSums_last xs : forall acc,
  xs <> [] -> last (runningSums acc xs) = Some (total acc xs).
Proof.
  induction xs as [|y xs IH]; intros acc Hne; [contradiction|].
  destruct xs as [|z xs]; [reflexivity|].
  change (runningSums acc (y :: z :: xs))
    with ((acc + y) :: runningSums (acc + y) (z :: xs)).
  change (last ((acc + y) :: runningSums (acc + y) (z :: xs)))
    with (last (runningSums (acc + y) (z :: xs))).
  rewrite IH by discriminate. reflexivity.
Qed.

Section CumulativeFacts.

Variables dateOf dowOf : Z -> string.
Variable minGap : Q.

Local Abbreviation bins := (defaultBins minGap).
Local Abbreviation step := (dailyStep dateOf dowOf minGap bins).
Local Abbreviation event := (eventOf dateOf dowOf bins).
Local Abbreviation run := (dailyRun dateOf dowOf).
Local Abbreviation core := (analyzeCore dateOf dowOf).

Lemma cumInv_step st prev day : cumInv st -> cumInv (step st prev day).
Proof.
  intros (Hd & Hfo & Hfa & Hsfo & Hsfa & Hafo & Hafa). unfold cumInv.
  rewrite dailyStep_cumDates, dailyStep_cumFollow, dailyStep_cumFade,
    dailyStep_followSum, dailyStep_fadeSum, dailyStep_cumFollowArr,
    dailyStep_cumFadeArr, dailyStep_points.
  destruct (qualifies minGap (prev, day)).
  2:{ rewrite !app_nil_r. tauto. }
  rewrite !fmap_app, !fmap_cons, !fmap_nil, !runningSums_snoc, !fmap_app,
    !fmap_cons, !fmap_nil. unfold total.
  rewrite !foldl_snoc. fold (total 0 (followRetOf <$> points st)).
  fold (total 0 (fadeRetOf <$> points st)).
  rewrite Hd, Hfo, Hfa, Hsfo, Hsfa, Hafo, Hafa. simpl.
  repeat split; reflexivity.
Qed.

Lemma cumInv_run daily : cumInv (run daily minGap).
Proof.
  assert (H0 : cumInv (dailyInit bins)) by (repeat split).
  destruct daily as [|first rest]; [exact H0|].
  unfold dailyRun. apply dailyLoop_inv; [|exact H0].
  intros st prev day. apply cumInv_step.
Qed.

(** Filtering keeps an ordered list of labels ordered. *)
Lemma sorted_filter_fmap {A} (R : string -> string -> Prop)
    (f : A -> string) (q : A -> bool) (l : list A) :
  StronglySorted R (f <$> l) -> StronglySorted R (f <$> List.filter q l).
Proof.
  induction l as [|a l IH]; intros HS; [constructor|].
  simpl in HS. apply StronglySorted_inv in HS as [HS Hall].
  simpl. destruct (q a); [|apply IH, HS].
  simpl. constructor; [apply IH, HS|].
  apply Forall_fmap, Forall_forall. intros x Hx.
  apply list_elem_of_In, filter_In in Hx as [Hx _].
  rewrite Forall_fmap, Forall_forall in Hall. apply Hall, list_elem_of_In, Hx.
Qed.

Lemma adjacent_dates daily :
  (fun pd => dateOf (polygonBar.T pd.2)) <$> adjacent daily
  = (fun b => dateOf (polygonBar.T b)) <$> tail daily.
Proof.
  destruct daily as [|first rest]; [reflexivity|]. unfold adjacent.
  transitivity ((fun b => dateOf (polygonBar.T b))
                  <$> (zip (first :: rest) rest).*2).
  - rewrite <- list_fmap_compose. reflexivity.
  - rewrite snd_zip by (simpl; lia). reflexivity.
Qed.

Lemma core_cum_dates_sorted daily years ticker :
  StronglySorted dateLe ((fun b => dateOf (polygonBar.T b)) <$> daily) ->
  StronglySorted dateLe
    (GapPoint.Date <$> snd (core daily minGap years ticker)).
Proof.
  intros HS. rewrite core_events, <- list_fmap_compose.
  apply (sorted_filter_fmap dateLe
           (fun pd => dateOf (polygonBar.T pd.2)) (qualifies minGap)).
  rewrite adjacent_dates. destruct daily as [|first rest]; [constructor|].
  simpl in HS. apply StronglySorted_inv in HS. apply HS.
Qed.

End CumulativeFacts.

(** C3 as stated fails: after the two sessions of [gapUpThenDown] the only
    follow return is -200/101 (about -1.980198), while the last element
    of the follow series is -1.980. *)
Lemma C3_last_element_is_rounded :
  ~ (forall x,
       last (AnalyzeResponse.CumFollow
               (fst (analyzeDaily est gapUpThenDown 0.3 3 "X"))) = Some x ->
       x == total 0 (followRetOf <$> snd (analyzeDaily est gapUpThenDown 0.3 3 "X"))).
Proof.
  intros H. specialize (H (-1.980) eq_refl).
  vm_compute in H. discriminate H.
Qed.

(** C3 (amended). For every input whose daily analysis returns at least
    one event: the date, fade and follow series have one entry per
    returned event, in the order of the events; entry [i] of the follow
    (fade) series is the plain left-to-right sum of the follow (fade)
    returns of events [0..i], rounded to 3 decimals, the sums themselves
    being accumulated unrounded; the last entries are the totals of the
    follow and fade returns rounded to 3 decimals, and the summary's
    [FollowAvg] and [FadeAvg] are these same totals divided by the number
    of events, rounded to 3 decimals; and when the session dates of the
    input bars are in ascending order so is the date series. *)
Theorem C3_cumulative_series
    (loc : Location) (daily : list polygonBar.t) (minGap : Q)
    (years : Z) (ticker : string)
    (resp : AnalyzeResponse.t) (pts : list GapPoint.t) :
  analyzeDaily loc daily minGap years ticker = (resp, pts) ->
  pts <> [] ->
  AnalyzeResponse.CumDates resp = GapPoint.Date <$> pts
  /\ AnalyzeResponse.CumFollow resp
     = round3 <$> runningSums 0 (followRetOf <$> pts)
  /\ AnalyzeResponse.CumFade resp
     = round3 <$> runningSums 0 (fadeRetOf <$> pts)
  /\ length (AnalyzeResponse.CumDates resp) = length pts
  /\ length (AnalyzeResponse.CumFollow resp) = length pts
  /\ length (AnalyzeResponse.CumFade resp) = length pts
  /\ last (AnalyzeResponse.CumFollow resp)
     = Some (round3 (total 0 (followRetOf <$> pts)))
  /\ last (AnalyzeResponse.CumFade resp)
     = Some (round3 (total 0 (fadeRetOf <$> pts)))
  /\ Summary.FollowAvg (AnalyzeResponse.Summary resp)
     = round3 (total 0 (followRetOf <$> pts) / float64 (Z.of_nat (length pts)))
  /\ Summary.FadeAvg (AnalyzeResponse.Summary resp)
     = round3 (total 0 (fadeRetOf <$> pts) / float64 (Z.of_nat (length pts)))
  /\ (StronglySorted dateLe
        ((fun b => sessionDateNYFromDaily loc (polygonBar.T b)) <$> daily) ->
      StronglySorted dateLe (AnalyzeResponse.CumDates resp)).
Proof.
  intros E Hne.
  assert (Hsorted :
    StronglySorted dateLe
      ((fun b => sessionDateNYFromDaily loc (polygonBar.T b)) <$> daily) ->
    StronglySorted dateLe (GapPoint.Date <$> pts)).
  { intros HS.
    pose proof (core_cum_dates_sorted (sessionDateNYFromDaily loc)
                  (sessionWeekdayNYFromDaily loc) minGap daily years ticker HS)
      as HC.
    unfold analyzeDaily in E. rewrite E in HC. exact HC. }
  unfold analyzeDaily in E.
  destruct (core_cases (sessionDateNYFromDaily loc)
              (sessionWeekdayNYFromDaily loc) minGap daily years ticker)
    as [[_ E']|[_ E']]; rewrite E' in E; injection E as <- <-.
  { contradiction. }
  destruct (cumInv_run (sessionDateNYFromDaily loc)
              (sessionWeekdayNYFromDaily loc) minGap daily)
    as (Hd & Hfo & Hfa & Hsfo & Hsfa & Hafo & Hafa).
  set (st := dailyRun _ _ daily minGap) in *.
  assert (Hpos : (0 <? Z.of_nat (length (points st)))%Z = true).
  { apply Z.ltb_lt. destruct (points st); [contradiction | simpl; lia]. }
  assert (Hn1 : followRetOf <$> points st <> [])
    by (destruct (points st); [contradiction | discriminate]).
  assert (Hn2 : fadeRetOf <$> points st <> [])
    by (destruct (points st); [contradiction | discriminate]).
  cbn [AnalyzeResponse.CumDates AnalyzeResponse.CumFollow
       AnalyzeResponse.CumFade AnalyzeResponse.Summary dailyResponse
       Summary.FollowAvg Summary.FadeAvg summaryOf].
  rewrite Hpos, Hd, Hafo, Hafa, Hsfo, Hsfa.
  rewrite !fmap_last, !runningSums_last by assumption.
  rewrite !length_fmap, !runningSums_length, !length_fmap.
  repeat split; try reflexivity. exact Hsorted.
Qed.

(** ** Recommendations *)

Lemma recommendation_rule (cr : Q) : thresholdRule cr (recommendation cr).
Proof.
  unfold thresholdRule, recommendation.
  destruct (Qltb 60 cr) eqn:E1; [apply Qltb_lt in E1 | apply Qltb_ge in E1].
  - repeat split; try discriminate; try reflexivity; intros; lra.
  - destruct (Qltb cr 40) eqn:E2; [apply Qltb_lt in E2 | apply Qltb_ge in E2];
      repeat split; try discriminate; try reflexivity; intros; try lra; tauto.
Qed.


Lemma Forall2_fmap_self {A B} (R : B -> A -> Prop) (f : A -> B) (l : list A) :
  (forall x, x ∈ l -> R (f x) x) -> Forall2 R (f <$> l) l.
Proof.
  induction l as [|a l IH]; intros H; simpl; constructor.
  - apply H. left.
  - apply IH. intros x Hx. apply H. right. exact Hx.
Qed.

Section BinFacts.

Variables dateOf dowOf : Z -> string.
Variable minGap : Q.

Local Abbreviation bins := (defaultBins minGap).
Local Abbreviation step := (dailyStep dateOf dowOf minGap bins).
Local Abbreviation event := (eventOf dateOf dowOf bins).
Local Abbreviation run := (dailyRun dateOf dowOf).
Local Abbreviation core := (analyzeCore dateOf dowOf).

Lemma dailyStep_binAgg st prev day :
  binAgg (step st prev day)
  = if qualifies minGap (prev, day)
    then bump (binAgg st) (GapPoint.Bin (event (prev, day)))
           (fun a => aggBin a (followRetOf (event (prev, day)))
                       (fadeRetOf (event (prev, day)))
                       (GapPoint.SameDir (event (prev, day)))
                       (GapPoint.Filled (event (prev, day))))
    else binAgg st.
Proof.
  unfold qualifies, dailyStep; simpl.
  destruct (Qle_bool (polygonBar.C _) 0 || Qle_bool (polygonBar.O _) 0);
    simpl; [reflexivity|].
  destruct (Qltb _ minGap); reflexivity.
Qed.

Lemma countIn_snoc k pts e :
  countIn k (pts ++ [e])
  = (countIn k pts + (if String.eqb (GapPoint.Bin e) k then 1 else 0))%Z.
Proof.
  unfold countIn, inBin. rewrite List.filter_app, length_app. simpl.
  destruct (String.eqb (GapPoint.Bin e) k); simpl length; lia.
Qed.

Lemma contIn_snoc k pts e :
  contIn k (pts ++ [e])
  = (contIn k pts
     + (if String.eqb (GapPoint.Bin e) k
        then (if (GapPoint.SameDir e =? 1)%Z then 1 else 0) else 0))%Z.
Proof.
  unfold contIn, inBin. rewrite List.filter_app, List.filter_app, length_app.
  simpl. destruct (String.eqb (GapPoint.Bin e) k); simpl;
    [destruct (GapPoint.SameDir e =? 1)%Z|]; simpl length; lia.
Qed.

Lemma binInv_step st prev day :
  binInv minGap st -> binInv minGap (step st prev day).
Proof.
  intros [Hdom Hsem]. unfold binInv.
  rewrite dailyStep_binAgg, dailyStep_points.
  destruct (qualifies minGap (prev, day)).
  2:{ rewrite app_nil_r. auto. }
  set (e := event (prev, day)).
  split; [rewrite bump_dom; exact Hdom|].
  intros k a. rewrite countIn_snoc, contIn_snoc. unfold bump.
  destruct (String.eqb_spec (GapPoint.Bin e) k) as [Ek|Ek].
  - subst k. destruct (binAgg st !! GapPoint.Bin e) as [a0|] eqn:E0.
    + rewrite lookup_insert_eq. intros [= <-].
      destruct (Hsem _ _ E0) as [Hc Hk]. cbn [count cont aggBin].
      rewrite Hc, Hk. subst e. simpl GapPoint.SameDir.
      destruct (sameOf _ _ =? 1)%Z; split; lia.
    + rewrite E0. discriminate.
  - destruct (binAgg st !! GapPoint.Bin e) as [a0|] eqn:E0.
    + rewrite lookup_insert_ne by exact Ek. intros Ha.
      destruct (Hsem _ _ Ha) as [Hc Hk]. split; lia.
    + intros Ha. destruct (Hsem _ _ Ha) as [Hc Hk]. split; lia.
Qed.

Lemma binInv_run daily : binInv minGap (run daily minGap).
Proof.
  assert (H0 : binInv minGap (dailyInit bins)).
  { split; [reflexivity|]. intros k a. simpl. unfold newAggs. simpl.
    intros Ha. apply lookup_insert_Some in Ha as [[_ <-]|[_ Ha]];
      [split; reflexivity|].
    apply lookup_insert_Some in Ha as [[_ <-]|[_ Ha]]; [split; reflexivity|].
    apply lookup_insert_Some in Ha as [[_ <-]|[_ Ha]]; [split; reflexivity|].
    apply lookup_insert_Some in Ha as [[_ <-]|[_ Ha]]; [split; reflexivity|].
    rewrite lookup_empty in Ha. discriminate. }
  destruct daily as [|first rest]; [exact H0|].
  unfold dailyRun. apply dailyLoop_inv; [|exact H0].
  intros st prev day. apply binInv_step.
Qed.

Lemma binStatOf_rule (st : dailyState) (b : gapBin) :
  binInv minGap st -> b ∈ bins ->
  binRule (points st) (binStatOf (binAgg st) b) b.
Proof.
  intros [Hdom Hsem] Hb.
  assert (Hin : lab b ∈ dom (binAgg st)).
  { rewrite Hdom, newAggs_dom. apply elem_of_list_to_set.
    apply list_elem_of_fmap. exists b. auto. }
  apply elem_of_dom in Hin as [ba Hba].
  destruct (Hsem _ _ Hba) as [Hc Hk].
  unfold binRule, binStatOf. rewrite Hba, <- Hc, <- Hk.
  destruct (Z.eqb_spec (count ba) 0) as [E|E]; simpl.
  - rewrite E. split; [reflexivity|]. split; [reflexivity|].
    split; [reflexivity|]. split; [intros; congruence|].
    split; [reflexivity | intros; congruence].
  - split; [reflexivity|]. split; [reflexivity|].
    split; [intros; congruence|].
    split; [intros _; apply recommendation_rule|].
    split; [intros; congruence | reflexivity].
Qed.

Lemma core_bins daily years ticker :
  (2 <= length daily)%nat ->
  Forall2 (binRule (snd (core daily minGap years ticker)))
    (AnalyzeResponse.Bins (fst (core daily minGap years ticker))) bins.
Proof.
  intros H. rewrite core_long by exact H.
  cbn [fst snd AnalyzeResponse.Bins dailyResponse].
  apply Forall2_fmap_self. intros b Hb.
  apply binStatOf_rule; [apply binInv_run | exact Hb].
Qed.

End BinFacts.

(** ** The 0-15m overlay *)

Section OverlayFacts.

Variable loc : Location.
Variable minutesByDate : gmap string (list polygonBar.t).

Local Abbreviation step := (step15 loc minutesByDate).
Local Abbreviation loop := (loop15 loc minutesByDate).

Lemma step15_no_bars st p :
  default [] (minutesByDate !! GapPoint.Date p) = [] -> step st p = (st, p).
Proof. intros H. unfold step15. rewrite H. reflexivity. Qed.

Lemma step15_hasBars_false st p :
  hasBars minutesByDate p = false -> step st p = (st, p).
Proof.
  unfold hasBars. rewrite negb_false_iff. intros H.
  apply step15_no_bars. apply Nat.eqb_eq in H.
  destruct (default [] (minutesByDate !! GapPoint.Date p));
    [reflexivity | discriminate].
Qed.

(** The step leaves the point as it is or fills its two 0-15m fields. *)
Lemma step15_point st p :
  (step st p).2 = p \/ exists r f, (step st p).2 = withPoint15 p r f.
Proof.
  unfold step15. cbv zeta.
  repeat match goal with
         | |- context [if ?c then (st, p) else _] =>
             destruct c; [left; reflexivity|]
         end.
  right. eexists _, _. reflexivity.
Qed.

Lemma step15_sameDaily st p : sameDaily p (step st p).2.
Proof.
  destruct (step15_point st p) as [->|(r & f & ->)]; repeat split.
Qed.

Lemma loop15_sameDaily pts : forall st, Forall2 sameDaily pts (loop st pts).2.
Proof.
  induction pts as [|p pts IH]; intros st; simpl; [constructor|].
  pose proof (step15_sameDaily st p) as Hp.
  destruct (step st p) as [st1 p1].
  specialize (IH st1). destruct (loop st1 pts) as [st2 rest2].
  constructor; assumption.
Qed.

Lemma loop15_no_bars_unchanged pts : forall st,
  Forall2 (fun p p' => default [] (minutesByDate !! GapPoint.Date p) = []
                       -> p' = p)
    pts (loop st pts).2.
Proof.
  induction pts as [|p pts IH]; intros st; simpl; [constructor|].
  pose proof (step15_no_bars st p) as Hp.
  destruct (step st p) as [st1 p1].
  specialize (IH st1). destruct (loop st1 pts) as [st2 rest2].
  constructor; [|exact IH].
  intros H. specialize (Hp H). congruence.
Qed.

(** The accumulators only see the events that have intraday bars. *)
Lemma loop15_only_with_bars pts : forall st,
  (loop st pts).1 = (loop st (List.filter (hasBars minutesByDate) pts)).1.
Proof.
  induction pts as [|p pts IH]; intros st; [reflexivity|].
  simpl List.filter. destruct (hasBars minutesByDate p) eqn:E.
  - simpl. destruct (step st p) as [st1 p1].
    specialize (IH st1).
    destruct (loop st1 pts) as [st2 rest2].
    destruct (loop st1 (List.filter (hasBars minutesByDate) pts)) as [st3 rest3].
    exact IH.
  - simpl. rewrite (step15_hasBars_false st p E).
    specialize (IH st). destruct (loop st pts) as [st2 rest2]. exact IH.
Qed.

(** What the call leaves in the response. *)
Lemma analyzeFirst15_cases (r : AnalyzeResponse.t) :
  (AnalyzeResponse.Data r = []
   /\ analyzeFirst15 loc (Some r) minutesByDate = Some r)
  \/ (AnalyzeResponse.Data r <> []
      /\ exists r',
          analyzeFirst15 loc (Some r) minutesByDate = Some r'
          /\ sameDailyTables r r'
          /\ AnalyzeResponse.Data r' = (run15 loc r minutesByDate).2
          /\ tables15From (run15 loc r minutesByDate).1 r').
Proof.
  unfold analyzeFirst15.
  destruct (AnalyzeResponse.Data r) as [|p pts] eqn:E.
  - left. split; reflexivity.
  - right. split; [discriminate|].
    change (length (p :: pts) =? 0)%nat with false. cbv iota.
    destruct (run15 loc r minutesByDate) as [st pts'].
    eexists. split; [reflexivity|].
    split; [repeat split|]. split; [reflexivity | repeat split].
Qed.

Lemma binStat15Of_rule (m : gmap string agg15.t) (b : gapBin) :
  binRule15 m (binStat15Of m b) b.
Proof.
  unfold binRule15, binStat15Of.
  destruct (m !! lab b) as [ba|]; simpl.
  - destruct (Z.eqb_spec (agg15.count ba) 0) as [E|E]; simpl.
    + rewrite E. split; [reflexivity|]. split; [reflexivity|].
      split; [reflexivity|]. split; [intros; congruence|].
      split; [reflexivity | intros; congruence].
    + split; [reflexivity|]. split; [reflexivity|].
      split; [intros; congruence|].
      split; [intros _; apply recommendation_rule|].
      split; [intros; congruence | reflexivity].
  - split; [reflexivity|]. split; [reflexivity|].
    split; [reflexivity|]. split; [intros; congruence|].
    split; [reflexivity | intros; congruence].
Qed.

End OverlayFacts.

Lemma Forall2_with_left {A B} (R : A -> B -> Prop) (P : A -> Prop) l k :
  Forall2 R l k -> Forall P l -> Forall2 (fun x y => R x y /\ P x) l k.
Proof.
  induction 1 as [|x y l k Hxy Hlk IH]; intros HP; constructor.
  - split; [exact Hxy | exact (Forall_inv HP)].
  - apply IH. exact (Forall_inv_tail HP).
Qed.

Lemma analyzeDaily_fresh_points loc daily minGap years ticker :
  Forall (fun p => GapPoint.Ret15mPct p = 0 /\ GapPoint.FilledBy0945 p = 0%Z)
    (snd (analyzeDaily loc daily minGap years ticker)).
Proof.
  unfold analyzeDaily. apply core_events_Forall.
  intros pd _. split; reflexivity.
Qed.

Lemma analyzeDaily_response loc daily minGap years ticker :
  AnalyzeResponse.Data (fst (analyzeDaily loc daily minGap years ticker))
  = snd (analyzeDaily loc daily minGap years ticker)
  /\ AnalyzeResponse.MinGap (fst (analyzeDaily loc daily minGap years ticker))
     = minGap.
Proof.
  unfold analyzeDaily. split; [apply core_data|].
  destruct (core_cases (sessionDateNYFromDaily loc)
              (sessionWeekdayNYFromDaily loc) minGap daily years ticker)
    as [[_ E]|[_ E]]; rewrite E; reflexivity.
Qed.

(** C7. Let the overlay run on the response of the daily pass.  Every
    field the daily pass filled is left as it was: the summary, the bins,
    the by-weekday map, both sides, the three cumulative series, and, event
    by event, every daily field of the event.  An event whose session date
    has no bars in the intraday map (a missing key or an empty list) is
    left exactly as the daily pass made it, with 0-15m return 0 and
    filled-by-09:45 flag 0; its iteration changes none of the overlay
    accumulators; and the 0-15m summary, bins, sides and by-weekday tables
    of the result are those obtained from the events that do have bars. *)
Theorem C7_overlay_skips_sessions_without_bars
    (loc : Location) (daily : list polygonBar.t) (minGap : Q)
    (years : Z) (ticker : string)
    (minutesByDate : gmap string (list polygonBar.t))
    (resp resp15 : AnalyzeResponse.t) (pts : list GapPoint.t) :
  analyzeDaily loc daily minGap years ticker = (resp, pts) ->
  analyzeFirst15 loc (Some resp) minutesByDate = Some resp15 ->
  sameDailyTables resp resp15
  /\ Forall2 sameDaily (AnalyzeResponse.Data resp) (AnalyzeResponse.Data resp15)
  /\ Forall2
       (fun p p' =>
          default [] (minutesByDate !! GapPoint.Date p) = [] ->
          p' = p
          /\ GapPoint.Ret15mPct p' = 0
          /\ GapPoint.FilledBy0945 p' = 0%Z)
       (AnalyzeResponse.Data resp) (AnalyzeResponse.Data resp15)
  /\ (forall st p,
        default [] (minutesByDate !! GapPoint.Date p) = [] ->
        step15 loc minutesByDate st p = (st, p))
  /\ (AnalyzeResponse.Data resp <> [] ->
      tables15From
        (loop15 loc minutesByDate (init15 (defaultBins minGap))
           (List.filter (hasBars minutesByDate) (AnalyzeResponse.Data resp))).1
        resp15).
Proof.
  intros Ed E15.
  pose proof (analyzeDaily_fresh_points loc daily minGap years ticker) as Hfresh.
  destruct (analyzeDaily_response loc daily minGap years ticker) as [Hdata Hmin].
  rewrite Ed in Hfresh, Hdata, Hmin. simpl in Hfresh, Hdata, Hmin.
  rewrite <- Hdata in Hfresh.
  assert (Hstep : forall st p,
            default [] (minutesByDate !! GapPoint.Date p) = [] ->
            step15 loc minutesByDate st p = (st, p))
    by (intros; apply step15_no_bars; assumption).
  destruct (analyzeFirst15_cases loc minutesByDate resp)
    as [[Hnil E]|[Hne (r' & E & Htab & Hpts & H15)]];
    rewrite E in E15; injection E15 as <-.
  - rewrite Hnil. split; [repeat split|]. split; [constructor|].
    split; [constructor|]. split; [exact Hstep|].
    intros Hc. contradiction.
  - unfold run15 in Hpts, H15. rewrite Hmin in Hpts, H15.
    split; [exact Htab|]. rewrite Hpts. split; [apply loop15_sameDaily|].
    split; [|split; [exact Hstep|]].
    + eapply Forall2_impl.
      * apply Forall2_with_left; [apply loop15_no_bars_unchanged | exact Hfresh].
      * intros p p' [Hp [Hr Hf]] Hno. simpl in Hp.
        rewrite (Hp Hno). auto.
    + intros _. rewrite <- loop15_only_with_bars. exact H15.
Qed.

(** ** Binning *)

Lemma string_length_app (s t : string) :
  String.length (s +:+ t) = (String.length s + String.length t)%nat.
Proof. induction s as [|c s IH]; simpl; [reflexivity | rewrite IH; reflexivity]. Qed.

(** The label of the first bin differs from the three fixed labels and
    from "other", whatever [start] prints as. *)
Lemma first_label_fresh (s : string) :
  s +:+ "–0.5%" <> "other"
  /\ s +:+ "–0.5%" <> "0.5–1.0%"
  /\ s +:+ "–0.5%" <> "1.0–1.5%"
  /\ s +:+ "–0.5%" <> ">1.5%".
Proof.
  repeat split; intros E; pose proof (f_equal String.length E) as HL;
    rewrite string_length_app in HL; simpl in HL; try lia.
  - destruct s as [|a [|b [|c [|d s]]]]; simpl in HL; try lia. discriminate E.
  - destruct s as [|a [|b [|c [|d s]]]]; simpl in HL; try lia. discriminate E.
Qed.

Lemma defaultBins_labels minGap :
  lab <$> defaultBins minGap
  = [ sprintf1f (effectiveMin minGap) +:+ "–0.5%";
      "0.5–1.0%"; "1.0–1.5%"; ">1.5%" ].
Proof. reflexivity. Qed.

Lemma defaultBins_labels_NoDup minGap : NoDup (lab <$> defaultBins minGap).
Proof.
  rewrite defaultBins_labels.
  destruct (first_label_fresh (sprintf1f (effectiveMin minGap)))
    as (_ & H1 & H2 & H3).
  repeat (apply NoDup_cons_2; [rewrite ?elem_of_cons, elem_of_nil|]);
    [| | | |apply NoDup_nil_2].
  - intros [E|[E|[E|[]]]]; congruence.
  - intros [E|[E|[]]]; discriminate E.
  - intros [E|[]]; discriminate E.
  - tauto.
Qed.

Lemma defaultBins_labels_not_other minGap : "other" ∉ lab <$> defaultBins minGap.
Proof.
  rewrite defaultBins_labels.
  destruct (first_label_fresh (sprintf1f (effectiveMin minGap))) as (H0 & _).
  rewrite !elem_of_cons, elem_of_nil.
  intros [E|[E|[E|[E|[]]]]]; try discriminate E. congruence.
Qed.

(** [labelFor] returns the label of the first bin that holds the value, or
    "other" when no bin does. *)
Lemma labelFor_cases (a : Q) (bins : list gapBin) :
  (labelFor a bins = "other" /\ Forall (fun b => ~ inRange a b) bins)
  \/ (exists b, b ∈ bins /\ inRange a b /\ labelFor a bins = lab b).
Proof.
  induction bins as [|b bins IH]; simpl.
  - left. split; [reflexivity | constructor].
  - destruct (Qle_bool (min b) a) eqn:E1; simpl.
    + destruct (Qltb a (max b)) eqn:E2.
      * right. exists b. apply Qle_bool_iff in E1. apply Qltb_lt in E2.
        split; [left|]. split; [split; assumption | reflexivity].
      * apply Qltb_ge in E2.
        destruct IH as [[Ho HF]|(b' & Hin & Hr & Hl)].
        -- left. split; [exact Ho|]. constructor; [|exact HF].
           intros [_ Hlt]. lra.
        -- right. exists b'. split; [right; exact Hin | split; assumption].
    + apply Qle_bool_gt in E1.
      destruct IH as [[Ho HF]|(b' & Hin & Hr & Hl)].
      * left. split; [exact Ho|]. constructor; [|exact HF].
        intros [Hle _]. lra.
      * right. exists b'. split; [right; exact Hin | split; assumption].
Qed.

(** The four default bins do not overlap. *)
Lemma defaultBins_disjoint minGap a b b' :
  b ∈ defaultBins minGap -> b' ∈ defaultBins minGap ->
  inRange a b -> inRange a b' -> b = b'.
Proof.
  unfold defaultBins, inRange. rewrite !elem_of_cons, !elem_of_nil.
  intros [->|[->|[->|[->|[]]]]] [->|[->|[->|[->|[]]]]]; simpl;
    intros [H1 H2] [H3 H4]; try reflexivity; lra.
Qed.

(** Between the effective minimum and 99 the default bins cover every
    value. *)
Lemma defaultBins_cover minGap a :
  effectiveMin minGap <= a -> a < 99.0 ->
  exists b, b ∈ defaultBins minGap /\ inRange a b.
Proof.
  intros Hlo Hhi. unfold defaultBins, inRange. fold (effectiveMin minGap).
  destruct (Qlt_le_dec a 0.5) as [H1|H1].
  { eexists. split; [left|]. simpl. split; assumption. }
  destruct (Qlt_le_dec a 1.0) as [H2|H2].
  { eexists. split; [right; left|]. simpl. split; assumption. }
  destruct (Qlt_le_dec a 1.5) as [H3|H3].
  { eexists. split; [right; right; left|]. simpl. split; assumption. }
  eexists. split; [right; right; right; left|]. simpl. split; assumption.
Qed.

(** Below 99 the label is that of the one bin that holds the value, and
    is never "other". *)
Lemma labelFor_defaultBins_below_99 minGap a :
  effectiveMin minGap <= a -> a < 99.0 ->
  labelFor a (defaultBins minGap) <> "other"
  /\ exists b, b ∈ defaultBins minGap /\ inRange a b
               /\ labelFor a (defaultBins minGap) = lab b
               /\ (forall b', b' ∈ defaultBins minGap -> inRange a b' -> b' = b).
Proof.
  intros Hlo Hhi.
  destruct (defaultBins_cover minGap a Hlo Hhi) as (b0 & Hin0 & Hr0).
  destruct (labelFor_cases a (defaultBins minGap))
    as [[_ HF]|(b & Hin & Hr & Hl)].
  - rewrite Forall_forall in HF. exfalso. exact (HF b0 Hin0 Hr0).
  - split.
    + rewrite Hl. intros E.
      apply (defaultBins_labels_not_other minGap). rewrite <- E.
      apply list_elem_of_fmap. exists b. auto.
    + exists b. repeat split; try assumption; try apply Hr.
      intros b' Hin' Hr'. eapply defaultBins_disjoint; eassumption.
Qed.


Lemma sumZ_cons (x : Z) (l : list Z) : sumZ (x :: l) = (x + sumZ l)%Z.
Proof. reflexivity. Qed.

Lemma countIn_cons k p pts :
  countIn k (p :: pts)
  = ((if String.eqb (GapPoint.Bin p) k then 1 else 0) + countIn k pts)%Z.
Proof.
  unfold countIn, inBin. simpl List.filter.
  destruct (String.eqb (GapPoint.Bin p) k); simpl length; lia.
Qed.

Lemma sumZ_countIn_cons (ls : list string) p pts :
  sumZ ((fun l => countIn l (p :: pts)) <$> ls)
  = (sumZ ((fun l : string =>
              if String.eqb (GapPoint.Bin p) l then 1%Z else 0%Z) <$> ls)
     + sumZ ((fun l => countIn l pts) <$> ls))%Z.
Proof.
  induction ls as [|l ls IH]; [reflexivity|].
  rewrite !fmap_cons, !sumZ_cons, IH, countIn_cons. lia.
Qed.

Lemma sumZ_indicator (ls : list string) (k : string) :
  NoDup ls ->
  sumZ ((fun l : string => if String.eqb k l then 1%Z else 0%Z) <$> ls)
  = if decide (k ∈ ls) then 1%Z else 0%Z.
Proof.
  induction 1 as [|l ls Hnin Hnd IH].
  - destruct (decide (k ∈ [])) as [Hin|_]; [|reflexivity].
    apply elem_of_nil in Hin. contradiction.
  - cbn [fmap list_fmap]. rewrite sumZ_cons, IH.
    destruct (String.eqb_spec k l) as [->|Hne].
    + destruct (decide (l ∈ ls)); [contradiction|].
      destruct (decide (l ∈ l :: ls)) as [_|Hn]; [reflexivity|].
      exfalso. apply Hn. left.
    + destruct (decide (k ∈ ls)) as [Hin|Hn].
      * destruct (decide (k ∈ l :: ls)) as [_|Hn']; [reflexivity|].
        exfalso. apply Hn'. right. exact Hin.
      * destruct (decide (k ∈ l :: ls)) as [Hin'|_]; [|reflexivity].
        apply elem_of_cons in Hin' as [->|Hin']; contradiction.
Qed.

Lemma sumZ_zeros {A} (ls : list A) : sumZ ((fun _ => 0%Z) <$> ls) = 0%Z.
Proof.
  induction ls as [|l ls IH]; [reflexivity|].
  rewrite fmap_cons, sumZ_cons, IH. reflexivity.
Qed.

(** The counts of pairwise distinct labels add up to the number of events
    that carry one of them. *)
Lemma sumZ_countIn (ls : list string) (pts : list GapPoint.t) :
  NoDup ls ->
  sumZ ((fun l => countIn l pts) <$> ls)
  = Z.of_nat (length (List.filter (fun p => bool_decide (GapPoint.Bin p ∈ ls)) pts)).
Proof.
  intros Hnd. induction pts as [|p pts IH].
  - apply (sumZ_zeros ls).
  - rewrite sumZ_countIn_cons, IH, sumZ_indicator by exact Hnd.
    simpl List.filter.
    destruct (decide (GapPoint.Bin p ∈ ls)) as [Hin|Hn].
    + rewrite (bool_decide_eq_true_2 _ Hin). simpl length. lia.
    + rewrite (bool_decide_eq_false_2 _ Hn). lia.
Qed.

Lemma binRule_counts pts ss bs :
  Forall2 (binRule pts) ss bs ->
  BinStat.Count <$> ss = (fun l => countIn l pts) <$> (lab <$> bs).
Proof.
  induction 1 as [|s b ss bs (_ & Hcount & _) _ IH]; [reflexivity|].
  rewrite !fmap_cons, IH, Hcount. reflexivity.
Qed.

Section BinningFacts.

Variables dateOf dowOf : Z -> string.
Variable minGap : Q.

Local Abbreviation bins := (defaultBins minGap).
Local Abbreviation event := (eventOf dateOf dowOf bins).
Local Abbreviation core := (analyzeCore dateOf dowOf).

(** Every returned event is labelled by [labelFor] on its unrounded
    absolute gap. *)
Lemma core_event_bins daily years ticker :
  Forall (fun p => GapPoint.Bin p = labelFor (Qabs (gapOf p)) bins)
    (snd (core daily minGap years ticker)).
Proof. apply core_events_Forall. intros pd _. reflexivity. Qed.

(** An event whose absolute gap lies between the effective minimum and 99
    is in exactly one of the four bins and is not labelled "other". *)
Lemma core_events_below_99 daily years ticker :
  Forall (fun p =>
            effectiveMin minGap <= Qabs (gapOf p) -> Qabs (gapOf p) < 99.0 ->
            GapPoint.Bin p <> "other"
            /\ exists b, b ∈ bins /\ inRange (Qabs (gapOf p)) b
                         /\ GapPoint.Bin p = lab b
                         /\ (forall b', b' ∈ bins ->
                                        inRange (Qabs (gapOf p)) b' -> b' = b))
    (snd (core daily minGap years ticker)).
Proof.
  eapply Forall_impl; [apply core_event_bins|].
  intros p Hp Hlo Hhi. cbv beta in Hp. rewrite Hp.
  apply labelFor_defaultBins_below_99; assumption.
Qed.

(** The per-bin counts add up to the number of events not labelled
    "other". *)
Lemma core_bin_counts_sum daily years ticker :
  (2 <= length daily)%nat ->
  sumZ (BinStat.Count <$> AnalyzeResponse.Bins (fst (core daily minGap years ticker)))
  = Z.of_nat (length (binned (snd (core daily minGap years ticker)))).
Proof.
  intros Hlen.
  pose proof (core_bins dateOf dowOf minGap daily years ticker Hlen) as HB.
  pose proof (core_event_bins daily years ticker) as HE.
  set (pts := snd (core daily minGap years ticker)) in *.
  rewrite (binRule_counts _ _ _ HB), sumZ_countIn
    by apply defaultBins_labels_NoDup.
  unfold binned. f_equal. f_equal.
  apply List.filter_ext_in. intros p Hin.
  rewrite Forall_forall in HE. apply list_elem_of_In in Hin.
  specialize (HE p Hin). cbv beta in HE.
  destruct (labelFor_cases (Qabs (gapOf p)) bins)
    as [[Ho _]|(b & Hb & _ & Hl)].
  - rewrite HE, Ho. rewrite bool_decide_eq_false_2; [reflexivity|].
    apply defaultBins_labels_not_other.
  - assert (Hmem : GapPoint.Bin p ∈ lab <$> bins).
    { rewrite HE, Hl. apply list_elem_of_fmap. exists b. auto. }
    rewrite (bool_decide_eq_true_2 _ Hmem). symmetry.
    apply negb_true_iff, String.eqb_neq. intros E.
    apply (defaultBins_labels_not_other minGap). rewrite <- E. exact Hmem.
Qed.

End BinningFacts.

(** With a threshold under 0.1 an event under 0.1 is returned but no bin
    holds it. *)
Lemma tiny_gap_is_other :
  GapPoint.Bin <$> snd (analyzeDaily est tinyGap 0.05 3 "X") = ["other"].
Proof. vm_compute. reflexivity. Qed.

(** ** Remarks on the rounded fields *)

(** The reported [GapPct] is rounded to 3 decimals and may fall below the
    threshold that the unrounded gap passed: a gap of 0.30041% passes the
    threshold 0.3004 and is reported as 0.300. *)
Lemma reported_gap_may_round_below_threshold :
  let pts := snd (analyzeDaily est
                    [ bar 1709251200000 100 100 100 100000;
                      bar 1709510400000 100300.41 100400 100300 100350 ]
                    0.3004 3 "X") in
  Forall (fun p => 0.3004 <= Qabs (gapOf p)
                   /\ Qabs (GapPoint.GapPct p) < 0.3004) pts
  /\ length pts = 1%nat.
Proof. vm_compute. split; [|reflexivity]. repeat constructor; discriminate. Qed.

(** The reported [DailyReturnPct] is rounded to 3 decimals: an event may
    show 0.000 and still be a continuation, its unrounded return being
    positive. *)
Lemma reported_zero_return_may_continue :
  let pts := snd (analyzeDaily est
                    [ bar 1709251200000 100 100 100 100000;
                      bar 1709510400000 101000 101001 100999 101000.04 ]
                    0.3 3 "X") in
  Forall (fun p => GapPoint.DailyReturnPct p == 0
                   /\ GapPoint.SameDir p = 1%Z
                   /\ 0 < returnOf p) pts
  /\ length pts = 1%nat.
Proof. vm_compute. split; [|reflexivity]. repeat constructor. Qed.

(** C1 at a gap of exactly 100%: the last bin stops at 99, so the event
    is labelled "other", no bin counts it, and the four per-bin counts
    add up to 0 while the summary reports 1 session. *)
Theorem C1_gap_of_100_percent_is_other :
  labelFor 100 (defaultBins 0.3) = "other"
  /\ GapPoint.Bin <$> snd (analyzeDaily est doubling 0.3 3 "X") = ["other"]
  /\ BinStat.Count <$> AnalyzeResponse.Bins (fst (analyzeDaily est doubling 0.3 3 "X"))
     = [0; 0; 0; 0]%Z
  /\ Summary.Sessions
       (AnalyzeResponse.Summary (fst (analyzeDaily est doubling 0.3 3 "X")))
     = 1%Z.
Proof. vm_compute. repeat split. Qed.

(** ** The statements at concrete inputs *)


Lemma C3_on_three_sessions :
  AnalyzeResponse.CumDates (fst (analyzeDaily est threeSessions 0.3 3 "X"))
  = GapPoint.Date <$> snd (analyzeDaily est threeSessions 0.3 3 "X")
  /\ StronglySorted dateLe
       (AnalyzeResponse.CumDates (fst (analyzeDaily est threeSessions 0.3 3 "X"))).
Proof.
  destruct (C3_cumulative_series est threeSessions 0.3 3 "X"
              (fst (analyzeDaily est threeSessions 0.3 3 "X"))
              (snd (analyzeDaily est threeSessions 0.3 3 "X")))
    as (Hd & _ & _ & _ & _ & _ & _ & _ & _ & _ & Hs).
  - apply surjective_pairing.
  - vm_compute. discriminate.
  - split; [exact Hd|]. apply Hs. vm_compute. repeat constructor.
Defined.

Lemma C5_on_flat_day :
  Forall continuationRule (snd (analyzeDaily est flatDay 0.3 3 "X")).
Proof.
  exact (proj1 (C5_continuation_flag est flatDay 0.3 3 "X")).
Defined.

Lemma C6_on_three_sessions :
  Forall2 fillRule
    (snd (analyzeDaily est threeSessions 0.3 3 "X"))
    (List.filter (qualifies 0.3) (adjacent threeSessions)).
Proof.
  exact (proj1 (C6_gap_filled_flag est threeSessions 0.3 3 "X")).
Defined.

Lemma C7_on_three_sessions :
  sameDailyTables
    (fst (analyzeDaily est threeSessions 0.3 3 "X"))
    (default (fst (analyzeDaily est threeSessions 0.3 3 "X"))
       (analyzeFirst15 est
          (Some (fst (analyzeDaily est threeSessions 0.3 3 "X"))) minutes0305))
  /\ step15 est minutes0305 (init15 (defaultBins 0.3))
       (eventOf (sessionDateNYFromDaily est) (sessionWeekdayNYFromDaily est)
          (defaultBins 0.3)
          (bar 1709251200000 100 100 100 100,
           bar 1709510400000 101 102 100.5 99))
     = (init15 (defaultBins 0.3),
        eventOf (sessionDateNYFromDaily est) (sessionWeekdayNYFromDaily est)
          (defaultBins 0.3)
          (bar 1709251200000 100 100 100 100,
           bar 1709510400000 101 102 100.5 99)).
Proof.
  destruct (C7_overlay_skips_sessions_without_bars est threeSessions 0.3 3 "X"
              minutes0305
              (fst (analyzeDaily est threeSessions 0.3 3 "X"))
              (default (fst (analyzeDaily est threeSessions 0.3 3 "X"))
                 (analyzeFirst15 est
                    (Some (fst (analyzeDaily est threeSessions 0.3 3 "X")))
                    minutes0305))
              (snd (analyzeDaily est threeSessions 0.3 3 "X")))
    as (Htab & _ & _ & Hstep & _).
  - apply surjective_pairing.
  - vm_compute. reflexivity.
  - split; [exact Htab|]. apply Hstep. vm_compute. reflexivity.
Defined.

Lemma C8_on_gap_up_then_down :
  AnalyzeResponse.ByDOW (fst (analyzeDaily est gapUpThenDown 0.3 3 "X")) !! "Tue"
  = Some (DowStat.mk 0 0 0 0).
Proof.
  destruct (C8_by_weekday_keys est gapUpThenDown 0.3 3 "X") as [[_ Hz] _].
  - simpl. lia.
  - apply Hz.
    + unfold weekdays. right. left.
    + vm_compute. repeat constructor. intros H. discriminate H.
Defined.

Lemma C9_on_one_bar :
  analyzeDaily est [bar 1709251200000 100 100 100 100] 0.3 3 "X"
  = (emptyResponse false "not enough data" 0.3 3 "X", []).
Proof.
  apply (C9_insufficient_data est [bar 1709251200000 100 100 100 100] 0.3 3 "X").
  simpl. lia.
Defined.

Lemma C10_on_gap_down_only :
  Summary.MaxGapUp
    (AnalyzeResponse.Summary (fst (analyzeDaily est gapDownOnly 0.3 3 "X")))
  == 0.
Proof.
  destruct (C10_max_gap_bounds est gapDownOnly 0.3 3 "X") as [(_ & _ & Hup & _) _].
  apply Hup. vm_compute. repeat constructor. intros H. discriminate H.
Defined.

(** * Further properties of the analysis *)

(** ** Rounding *)

Lemma Qle_bool_comp_l (x y z : Q) : x == y -> Qle_bool z x = Qle_bool z y.
Proof. intros E. rewrite E. reflexivity. Qed.

(** [math.Round] gives the same integer on equal rationals. *)
Lemma mathRound_ext (x y : Q) : x == y -> mathRound x = mathRound y.
Proof.
  intros E. unfold mathRound. rewrite (Qle_bool_comp_l x y 0 E).
  destruct (Qle_bool 0 y).
  - f_equal. apply Qfloor_comp. rewrite E. reflexivity.
  - f_equal. f_equal. apply Qfloor_comp. rewrite E. reflexivity.
Qed.

Lemma Qfloor_plus_half (n : Z) : Qfloor (inject_Z n + 0.5) = n.
Proof.
  apply Z.le_antisymm.
  - apply Z.lt_succ_r. rewrite Zlt_Qlt.
    eapply Qle_lt_trans; [apply Qfloor_le|].
    unfold Z.succ. rewrite inject_Z_plus. change (inject_Z 1) with 1. lra.
  - rewrite <- (Qfloor_Z n) at 1. apply Qfloor_resp_le. lra.
Qed.

Lemma mathRound_integer (n : Z) : mathRound (inject_Z n) = inject_Z n.
Proof.
  unfold mathRound. destruct (Qle_bool 0 (inject_Z n)) eqn:E.
  - rewrite Qfloor_plus_half. reflexivity.
  - rewrite <- inject_Z_opp, Qfloor_plus_half. f_equal. lia.
Qed.

(** [math.Round] is within a half of its argument. *)
Lemma mathRound_near (x : Q) : Qabs (mathRound x - x) <= 0.5.
Proof.
  apply Qabs_Qle_condition. unfold mathRound.
  destruct (Qle_bool 0 x).
  - pose proof (Qfloor_le (x + 0.5)) as H1.
    pose proof (Qlt_floor (x + 0.5)) as H2.
    rewrite inject_Z_plus in H2. change (inject_Z 1) with 1 in H2. split; lra.
  - pose proof (Qfloor_le (- x + 0.5)) as H1.
    pose proof (Qlt_floor (- x + 0.5)) as H2.
    rewrite inject_Z_plus in H2. change (inject_Z 1) with 1 in H2.
    rewrite inject_Z_opp. split; lra.
Qed.

Lemma mathRound_mono (x y : Q) : x <= y -> mathRound x <= mathRound y.
Proof.
  intros Hxy.
  destruct (Qlt_le_dec x 0) as [Hx|Hx]; destruct (Qlt_le_dec y 0) as [Hy|Hy].
  - unfold mathRound.
    assert (E1 : Qle_bool 0 x = false) by (apply Qle_bool_gt; exact Hx).
    assert (E2 : Qle_bool 0 y = false) by (apply Qle_bool_gt; exact Hy).
    rewrite E1, E2, <- Zle_Qle.
    assert (H : (Qfloor (- y + 0.5) <= Qfloor (- x + 0.5))%Z)
      by (apply Qfloor_resp_le; lra).
    lia.
  - apply Qle_trans with 0;
      [apply mathRound_nonpos; lra | apply mathRound_nonneg; exact Hy].
  - lra.
  - unfold mathRound.
    assert (E1 : Qle_bool 0 x = true) by (apply Qle_bool_iff; exact Hx).
    assert (E2 : Qle_bool 0 y = true) by (apply Qle_bool_iff; exact Hy).
    rewrite E1, E2, <- Zle_Qle. apply Qfloor_resp_le. lra.
Qed.

(** Halves go away from zero on both sides: rounding commutes with
    negation. *)
Lemma mathRound_opp (x : Q) : mathRound (- x) == - mathRound x.
Proof.
  destruct (Qlt_le_dec x 0) as [Hx|Hx]; [|destruct (Qlt_le_dec 0 x) as [Hp|Hp]].
  - unfold mathRound.
    assert (E1 : Qle_bool 0 x = false) by (apply Qle_bool_gt; exact Hx).
    assert (E2 : Qle_bool 0 (- x) = true) by (apply Qle_bool_iff; lra).
    rewrite E1, E2, inject_Z_opp. lra.
  - unfold mathRound.
    assert (E1 : Qle_bool 0 x = true) by (apply Qle_bool_iff; lra).
    assert (E2 : Qle_bool 0 (- x) = false) by (apply Qle_bool_gt; lra).
    rewrite E1, E2, inject_Z_opp.
    assert (E3 : Qfloor (- - x + 0.5) = Qfloor (x + 0.5))
      by (apply Qfloor_comp; lra).
    rewrite E3. reflexivity.
  - assert (E0 : x == 0) by lra.
    rewrite (mathRound_ext (- x) 0) by lra.
    rewrite (mathRound_ext x 0) by exact E0. reflexivity.
Qed.

Section RoundTo.

Variable k : Q.
Hypothesis k_pos : 0 < k.

Lemma roundTo_ext (x y : Q) : x == y -> roundTo k x = roundTo k y.
Proof.
  intros E. unfold roundTo.
  rewrite (mathRound_ext (x * k) (y * k)); [reflexivity|].
  rewrite E. reflexivity.
Qed.

Lemma roundTo_error (x : Q) : roundTo k x - x == (mathRound (x * k) - x * k) / k.
Proof. unfold roundTo. field. lra. Qed.

Lemma roundTo_near (x : Q) : Qabs (roundTo k x - x) <= 0.5 / k.
Proof.
  rewrite roundTo_error.
  pose proof (mathRound_near (x * k)) as H.
  apply Qabs_Qle_condition in H. destruct H as [H1 H2].
  apply Qabs_Qle_condition. split.
  - apply Qle_shift_div_l; [exact k_pos|].
    setoid_replace (- (0.5 / k) * k) with (- 0.5) using relation Qeq
      by (field; lra). exact H1.
  - apply Qle_shift_div_l; [exact k_pos|].
    setoid_replace ((mathRound (x * k) - x * k) / k * k)
      with (mathRound (x * k) - x * k) using relation Qeq by (field; lra).
    exact H2.
Qed.

Lemma roundTo_mono (x y : Q) : x <= y -> roundTo k x <= roundTo k y.
Proof.
  intros H. unfold roundTo.
  assert (Hm : mathRound (x * k) <= mathRound (y * k)).
  { apply mathRound_mono. apply Qmult_le_compat_r; lra. }
  apply Qle_shift_div_l; [exact k_pos|].
  setoid_replace (mathRound (x * k) / k * k) with (mathRound (x * k))
    using relation Qeq by (field; lra).
  exact Hm.
Qed.

Lemma roundTo_opp (x : Q) : roundTo k (- x) == - roundTo k x.
Proof.
  unfold roundTo.
  rewrite (mathRound_ext (- x * k) (- (x * k))) by ring.
  rewrite mathRound_opp. field. lra.
Qed.

End RoundTo.

Lemma mathRound_is_integer (x : Q) : exists n, mathRound x = inject_Z n.
Proof. unfold mathRound. destruct (Qle_bool 0 x); eauto. Qed.

Lemma roundTo_idem (k x : Q) : 0 < k -> roundTo k (roundTo k x) = roundTo k x.
Proof.
  intros Hk. unfold roundTo at 1 3.
  destruct (mathRound_is_integer (x * k)) as [n Hn].
  assert (E : roundTo k x * k == inject_Z n).
  { unfold roundTo. rewrite Hn. field. lra. }
  rewrite (mathRound_ext _ _ E), mathRound_integer, Hn. reflexivity.
Qed.


(** ** The daily state as a fold over the events *)

Section ApplyFacts.

Variables dateOf dowOf : Z -> string.
Variable minGap : Q.

Local Abbreviation bins := (defaultBins minGap).
Local Abbreviation step := (dailyStep dateOf dowOf minGap bins).
Local Abbreviation event := (eventOf dateOf dowOf bins).
Local Abbreviation run := (dailyRun dateOf dowOf).

Lemma dailyStep_apply st prev day :
  step st prev day
  = if qualifies minGap (prev, day) then applyEvent st (event (prev, day)) else st.
Proof.
  unfold qualifies, dailyStep; simpl.
  destruct (Qle_bool (polygonBar.C prev) 0 || Qle_bool (polygonBar.O day) 0);
    simpl; [reflexivity|].
  destruct (Qltb _ minGap); reflexivity.
Qed.

Lemma dailyLoop_apply rest : forall st prev,
  dailyLoop dateOf dowOf minGap bins st prev rest
  = foldl applyEvent st
      (event <$> List.filter (qualifies minGap) (zip (prev :: rest) rest)).
Proof.
  induction rest as [|day rest IH]; intros st prev; [reflexivity|].
  change (dailyLoop dateOf dowOf minGap bins st prev (day :: rest))
    with (dailyLoop dateOf dowOf minGap bins (step st prev day) day rest).
  rewrite IH, dailyStep_apply.
  change (zip (prev :: day :: rest) (day :: rest))
    with ((prev, day) :: zip (day :: rest) rest).
  simpl List.filter. destruct (qualifies minGap (prev, day)); reflexivity.
Qed.

Lemma dailyRun_apply daily :
  run daily minGap
  = foldl applyEvent (dailyInit bins)
      (event <$> List.filter (qualifies minGap) (adjacent daily)).
Proof.
  destruct daily as [|first rest]; [reflexivity|].
  unfold dailyRun, adjacent. apply dailyLoop_apply.
Qed.

(** A property of the initial locals that [applyEvent] keeps holds when
    the loop ends. *)
Lemma dailyRun_inv (P : dailyState -> Prop) daily :
  P (dailyInit bins) ->
  (forall st e, P st -> P (applyEvent st e)) ->
  P (run daily minGap).
Proof.
  intros H0 Hstep. rewrite dailyRun_apply.
  generalize (event <$> List.filter (qualifies minGap) (adjacent daily)).
  intros l. revert H0. generalize (dailyInit bins).
  induction l as [|e l IH]; intros st HP; simpl; [exact HP|].
  apply IH, Hstep, HP.
Qed.

End ApplyFacts.

(** ** Counters and accumulators *)

Lemma countIf_snoc f pts e :
  countIf f (pts ++ [e]) = (countIf f pts + (if f e then 1 else 0))%Z.
Proof.
  unfold countIf. rewrite List.filter_app, length_app. simpl.
  destruct (f e); simpl length; lia.
Qed.

Lemma countIf_bounds f pts : (0 <= countIf f pts <= Z.of_nat (length pts))%Z.
Proof.
  unfold countIf. pose proof (List.filter_length_le f pts). lia.
Qed.

Lemma countIf_split f pts :
  (countIf f pts + countIf (fun p => negb (f p)) pts)%Z = Z.of_nat (length pts).
Proof.
  induction pts as [|p pts IH]; [reflexivity|].
  unfold countIf in *. simpl List.filter. destruct (f p); simpl length; lia.
Qed.

Lemma aggOK_zero : aggOK agg0.
Proof. unfold aggOK, agg0. simpl. split; [lia|]. split; [lia|]. reflexivity. Qed.

Lemma mirror_returns (e : GapPoint.t) : fadeRetOf e == - followRetOf e.
Proof. unfold fadeRetOf, followRetOf. ring. Qed.

Lemma aggOK_bin a e :
  aggOK a ->
  aggOK (aggBin a (followRetOf e) (fadeRetOf e)
           (GapPoint.SameDir e) (GapPoint.Filled e)).
Proof.
  intros (Hc & Hf & Hs). unfold aggOK, aggBin. simpl.
  destruct (GapPoint.SameDir e =? 1)%Z; destruct (GapPoint.Filled e =? 1)%Z;
    (split; [lia|]; split; [lia|]); rewrite Hs, mirror_returns; ring.
Qed.

Lemma aggOK_side a e :
  aggOK a ->
  aggOK (aggSide a (followRetOf e) (fadeRetOf e) (GapPoint.SameDir e)).
Proof.
  intros (Hc & Hf & Hs). unfold aggOK, aggSide. simpl.
  destruct (GapPoint.SameDir e =? 1)%Z;
    (split; [lia|]; split; [lia|]); rewrite Hs, mirror_returns; ring.
Qed.

Lemma newAggs_lookup (keys : list string) k a :
  newAggs keys !! k = Some a -> a = agg0.
Proof.
  unfold newAggs.
  assert (H : forall (m : gmap string agg),
            (forall a, m !! k = Some a -> a = agg0) ->
            forall a, foldl (fun m k => <[k := agg0]> m) m keys !! k = Some a ->
                      a = agg0).
  { induction keys as [|k' keys IH]; intros m Hm a0; simpl; [apply Hm|].
    apply IH. intros a1. destruct (decide (k' = k)) as [->|Hne].
    - rewrite lookup_insert_eq. congruence.
    - rewrite lookup_insert_ne by exact Hne. apply Hm. }
  apply H. intros a0. rewrite lookup_empty. discriminate.
Qed.

Lemma bump_lookup (m : gmap string agg) k f k' a :
  bump m k f !! k' = Some a ->
  (k' = k /\ exists a0, m !! k = Some a0 /\ a = f a0)
  \/ (k' <> k /\ m !! k' = Some a).
Proof.
  unfold bump. destruct (m !! k) as [a0|] eqn:E.
  - destruct (decide (k = k')) as [<-|Hne].
    + rewrite lookup_insert_eq. intros [= <-]. left. eauto.
    + rewrite lookup_insert_ne by exact Hne. intros H. right. split; congruence.
  - intros H. right. split; [|exact H]. intros ->. congruence.
Qed.

Lemma tallyInv_init bins : tallyInv (dailyInit bins).
Proof.
  unfold tallyInv. simpl.
  split; [reflexivity|]. split; [reflexivity|]. split; [reflexivity|].
  split; [reflexivity|]. split; [reflexivity|].
  split; [apply aggOK_zero|]. split; [apply aggOK_zero|].
  split; [intros k a H; apply newAggs_lookup in H; subst a; apply aggOK_zero|].
  split; [|split; reflexivity].
  intros k a H. apply newAggs_lookup in H. subst a.
  split; [apply aggOK_zero | reflexivity].
Qed.

Lemma tallyInv_apply st e : tallyInv st -> tallyInv (applyEvent st e).
Proof.
  intros (Hu & Hd & Hc & Hua & Hda & Huo & Hdo & Hb & Hw & Hs & Hm).
  unfold tallyInv. cbn [applyEvent upCount downCount contCount upAgg downAgg
    binAgg dowAgg points fadeSum followSum meanAbsGap].
  rewrite !countIf_snoc. unfold isUp, isDown, continued in *.
  split; [destruct (GapPoint.Direction e =? 1)%Z; lia|].
  split.
  { destruct (Z.eqb_spec (GapPoint.Direction e) 1) as [E|E].
    - rewrite E. simpl. lia.
    - destruct (GapPoint.Direction e =? -1)%Z; lia. }
  split; [destruct (GapPoint.SameDir e =? 1)%Z; lia|].
  split; [destruct (GapPoint.Direction e =? 1)%Z; simpl; lia|].
  split; [destruct (GapPoint.Direction e =? 1)%Z; simpl; lia|].
  split; [destruct (GapPoint.Direction e =? 1)%Z;
            [apply aggOK_side|]; exact Huo|].
  split; [destruct (GapPoint.Direction e =? 1)%Z;
            [|apply aggOK_side]; exact Hdo|].
  split.
  { intros k a H. apply bump_lookup in H as [[_ (a0 & H0 & ->)]|[_ H]].
    - apply aggOK_bin. eapply Hb, H0.
    - eapply Hb, H. }
  split.
  { intros k a H. rewrite countIf_snoc. unfold onWeekday at 2.
    apply bump_lookup in H as [[-> (a0 & H0 & ->)]|[Hne H]].
    - destruct (Hw _ _ H0) as [Hok Hcnt]. split; [apply aggOK_side, Hok|].
      rewrite String.eqb_refl. simpl. lia.
    - destruct (Hw _ _ H) as [Hok Hcnt]. split; [exact Hok|].
      destruct (String.eqb_spec (GapPoint.DayOfWeek e) k) as [E|E];
        [congruence|]. lia. }
  split.
  { rewrite Hs, mirror_returns. ring. }
  rewrite fmap_app, fmap_cons, fmap_nil. unfold total. rewrite foldl_snoc.
  fold (total 0 ((fun p => Qabs (gapOf p)) <$> points st)). rewrite Hm.
  reflexivity.
Qed.

Lemma extremeInv_init bins : extremeInv (dailyInit bins).
Proof. unfold extremeInv. simpl. split; [constructor | split; left; reflexivity]. Qed.

Lemma extremeInv_apply st e : extremeInv st -> extremeInv (applyEvent st e).
Proof.
  intros (HF & Hup & Hdn). unfold extremeInv.
  cbn [applyEvent maxGapUp maxGapDown points].
  destruct (Qltb (maxGapUp st) (gapOf e)) eqn:Eu;
    [apply Qltb_lt in Eu | apply Qltb_ge in Eu];
  (destruct (Qltb (gapOf e) (maxGapDown st)) eqn:Ed;
    [apply Qltb_lt in Ed | apply Qltb_ge in Ed]);
  (split; [apply Forall_app; split;
            [eapply Forall_impl; [exact HF|]; intros p [H1 H2]; split; lra
            | constructor; [split; lra | constructor]]|]);
  (split;
   [ first [ right; exists e; split; [apply elem_of_app; right; left | reflexivity]
           | destruct Hup as [Hup|(p & Hin & Hp)];
             [left; exact Hup
             | right; exists p; split; [apply elem_of_app; left; exact Hin | exact Hp]] ]
   | first [ right; exists e; split; [apply elem_of_app; right; left | reflexivity]
           | destruct Hdn as [Hdn|(p & Hin & Hp)];
             [left; exact Hdn
             | right; exists p; split; [apply elem_of_app; left; exact Hin | exact Hp]] ] ]).
Qed.

Lemma Qpercent (n d : Z) :
  (0 <= n <= d)%Z -> (0 < d)%Z ->
  isPercent (float64 n / float64 d * 100.0).
Proof.
  intros [Hn Hnd] Hd. unfold float64, isPercent.
  assert (H0 : 0 <= inject_Z n)
    by (change 0 with (inject_Z 0); rewrite <- Zle_Qle; exact Hn).
  assert (H1 : inject_Z n <= inject_Z d) by (rewrite <- Zle_Qle; exact Hnd).
  assert (H2 : 0 < inject_Z d)
    by (change 0 with (inject_Z 0); rewrite <- Zlt_Qlt; exact Hd).
  assert (H3 : 0 <= inject_Z n / inject_Z d).
  { apply Qle_shift_div_l; [exact H2 | lra]. }
  assert (H4 : inject_Z n / inject_Z d <= 1).
  { apply Qle_shift_div_r; [exact H2 | lra]. }
  split; lra.
Qed.

Lemma round1_percent (x : Q) : isPercent x -> isPercent (round1 x).
Proof.
  intros [H0 H1]. split.
  - apply (scaled_nonneg 10); [reflexivity | exact H0].
  - apply Qle_trans with (roundTo 10 100).
    + apply (roundTo_mono 10); [reflexivity | exact H1].
    + vm_compute. discriminate.
Qed.

Lemma isPercent_zero : isPercent 0.
Proof. split; lra. Qed.

Lemma rate_percent (n d : Z) : (0 <= n <= d)%Z -> isPercent (rate n d).
Proof.
  intros H. unfold rate. destruct (Z.eqb_spec d 0) as [E|E].
  - apply isPercent_zero.
  - apply round1_percent, Qpercent; [exact H | lia].
Qed.

(** ** The daily tables against the events *)

Section TableFacts.

Variables dateOf dowOf : Z -> string.
Variable minGap : Q.

Local Abbreviation bins := (defaultBins minGap).
Local Abbreviation event := (eventOf dateOf dowOf bins).
Local Abbreviation run := (dailyRun dateOf dowOf).
Local Abbreviation core := (analyzeCore dateOf dowOf).

Lemma tallyInv_run daily : tallyInv (run daily minGap).
Proof. apply dailyRun_inv; [apply tallyInv_init | apply tallyInv_apply]. Qed.

Lemma extremeInv_run daily : extremeInv (run daily minGap).
Proof. apply dailyRun_inv; [apply extremeInv_init | apply extremeInv_apply]. Qed.

Lemma core_tallies daily years ticker :
  talliesRule (fst (core daily minGap years ticker))
    (snd (core daily minGap years ticker)).
Proof.
  destruct (core_cases dateOf dowOf minGap daily years ticker) as [[H E]|[H E]];
    rewrite E; cbn [fst snd].
  - unfold talliesRule. cbn. split; [reflexivity|]. split; [reflexivity|].
    split; [reflexivity|]. split; [reflexivity|]. split; [reflexivity|].
    unfold countIf. simpl. lia.
  - destruct (tallyInv_run daily)
      as (Hu & Hd & Hc & Hua & Hda & Huo & Hdo & Hb & Hw & Hs & Hm).
    set (st := run daily minGap) in *.
    unfold talliesRule.
    cbn [AnalyzeResponse.Summary AnalyzeResponse.UpSide AnalyzeResponse.DownSide
         dailyResponse summaryOf Summary.Sessions Summary.GapUps Summary.GapDowns
         sideStatOf SideStat.Count].
    pose proof (countIf_split isUp (points st)) as Hsplit.
    pose proof (countIf_bounds isDown (points st)) as Hb1.
    assert (Hle : (countIf isDown (points st)
                   <= countIf (fun p => negb (isUp p)) (points st))%Z).
    { unfold countIf. apply inj_le.
      clear. induction (points st) as [|p l IH]; [simpl; lia|].
      simpl List.filter. unfold isDown, isUp in *.
      destruct (Z.eqb_spec (GapPoint.Direction p) (-1)) as [E|E];
        destruct (Z.eqb_spec (GapPoint.Direction p) 1) as [E1|E1];
        simpl; try lia. }
    repeat split; lia.
Qed.

Lemma qualifies_direction pd :
  0 < minGap -> qualifies minGap pd = true ->
  GapPoint.Direction (event pd) = 1%Z \/ GapPoint.Direction (event pd) = (-1)%Z.
Proof.
  intros Hpos Hq. apply qualifies_threshold in Hq as (Hg & _ & _).
  simpl. destruct (sign_cases (gapPctOf (polygonBar.C pd.1) (polygonBar.O pd.2)))
    as [H|[H|H]]; [left; exact H | right; exact H |].
  apply sign_zero in H. rewrite H in Hg. change (Qabs 0) with 0 in Hg. lra.
Qed.

Lemma core_directions daily years ticker :
  0 < minGap ->
  Forall (fun p => GapPoint.Direction p = 1%Z \/ GapPoint.Direction p = (-1)%Z)
    (snd (core daily minGap years ticker))
  /\ (Summary.GapUps (AnalyzeResponse.Summary (fst (core daily minGap years ticker)))
      + Summary.GapDowns (AnalyzeResponse.Summary (fst (core daily minGap years ticker))))%Z
     = Summary.Sessions (AnalyzeResponse.Summary (fst (core daily minGap years ticker))).
Proof.
  intros Hpos.
  assert (HF : Forall (fun p => GapPoint.Direction p = 1%Z
                               \/ GapPoint.Direction p = (-1)%Z)
                 (snd (core daily minGap years ticker))).
  { apply core_events_Forall. intros pd Hq. apply qualifies_direction; assumption. }
  split; [exact HF|].
  destruct (core_tallies daily years ticker) as (Hs & Hu & Hd & _).
  rewrite Hs, Hu, Hd.
  rewrite <- (countIf_split isUp (snd (core daily minGap years ticker))).
  f_equal. unfold countIf. f_equal. f_equal.
  apply List.filter_ext_in. intros p Hin.
  rewrite Forall_forall in HF. apply list_elem_of_In in Hin.
  unfold isDown, isUp. destruct (HF p Hin) as [E|E]; rewrite E; reflexivity.
Qed.

Lemma binStatOf_percent (m : gmap string agg) (b : gapBin) :
  (forall k a, m !! k = Some a -> aggOK a) ->
  isPercent (BinStat.ContinuationRate (binStatOf m b))
  /\ isPercent (BinStat.GapFillRate (binStatOf m b)).
Proof.
  intros Hok. unfold binStatOf.
  destruct (m !! lab b) as [ba|] eqn:E; [|split; apply isPercent_zero].
  destruct (Hok _ _ E) as (Hc & Hf & _).
  destruct (Z.eqb_spec (count ba) 0) as [E0|E0]; [split; apply isPercent_zero|].
  simpl. split; apply round1_percent, Qpercent; lia.
Qed.

Lemma sideStatOf_percent a :
  aggOK a -> isPercent (SideStat.ContinuationRate (sideStatOf a)).
Proof. intros (Hc & _). simpl. apply rate_percent, Hc. Qed.

Lemma core_percent daily years ticker :
  percentTables (fst (core daily minGap years ticker)).
Proof.
  destruct (core_cases dateOf dowOf minGap daily years ticker) as [[H E]|[H E]];
    rewrite E; cbn [fst].
  - unfold percentTables. simpl.
    split; [apply isPercent_zero|]. split; [constructor|].
    split; [apply isPercent_zero|]. split; [apply isPercent_zero|].
    intros k d Hk. rewrite lookup_empty in Hk. discriminate.
  - destruct (tallyInv_run daily)
      as (Hu & Hd & Hc & Hua & Hda & Huo & Hdo & Hb & Hw & Hs & Hm).
    set (st := run daily minGap) in *.
    unfold percentTables.
    cbn [AnalyzeResponse.Summary AnalyzeResponse.UpSide AnalyzeResponse.DownSide
         AnalyzeResponse.Bins AnalyzeResponse.ByDOW dailyResponse summaryOf
         Summary.ContinuationRate].
    split.
    { apply round1_percent.
      destruct (Z.ltb_spec 0 (Z.of_nat (length (points st)))) as [Hn|Hn];
        [|apply isPercent_zero].
      apply Qpercent; [|exact Hn]. rewrite Hc. apply countIf_bounds. }
    split.
    { apply Forall_fmap, Forall_forall. intros b _.
      apply binStatOf_percent, Hb. }
    split; [apply sideStatOf_percent, Huo|].
    split; [apply sideStatOf_percent, Hdo|].
    intros k d Hk. rewrite lookup_fmap in Hk.
    destruct (dowAgg st !! k) as [a|] eqn:Ea; [|discriminate].
    injection Hk as <-. destruct (Hw _ _ Ea) as [(Hca & _) _].
    simpl. apply rate_percent, Hca.
Qed.

Lemma core_dow_counts daily years ticker k :
  (2 <= length daily)%nat -> k ∈ weekdays ->
  exists d, AnalyzeResponse.ByDOW (fst (core daily minGap years ticker)) !! k = Some d
            /\ DowStat.Count d
               = countIf (onWeekday k) (snd (core daily minGap years ticker)).
Proof.
  intros H Hk. rewrite core_long by exact H. cbn [fst snd].
  destruct (tallyInv_run daily)
    as (Hu & Hd & Hc & Hua & Hda & Huo & Hdo & Hb & Hw & Hs & Hm).
  destruct (dowInv_run dateOf dowOf minGap daily) as [Hdom _].
  set (st := run daily minGap) in *.
  assert (Hin : k ∈ dom (dowAgg st)).
  { rewrite Hdom, newAggs_weekdays_dom. apply elem_of_list_to_set, Hk. }
  apply elem_of_dom in Hin as [a Ha].
  exists (dowStatOf a). cbn [AnalyzeResponse.ByDOW dailyResponse].
  rewrite lookup_fmap, Ha. split; [reflexivity|].
  simpl. apply (Hw _ _ Ha).
Qed.

Lemma core_extremes daily years ticker :
  Forall (fun p =>
            round2 (gapOf p)
            <= Summary.MaxGapUp (AnalyzeResponse.Summary (fst (core daily minGap years ticker)))
            /\ Summary.MaxGapDown (AnalyzeResponse.Summary (fst (core daily minGap years ticker)))
               <= round2 (gapOf p))
    (snd (core daily minGap years ticker))
  /\ (Summary.MaxGapUp (AnalyzeResponse.Summary (fst (core daily minGap years ticker))) == 0
      \/ exists p, p ∈ snd (core daily minGap years ticker)
           /\ Summary.MaxGapUp (AnalyzeResponse.Summary (fst (core daily minGap years ticker)))
              = round2 (gapOf p))
  /\ (Summary.MaxGapDown (AnalyzeResponse.Summary (fst (core daily minGap years ticker))) == 0
      \/ exists p, p ∈ snd (core daily minGap years ticker)
           /\ Summary.MaxGapDown (AnalyzeResponse.Summary (fst (core daily minGap years ticker)))
              = round2 (gapOf p)).
Proof.
  destruct (core_cases dateOf dowOf minGap daily years ticker) as [[H E]|[H E]];
    rewrite E; cbn [fst snd].
  - simpl. split; [constructor|]. split; left; reflexivity.
  - destruct (extremeInv_run daily) as (HF & Hup & Hdn).
    set (st := run daily minGap) in *.
    cbn [AnalyzeResponse.Summary dailyResponse summaryOf Summary.MaxGapUp
         Summary.MaxGapDown].
    split.
    { eapply Forall_impl; [exact HF|]. intros p [H1 H2].
      split; apply (roundTo_mono 100); try reflexivity; assumption. }
    split.
    + destruct Hup as [Hup|(p & Hin & Hp)].
      * left. rewrite Hup. reflexivity.
      * right. exists p. split; [exact Hin | rewrite Hp; reflexivity].
    + destruct Hdn as [Hdn|(p & Hin & Hp)].
      * left. rewrite Hdn. reflexivity.
      * right. exists p. split; [exact Hin | rewrite Hp; reflexivity].
Qed.

End TableFacts.

(** ** Fade against follow *)

Lemma round3_mirror (x y : Q) : x == - y -> round3 x == - round3 y.
Proof.
  intros E. change (roundTo 1000 x == - roundTo 1000 y).
  rewrite (roundTo_ext 1000 x (- y) E). apply roundTo_opp. reflexivity.
Qed.

Lemma Qdiv_mirror (s t d : Q) : s == - t -> s / d == - (t / d).
Proof. intros E. unfold Qdiv. rewrite E. ring. Qed.

Lemma avg_mirror (s t : Q) (n : Z) : s == - t -> avg s n == - avg t n.
Proof.
  intros E. unfold avg. destruct (n =? 0)%Z; [reflexivity|].
  apply round3_mirror, Qdiv_mirror, E.
Qed.

Lemma runningSums_mirror (pts : list GapPoint.t) : forall acc acc',
  acc == - acc' ->
  Forall2 (fun a b => a == - b)
    (round3 <$> runningSums acc (fadeRetOf <$> pts))
    (round3 <$> runningSums acc' (followRetOf <$> pts)).
Proof.
  induction pts as [|p pts IH]; intros acc acc' E; [constructor|].
  assert (E' : acc + fadeRetOf p == - (acc' + followRetOf p))
    by (rewrite E, mirror_returns; ring).
  constructor; [apply round3_mirror, E' | apply IH, E'].
Qed.

Lemma total_mirror (pts : list GapPoint.t) : forall acc acc',
  acc == - acc' ->
  total acc (fadeRetOf <$> pts) == - total acc' (followRetOf <$> pts).
Proof.
  induction pts as [|p pts IH]; intros acc acc' E; [exact E|].
  apply IH. rewrite E, mirror_returns. ring.
Qed.

Lemma Qdiv_sign (f n : Q) :
  0 < n -> (0 < f / n <-> 0 < f) /\ (f / n < 0 <-> f < 0) /\ (f / n == 0 <-> f == 0).
Proof.
  intros Hn.
  assert (Hi : 0 < / n) by (apply Qinv_lt_0_compat; exact Hn).
  assert (E : f == f / n * n) by (field; lra).
  unfold Qdiv in *.
  repeat split; intros H.
  - rewrite E. apply Qmult_lt_0_compat; assumption.
  - apply Qmult_lt_0_compat; assumption.
  - assert (H' : 0 < (- (f * / n)) * n) by (apply Qmult_lt_0_compat; lra). lra.
  - assert (H' : 0 < (- f) * / n) by (apply Qmult_lt_0_compat; lra). lra.
  - rewrite E, H. ring.
  - rewrite H. ring.
Qed.

Lemma round3_sign (x : Q) :
  (0 <= x -> 0 <= round3 x) /\ (x <= 0 -> round3 x <= 0).
Proof.
  split; intros H.
  - apply (scaled_nonneg 1000); [reflexivity | exact H].
  - apply (scaled_nonpos 1000); [reflexivity | exact H].
Qed.


Section StrategyFacts.

Variables dateOf dowOf : Z -> string.
Variable minGap : Q.

Local Abbreviation bins := (defaultBins minGap).
Local Abbreviation run := (dailyRun dateOf dowOf).
Local Abbreviation core := (analyzeCore dateOf dowOf).

Lemma binStatOf_mirror (m : gmap string agg) (b : gapBin) :
  (forall k a, m !! k = Some a -> aggOK a) ->
  BinStat.FadeAvg (binStatOf m b) == - BinStat.FollowAvg (binStatOf m b).
Proof.
  intros Hok. unfold binStatOf.
  destruct (m !! lab b) as [ba|] eqn:E; [|reflexivity].
  destruct (Hok _ _ E) as (_ & _ & Hs).
  destruct (count ba =? 0)%Z; [reflexivity|].
  simpl. apply round3_mirror, Qdiv_mirror, Hs.
Qed.

Lemma core_mirror daily years ticker :
  mirrorTables (fst (core daily minGap years ticker)).
Proof.
  destruct (core_cases dateOf dowOf minGap daily years ticker) as [[H E]|[H E]];
    rewrite E; cbn [fst].
  - unfold mirrorTables. simpl.
    split; [reflexivity|]. split; [constructor|]. split; [constructor|].
    split; [reflexivity|]. split; [reflexivity|].
    intros k d Hk. rewrite lookup_empty in Hk. discriminate.
  - destruct (tallyInv_run dateOf dowOf minGap daily)
      as (Hu & Hd & Hc & Hua & Hda & Huo & Hdo & Hb & Hw & Hs & Hm).
    destruct (cumInv_run dateOf dowOf minGap daily)
      as (_ & _ & _ & _ & _ & Hafo & Hafa).
    set (st := run daily minGap) in *.
    unfold mirrorTables.
    cbn [AnalyzeResponse.Summary AnalyzeResponse.UpSide AnalyzeResponse.DownSide
         AnalyzeResponse.Bins AnalyzeResponse.ByDOW AnalyzeResponse.CumFade
         AnalyzeResponse.CumFollow dailyResponse summaryOf
         Summary.FadeAvg Summary.FollowAvg].
    split.
    { apply round3_mirror.
      destruct (0 <? Z.of_nat (length (points st)))%Z; [|reflexivity].
      apply Qdiv_mirror, Hs. }
    split; [rewrite Hafo, Hafa; apply runningSums_mirror; reflexivity|].
    split.
    { apply Forall_fmap, Forall_forall. intros b _.
      apply binStatOf_mirror, Hb. }
    split; [apply avg_mirror, Huo|]. split; [apply avg_mirror, Hdo|].
    intros k d Hk. rewrite lookup_fmap in Hk.
    destruct (dowAgg st !! k) as [a|] eqn:Ea; [|discriminate].
    injection Hk as <-. destruct (Hw _ _ Ea) as [(_ & _ & Hsa) _].
    simpl. apply avg_mirror, Hsa.
Qed.

Lemma core_best daily years ticker :
  (2 <= length daily)%nat ->
  bestRule (fst (core daily minGap years ticker)).
Proof.
  intros H. rewrite core_long by exact H. cbn [fst snd].
  destruct (tallyInv_run dateOf dowOf minGap daily)
    as (_ & _ & _ & _ & _ & _ & _ & _ & _ & Hs & _).
  set (st := run daily minGap) in *.
  unfold bestRule.
  cbn [AnalyzeResponse.Summary dailyResponse summaryOf Summary.BestStrategy
       Summary.ExpectedReturn Summary.FollowAvg].
  set (a := if (0 <? Z.of_nat (length (points st)))%Z
            then followSum st / float64 (Z.of_nat (length (points st))) else 0).
  set (b := if (0 <? Z.of_nat (length (points st)))%Z
            then fadeSum st / float64 (Z.of_nat (length (points st))) else 0).
  assert (Hba : b == - a).
  { unfold a, b. destruct (0 <? Z.of_nat (length (points st)))%Z;
      [apply Qdiv_mirror, Hs | reflexivity]. }
  destruct (round3_sign a) as [Hr1 Hr2].
  destruct (Qltb b a) eqn:E1; [apply Qltb_lt in E1 | apply Qltb_ge in E1].
  - assert (Ha : 0 <= round3 a) by (apply Hr1; lra).
    split; [reflexivity|]. split; [intros Hc; lra|].
    split; [intros _; exact Ha|]. split; [discriminate|].
    split; [discriminate|]. split; [left; reflexivity|].
    split; [rewrite Qabs_pos by exact Ha; reflexivity | exact Ha].
  - destruct (Qltb a b) eqn:E2; [apply Qltb_lt in E2 | apply Qltb_ge in E2].
    + assert (Ha : round3 a <= 0) by (apply Hr2; lra).
      pose proof (round3_mirror b a Hba) as Hm.
      split; [intros Hc; lra|]. split; [reflexivity|].
      split; [discriminate|]. split; [intros _; exact Ha|].
      split; [discriminate|]. split; [right; left; reflexivity|].
      split; [rewrite Qabs_neg by exact Ha; exact Hm | lra].
    + assert (Ha : a == 0) by lra.
      assert (E0 : round3 a = round3 0) by (apply (roundTo_ext 1000); exact Ha).
      rewrite E0.
      split; [intros Hc; vm_compute in Hc; discriminate Hc|].
      split; [intros Hc; vm_compute in Hc; discriminate Hc|].
      split; [discriminate|]. split; [discriminate|].
      split; [intros _; reflexivity|]. split; [right; right; reflexivity|].
      split; vm_compute; [reflexivity | discriminate].
Qed.


End StrategyFacts.

(** ** Events on their prices *)

Lemma gapPctOf_sign (c o : Q) :
  0 < c ->
  (0 < gapPctOf c o <-> c < o) /\ (gapPctOf c o < 0 <-> o < c).
Proof.
  intros Hc. unfold gapPctOf.
  destruct (Qdiv_sign (o - c) c Hc) as (H1 & H2 & _).
  split; split; intros H.
  - assert (0 < (o - c) / c) by lra. apply H1 in H0. lra.
  - assert (0 < (o - c) / c) by (apply H1; lra). lra.
  - assert ((o - c) / c < 0) by lra. apply H2 in H0. lra.
  - assert ((o - c) / c < 0) by (apply H2; lra). lra.
Qed.

Lemma returnPctOf_sign (o cl : Q) :
  0 < o ->
  (0 < returnPctOf o cl <-> o < cl) /\ (returnPctOf o cl < 0 <-> cl < o).
Proof. intros Ho. apply (gapPctOf_sign o cl Ho). Qed.

Lemma qualifies_priceRule dateOf dowOf bins minGap pd :
  qualifies minGap pd = true -> priceRule (eventOf dateOf dowOf bins pd).
Proof.
  intros Hq. apply qualifies_threshold in Hq as (_ & Hc & Ho).
  unfold priceRule, followRetOf, returnOf. simpl.
  set (c := polygonBar.C pd.1) in *. set (o := polygonBar.O pd.2) in *.
  set (cl := polygonBar.C pd.2).
  destruct (gapPctOf_sign c o Hc) as [Hg1 Hg2].
  destruct (returnPctOf_sign o cl Ho) as [Hr1 Hr2].
  pose proof (sameOf_spec (returnPctOf o cl) (sign (gapPctOf c o))) as Hs.
  pose proof (sign_pos (gapPctOf c o)) as Sp.
  pose proof (sign_neg (gapPctOf c o)) as Sn.
  pose proof (sign_pos (returnPctOf o cl)) as Rp.
  pose proof (sign_neg (returnPctOf o cl)) as Rn.
  pose proof (sign_zero (returnPctOf o cl)) as Rz.
  split; [rewrite Sp; exact Hg1|]. split; [rewrite Sn; exact Hg2|].
  destruct (sign_cases (gapPctOf c o)) as [E|[E|E]]; rewrite E in *;
    unfold float64;
    change (inject_Z 1) with 1; change (inject_Z (-1)) with (- (1));
    change (inject_Z 0) with 0.
  - assert (Hco : c < o) by (apply Hg1, Sp; reflexivity).
    split; (split; [intros H; apply Hs in H as (H1 & _ & _)
                   | intros H; apply Hs]).
    + left. split; [exact Hco | apply Hr1, Rp, H1].
    + destruct H as [[_ H]|[H _]]; [|lra].
      split; [apply Rp, Hr1, H|]. split; [lia|]. apply Hr1 in H. lra.
    + apply Rp in H1. lra.
    + assert (Hp : 0 < returnPctOf o cl) by lra.
      split; [apply Rp, Hp|]. split; [lia | lra].
  - assert (Hco : o < c) by (apply Hg2, Sn; reflexivity).
    split; (split; [intros H; apply Hs in H as (H1 & _ & _)
                   | intros H; apply Hs]).
    + right. split; [exact Hco | apply Hr2, Rn, H1].
    + destruct H as [[H _]|[_ H]]; [lra|].
      split; [apply Rn, Hr2, H|]. split; [lia|]. apply Hr2 in H. lra.
    + apply Rn in H1. lra.
    + assert (Hp : returnPctOf o cl < 0) by lra.
      split; [apply Rn, Hp|]. split; [lia | lra].
  - assert (Hz : gapPctOf c o == 0) by (apply sign_zero; exact E).
    assert (Hco : ~ c < o) by (intros H; apply Hg1 in H; lra).
    assert (Hoc : ~ o < c) by (intros H; apply Hg2 in H; lra).
    split; (split; [intros H; apply Hs in H as (_ & H2 & _); lia|]).
    + intros [[H _]|[H _]]; contradiction.
    + intros H. lra.
Qed.

(** ** The two versions of the daily pass *)

Section Agreement.

Variables dateOf dowOf dateOf' dowOf' : Z -> string.
Variable minGap : Q.

Local Abbreviation bins := (defaultBins minGap).

Lemma agreeInv_init : agreeInv (dailyInit bins) (dailyInit bins).
Proof. unfold agreeInv. simpl. repeat split; constructor. Qed.

Lemma agreeInv_step st st' prev day :
  agreeInv st st' ->
  agreeInv (dailyStep dateOf dowOf minGap bins st prev day)
           (dailyStep dateOf' dowOf' minGap bins st' prev day).
Proof.
  intros (H1 & H2 & H3 & H4 & H5 & H6 & H7 & H8 & H9 & H10 & H11 & H12
          & H13 & H14 & H15 & H16).
  rewrite !dailyStep_apply.
  destruct (qualifies minGap (prev, day)).
  2:{ unfold agreeInv. tauto. }
  unfold agreeInv, applyEvent, followRetOf, fadeRetOf, returnOf, gapOf.
  cbn [binAgg upAgg downAgg dowAgg points fadeSum followSum contCount upCount
       downCount meanAbsGap maxGapUp maxGapDown cumFade cumFollow cumDates
       cumFadeArr cumFollowArr eventOf GapPoint.Date GapPoint.GapPct
       GapPoint.DailyReturnPct GapPoint.Direction GapPoint.SameDir
       GapPoint.Filled GapPoint.Bin GapPoint.Open GapPoint.Close
       GapPoint.PrevClose GapPoint.DayOfWeek fst snd].
  rewrite H1, H2, H3, H5, H6, H7, H8, H9, H10, H11, H12, H13, H14, H15, H16.
  split; [reflexivity|]. split; [reflexivity|]. split; [reflexivity|].
  split; [|repeat split; reflexivity].
  apply Forall2_app; [exact H4|]. constructor; [|constructor].
  unfold sameButLabels. simpl. repeat split; reflexivity.
Qed.

Lemma agreeInv_loop rest : forall st st' prev,
  agreeInv st st' ->
  agreeInv (dailyLoop dateOf dowOf minGap bins st prev rest)
           (dailyLoop dateOf' dowOf' minGap bins st' prev rest).
Proof.
  induction rest as [|day rest IH]; intros st st' prev H; simpl; [exact H|].
  apply IH, agreeInv_step, H.
Qed.

Lemma agreeInv_run daily :
  agreeInv (dailyRun dateOf dowOf daily minGap)
           (dailyRun dateOf' dowOf' daily minGap).
Proof.
  destruct daily as [|first rest]; [apply agreeInv_init|].
  unfold dailyRun. apply agreeInv_loop, agreeInv_init.
Qed.

Lemma core_agree daily years ticker :
  let r := fst (analyzeCore dateOf dowOf daily minGap years ticker) in
  let g := fst (analyzeCore dateOf' dowOf' daily minGap years ticker) in
  AnalyzeResponse.Success g = AnalyzeResponse.Success r
  /\ AnalyzeResponse.Error g = AnalyzeResponse.Error r
  /\ AnalyzeResponse.Summary g = AnalyzeResponse.Summary r
  /\ AnalyzeResponse.Bins g = AnalyzeResponse.Bins r
  /\ AnalyzeResponse.UpSide g = AnalyzeResponse.UpSide r
  /\ AnalyzeResponse.DownSide g = AnalyzeResponse.DownSide r
  /\ AnalyzeResponse.CumFade g = AnalyzeResponse.CumFade r
  /\ AnalyzeResponse.CumFollow g = AnalyzeResponse.CumFollow r
  /\ Forall2 sameButLabels (AnalyzeResponse.Data r) (AnalyzeResponse.Data g).
Proof.
  cbv zeta.
  destruct (core_cases dateOf dowOf minGap daily years ticker) as [[H E]|[H E]].
  - rewrite E, (core_short dateOf' dowOf' minGap daily years ticker H).
    simpl. repeat split; constructor.
  - rewrite E, (core_long dateOf' dowOf' minGap daily years ticker H).
    destruct (agreeInv_run daily)
      as (H1 & H2 & H3 & H4 & H5 & H6 & H7 & H8 & H9 & H10 & H11 & H12
          & H13 & H14 & H15 & H16).
    cbn [fst dailyResponse AnalyzeResponse.Success AnalyzeResponse.Error
         AnalyzeResponse.Summary AnalyzeResponse.Bins AnalyzeResponse.UpSide
         AnalyzeResponse.DownSide AnalyzeResponse.CumFade
         AnalyzeResponse.CumFollow AnalyzeResponse.Data].
    unfold summaryOf.
    rewrite <- (Forall2_length _ _ _ H4).
    rewrite H1, H2, H3, H5, H6, H7, H8, H9, H10, H11, H12, H15, H16.
    repeat split; try reflexivity. exact H4.
Qed.

End Agreement.

(** ** The overlay, iteration by iteration *)

Section Overlay15.

Variable loc : Location.
Variable minutesByDate : gmap string (list polygonBar.t).

Local Abbreviation step := (step15 loc minutesByDate).
Local Abbreviation loop := (loop15 loc minutesByDate).
Local Abbreviation overlay := (overlayOf loc minutesByDate).

Lemma filter_nil_length {A} (f : A -> bool) (l : list A) :
  l = [] -> (length (List.filter f l) =? 0)%nat = true.
Proof. intros ->. reflexivity. Qed.

Lemma step15_overlay st p :
  step st p
  = match overlay p with
    | None => (st, p)
    | Some (ret15, cont15, filled0945) =>
        (update15 st p ret15 cont15 filled0945,
         withPoint15 p (round3 ret15) filled0945)
    end.
Proof.
  unfold step15, overlayOf, window15, open0930Of. cbv zeta.
  destruct (default [] (minutesByDate !! GapPoint.Date p)) as [|b mins] eqn:E.
  - reflexivity.
  - change (length (b :: mins) =? 0)%nat with false. cbv iota.
    destruct (length _ =? 0)%nat; [reflexivity|].
    destruct (Qle_bool _ 0); reflexivity.
Qed.

Lemma overlayOf_flags p r c f :
  overlay p = Some (r, c, f) ->
  (c = 0%Z \/ c = 1%Z) /\ (f = 0%Z \/ f = 1%Z).
Proof.
  unfold overlayOf. cbv zeta.
  destruct (length _ =? 0)%nat; [discriminate|].
  destruct (Qle_bool _ 0); [discriminate|].
  intros [= _ <- <-]. split; [apply sameOf_flag|].
  destruct (GapPoint.Direction p =? 1)%Z; [destruct (existsb _ _); auto|].
  destruct (GapPoint.Direction p =? -1)%Z; [destruct (existsb _ _); auto|].
  auto.
Qed.

(** The overlay reads only the fields of an event that the daily pass
    filled. *)
Lemma overlayOf_withPoint15 p r f : overlay (withPoint15 p r f) = overlay p.
Proof. reflexivity. Qed.

Lemma update15_withPoint15 st p r f r' c' f' :
  update15 st (withPoint15 p r f) r' c' f' = update15 st p r' c' f'.
Proof. reflexivity. Qed.

(** Running an iteration on the point an iteration left behind changes
    the locals as on the original point and leaves the point as it is. *)
Lemma step15_again st st' p :
  step st' (step st p).2 = ((step st' p).1, (step st p).2).
Proof.
  rewrite (step15_overlay st p).
  destruct (overlay p) as [[[r c] f]|] eqn:E; cbn [snd].
  - rewrite !step15_overlay, overlayOf_withPoint15, E. reflexivity.
  - rewrite step15_overlay, E. reflexivity.
Qed.

Lemma loop15_again pts : forall st st',
  loop st' (loop st pts).2 = ((loop st' pts).1, (loop st pts).2).
Proof.
  induction pts as [|p pts IH]; intros st st'; [reflexivity|].
  simpl. pose proof (step15_again st st' p) as Hs.
  destruct (step st p) as [st1 p1]. destruct (step st' p) as [st1' p1'].
  cbn [fst snd] in Hs.
  specialize (IH st1 st1').
  destruct (loop st1 pts) as [st2 rest2].
  destruct (loop st1' pts) as [st2' rest2']. cbn [fst snd] in IH |- *.
  simpl. rewrite Hs, IH. reflexivity.
Qed.

Lemma loop15_length pts : forall st, length (loop st pts).2 = length pts.
Proof.
  intros st. symmetry. eapply Forall2_length. apply loop15_sameDaily.
Qed.

(** The number of sessions the overlay counts. *)
Lemma loop15_sessions pts : forall st,
  sessions15 (loop st pts).1
  = (sessions15 st + countIf (covered loc minutesByDate) pts)%Z.
Proof.
  induction pts as [|p pts IH]; intros st.
  - unfold countIf. simpl. lia.
  - simpl. rewrite (step15_overlay st p).
    unfold countIf, covered in *. simpl List.filter.
    destruct (overlay p) as [[[r c] f]|] eqn:E.
    + specialize (IH (update15 st p r c f)).
      destruct (loop (update15 st p r c f) pts) as [st2 rest2].
      cbn [fst] in IH |- *. rewrite IH. simpl length. simpl sessions15. lia.
    + specialize (IH st). destruct (loop st pts) as [st2 rest2].
      cbn [fst] in IH |- *. exact IH.
Qed.

Lemma covered_hasBars p :
  covered loc minutesByDate p = true -> hasBars minutesByDate p = true.
Proof.
  unfold covered, hasBars, overlayOf, window15. cbv zeta.
  destruct (default [] (minutesByDate !! GapPoint.Date p)); [discriminate|].
  reflexivity.
Qed.

Lemma agg15OK_zero : agg15OK agg15.zero.
Proof. unfold agg15OK. simpl. split; [lia|]. split; [lia|]. reflexivity. Qed.

Lemma agg15OK_add a dir r c f :
  (c = 0%Z \/ c = 1%Z) -> (f = 0%Z \/ f = 1%Z) -> agg15OK a ->
  agg15OK (agg15Add a (float64 dir * r) (- float64 dir * r) c f).
Proof.
  intros Hc Hf (H1 & H2 & H3). unfold agg15OK, agg15Add. simpl.
  destruct Hc as [-> | ->]; destruct Hf as [-> | ->]; simpl;
    (split; [lia|]; split; [lia|]); rewrite H3; ring.
Qed.

Lemma newAggs15_lookup (keys : list string) k a :
  newAggs15 keys !! k = Some a -> a = agg15.zero.
Proof.
  unfold newAggs15.
  assert (H : forall (m : gmap string agg15.t),
            (forall a, m !! k = Some a -> a = agg15.zero) ->
            forall a, foldl (fun m k => <[k := agg15.zero]> m) m keys !! k = Some a ->
                      a = agg15.zero).
  { induction keys as [|k' keys IH]; intros m Hm a0; simpl; [apply Hm|].
    apply IH. intros a1. destruct (decide (k' = k)) as [->|Hne].
    - rewrite lookup_insert_eq. congruence.
    - rewrite lookup_insert_ne by exact Hne. apply Hm. }
  apply H. intros a0. rewrite lookup_empty. discriminate.
Qed.

Lemma bump15_OK (m : gmap string agg15.t) k upd :
  (forall a, agg15OK a -> agg15OK (upd a)) ->
  (forall k a, m !! k = Some a -> agg15OK a) ->
  forall k' a, bump15 m k upd !! k' = Some a -> agg15OK a.
Proof.
  intros Hupd Hm k' a. unfold bump15.
  destruct (decide (k = k')) as [<-|Hne].
  - rewrite lookup_insert_eq. intros [= <-]. apply Hupd.
    destruct (m !! k) as [a0|] eqn:E; [eapply Hm, E | apply agg15OK_zero].
  - rewrite lookup_insert_ne by exact Hne. apply Hm.
Qed.

Lemma inv15_init bins : inv15 (init15 bins).
Proof.
  unfold inv15. simpl.
  split; [lia|]. split; [lia|]. split; [reflexivity|].
  split; [apply agg15OK_zero|]. split; [apply agg15OK_zero|].
  split; [intros k a H; apply newAggs15_lookup in H; subst a; apply agg15OK_zero|].
  split; [intros k a H; apply newAggs15_lookup in H; subst a; apply agg15OK_zero|].
  reflexivity.
Qed.

Lemma inv15_update st p r c f :
  (c = 0%Z \/ c = 1%Z) -> (f = 0%Z \/ f = 1%Z) ->
  inv15 st -> inv15 (update15 st p r c f).
Proof.
  intros Hc Hf (H1 & H2 & H3 & H4 & H5 & H6 & H7 & H8).
  unfold inv15, update15. cbv zeta.
  cbn [binAgg15 upAgg15 downAgg15 dowAgg15 fadeSum15 followSum15 contCount15
       filledBy0945Count sessions15].
  split; [destruct Hc as [-> | ->]; lia|].
  split; [destruct Hf as [-> | ->]; lia|].
  split; [destruct (GapPoint.Direction p =? 1)%Z; simpl; lia|].
  split; [destruct (GapPoint.Direction p =? 1)%Z;
            [apply agg15OK_add|]; assumption|].
  split; [destruct (GapPoint.Direction p =? 1)%Z;
            [|apply agg15OK_add]; assumption|].
  split; [apply bump15_OK; [intros a; apply agg15OK_add|]; assumption|].
  split; [apply bump15_OK; [intros a; apply agg15OK_add|]; assumption|].
  rewrite H8. ring.
Qed.

Lemma inv15_loop pts : forall st, inv15 st -> inv15 (loop st pts).1.
Proof.
  induction pts as [|p pts IH]; intros st H; [exact H|].
  simpl. rewrite (step15_overlay st p).
  destruct (overlay p) as [[[r c] f]|] eqn:E.
  - destruct (overlayOf_flags p r c f E) as [Hc Hf].
    specialize (IH (update15 st p r c f) (inv15_update st p r c f Hc Hf H)).
    destruct (loop (update15 st p r c f) pts). exact IH.
  - specialize (IH st H). destruct (loop st pts). exact IH.
Qed.

End Overlay15.

(** ** The overlay as a whole *)

Section OverlayTables.

Variable loc : Location.
Variable minutesByDate : gmap string (list polygonBar.t).

Lemma run15_inv r : inv15 (run15 loc r minutesByDate).1.
Proof. unfold run15. apply inv15_loop, inv15_init. Qed.

Lemma binStat15Of_percent (m : gmap string agg15.t) (b : gapBin) :
  (forall k a, m !! k = Some a -> agg15OK a) ->
  isPercent (BinStat15.ContinuationRate (binStat15Of m b))
  /\ isPercent (BinStat15.GapFillBy0945Rate (binStat15Of m b)).
Proof.
  intros Hok. unfold binStat15Of.
  destruct (m !! lab b) as [ba|] eqn:E; [|split; apply isPercent_zero].
  destruct (Hok _ _ E) as (Hc & Hf & _).
  destruct (Z.eqb_spec (agg15.count ba) 0) as [E0|E0];
    [split; apply isPercent_zero|].
  simpl. split; apply round1_percent, Qpercent; lia.
Qed.

Lemma binStat15Of_mirror (m : gmap string agg15.t) (b : gapBin) :
  (forall k a, m !! k = Some a -> agg15OK a) ->
  BinStat15.FadeAvg (binStat15Of m b) == - BinStat15.FollowAvg (binStat15Of m b).
Proof.
  intros Hok. unfold binStat15Of.
  destruct (m !! lab b) as [ba|] eqn:E; [|reflexivity].
  destruct (Hok _ _ E) as (_ & _ & Hs).
  destruct (agg15.count ba =? 0)%Z; [reflexivity|].
  simpl. apply round3_mirror, Qdiv_mirror, Hs.
Qed.

Lemma tables15_percent st r' :
  inv15 st -> tables15From st r' -> percentTables15 r'.
Proof.
  intros (H1 & H2 & H3 & H4 & H5 & H6 & H7 & H8) (T1 & T2 & T3 & T4 & T5).
  unfold percentTables15. rewrite T1, T2, T3, T4, T5.
  cbn [summary15Of Summary15.ContinuationRate Summary15.GapFillBy0945Rate].
  split.
  { apply round1_percent.
    destruct (Z.ltb_spec 0 (sessions15 st)); [|apply isPercent_zero].
    apply Qpercent; assumption. }
  split.
  { apply round1_percent.
    destruct (Z.ltb_spec 0 (sessions15 st)); [|apply isPercent_zero].
    apply Qpercent; assumption. }
  split.
  { apply Forall_fmap, Forall_forall. intros b _.
    apply binStat15Of_percent, H6. }
  destruct H4 as (Hu & _). destruct H5 as (Hd & _).
  split; [simpl; apply rate_percent, Hu|].
  split; [simpl; apply rate_percent, Hd|].
  intros k d Hk. rewrite lookup_fmap in Hk.
  destruct (dowAgg15 st !! k) as [a|] eqn:Ea; [|discriminate].
  injection Hk as <-. destruct (H7 _ _ Ea) as (Hca & _).
  simpl. apply rate_percent, Hca.
Qed.

Lemma tables15_mirror st r' :
  inv15 st -> tables15From st r' -> mirrorTables15 r'.
Proof.
  intros (H1 & H2 & H3 & H4 & H5 & H6 & H7 & H8) (T1 & T2 & T3 & T4 & T5).
  unfold mirrorTables15. rewrite T1, T2, T3, T4, T5.
  cbn [summary15Of Summary15.FadeAvg Summary15.FollowAvg].
  split.
  { apply round3_mirror. destruct (0 <? sessions15 st)%Z; [|reflexivity].
    apply Qdiv_mirror, H8. }
  split.
  { apply Forall_fmap, Forall_forall. intros b _.
    apply binStat15Of_mirror, H6. }
  destruct H4 as (_ & _ & Hu). destruct H5 as (_ & _ & Hd).
  split; [simpl; apply avg_mirror, Hu|].
  split; [simpl; apply avg_mirror, Hd|].
  intros k d Hk. rewrite lookup_fmap in Hk.
  destruct (dowAgg15 st !! k) as [a|] eqn:Ea; [|discriminate].
  injection Hk as <-. destruct (H7 _ _ Ea) as (_ & _ & Hsa).
  simpl. apply avg_mirror, Hsa.
Qed.

Lemma countIf_le (f g : GapPoint.t -> bool) pts :
  (forall p, f p = true -> g p = true) -> (countIf f pts <= countIf g pts)%Z.
Proof.
  intros Hfg. unfold countIf. apply inj_le.
  induction pts as [|p pts IH]; [simpl; lia|].
  simpl List.filter. specialize (Hfg p).
  destruct (f p); [rewrite Hfg by reflexivity; simpl; lia|].
  destruct (g p); simpl; lia.
Qed.

Lemma tables15_sessions r r' :
  tables15From (run15 loc r minutesByDate).1 r' ->
  sessions15Rule loc minutesByDate (AnalyzeResponse.Data r) r'.
Proof.
  intros (T1 & T2 & T3 & T4 & T5).
  destruct (run15_inv r) as (_ & _ & H3 & _).
  unfold sessions15Rule. rewrite T1, T4, T5.
  cbn [summary15Of Summary15.Sessions sideStat15Of SideStat.Count].
  split.
  { unfold run15. rewrite loop15_sessions. simpl. lia. }
  split; [|exact H3].
  split; [apply countIf_le, covered_hasBars | apply countIf_bounds].
Qed.

(** Running the overlay a second time with the same bars changes
    nothing. *)
Lemma analyzeFirst15_twice r :
  analyzeFirst15 loc (analyzeFirst15 loc (Some r) minutesByDate) minutesByDate
  = analyzeFirst15 loc (Some r) minutesByDate.
Proof.
  pose proof (loop15_again loc minutesByDate (AnalyzeResponse.Data r)
                (init15 (defaultBins (AnalyzeResponse.MinGap r)))
                (init15 (defaultBins (AnalyzeResponse.MinGap r)))) as Hag.
  pose proof (loop15_length loc minutesByDate (AnalyzeResponse.Data r)
                (init15 (defaultBins (AnalyzeResponse.MinGap r)))) as Hlen.
  unfold analyzeFirst15, run15.
  destruct (length (AnalyzeResponse.Data r) =? 0)%nat eqn:E.
  - rewrite E. reflexivity.
  - destruct (loop15 loc minutesByDate
                (init15 (defaultBins (AnalyzeResponse.MinGap r)))
                (AnalyzeResponse.Data r)) as [st pts'] eqn:El.
    cbn [fst snd] in Hag, Hlen.
    cbn [AnalyzeResponse.Data AnalyzeResponse.MinGap].
    rewrite Hlen, E, Hag. reflexivity.
Qed.

End OverlayTables.

(** ** What the overlay counts, and what it reads *)

Section OverlayCounts.

Variable loc : Location.
Variable minutesByDate : gmap string (list polygonBar.t).

Local Abbreviation loop := (loop15 loc minutesByDate).
Local Abbreviation overlay := (overlayOf loc minutesByDate).

Local Abbreviation countAt m k := (agg15.count (default agg15.zero (m !! k))).

Lemma bump15_count (m : gmap string agg15.t) k r fr c f k' :
  countAt (bump15 m k (fun a => agg15Add a r fr c f)) k'
  = (countAt m k' + (if String.eqb k k' then 1 else 0))%Z.
Proof.
  unfold bump15. destruct (String.eqb_spec k k') as [<-|Hne].
  - rewrite lookup_insert_eq. reflexivity.
  - rewrite lookup_insert_ne by exact Hne. lia.
Qed.

Lemma newAggs15_count (keys : list string) k : countAt (newAggs15 keys) k = 0%Z.
Proof.
  destruct (newAggs15 keys !! k) as [a|] eqn:E; [|reflexivity].
  apply newAggs15_lookup in E. subst a. reflexivity.
Qed.

Lemma loop15_bin_count pts k : forall st,
  countAt (binAgg15 (loop st pts).1) k
  = (countAt (binAgg15 st) k + countIf (coveredIn loc minutesByDate k) pts)%Z.
Proof.
  induction pts as [|p pts IH]; intros st.
  - unfold countIf. simpl. lia.
  - simpl. rewrite (step15_overlay loc minutesByDate st p).
    unfold countIf, coveredIn, covered in *. simpl List.filter.
    destruct (overlay p) as [[[r c] f]|] eqn:E.
    + specialize (IH (update15 st p r c f)).
      destruct (loop (update15 st p r c f) pts) as [st2 rest2].
      cbn [fst] in IH |- *. rewrite IH.
      unfold update15. cbv zeta. cbn [binAgg15]. rewrite bump15_count.
      cbn [andb]. destruct (String.eqb (GapPoint.Bin p) k); simpl length; lia.
    + specialize (IH st). destruct (loop st pts) as [st2 rest2].
      cbn [fst andb] in IH |- *. exact IH.
Qed.

Lemma loop15_dow_count pts k : forall st,
  countAt (dowAgg15 (loop st pts).1) k
  = (countAt (dowAgg15 st) k + countIf (coveredOn loc minutesByDate k) pts)%Z.
Proof.
  induction pts as [|p pts IH]; intros st.
  - unfold countIf. simpl. lia.
  - simpl. rewrite (step15_overlay loc minutesByDate st p).
    unfold countIf, coveredOn, covered in *. simpl List.filter.
    destruct (overlay p) as [[[r c] f]|] eqn:E.
    + specialize (IH (update15 st p r c f)).
      destruct (loop (update15 st p r c f) pts) as [st2 rest2].
      cbn [fst] in IH |- *. rewrite IH.
      unfold update15. cbv zeta. cbn [dowAgg15]. rewrite bump15_count.
      cbn [andb]. destruct (String.eqb (GapPoint.DayOfWeek p) k); simpl length; lia.
    + specialize (IH st). destruct (loop st pts) as [st2 rest2].
      cbn [fst andb] in IH |- *. exact IH.
Qed.

(** The keys of the weekday accumulators only grow. *)
Lemma loop15_dow_keys pts k : forall st,
  is_Some (dowAgg15 st !! k) -> is_Some (dowAgg15 (loop st pts).1 !! k).
Proof.
  induction pts as [|p pts IH]; intros st Hk; [exact Hk|].
  simpl. rewrite (step15_overlay loc minutesByDate st p).
  destruct (overlay p) as [[[r c] f]|] eqn:E.
  - assert (H1 : is_Some (dowAgg15 (update15 st p r c f) !! k)).
    { unfold update15, bump15. cbv zeta. cbn [dowAgg15].
      destruct (decide (GapPoint.DayOfWeek p = k)) as [->|Hne].
      - rewrite lookup_insert_eq. eexists; reflexivity.
      - rewrite lookup_insert_ne by exact Hne. exact Hk. }
    specialize (IH _ H1).
    destruct (loop (update15 st p r c f) pts) as [st2 rest2]. exact IH.
  - specialize (IH _ Hk). destruct (loop st pts) as [st2 rest2]. exact IH.
Qed.

Lemma newAggs15_keys (keys : list string) k :
  k ∈ keys -> is_Some (newAggs15 keys !! k).
Proof.
  unfold newAggs15.
  assert (H : forall (m : gmap string agg15.t),
            (k ∈ keys \/ is_Some (m !! k)) ->
            is_Some (foldl (fun m k => <[k := agg15.zero]> m) m keys !! k)).
  { induction keys as [|k' keys IH]; intros m [Hin|Hm]; simpl.
    - inversion Hin.
    - exact Hm.
    - apply IH. apply elem_of_cons in Hin. destruct Hin as [->|Hin].
      + right. rewrite lookup_insert_eq. eexists; reflexivity.
      + left. exact Hin.
    - apply IH. right. destruct (decide (k' = k)) as [->|Hne].
      + rewrite lookup_insert_eq. eexists; reflexivity.
      + rewrite lookup_insert_ne by exact Hne. exact Hm. }
  intros Hin. apply H. left. exact Hin.
Qed.

(** An event the overlay skips is left as it is, with the locals. *)
Lemma loop15_uncovered pts : forall st,
  Forall (fun p => covered loc minutesByDate p = false) pts ->
  loop st pts = (st, pts).
Proof.
  induction pts as [|p pts IH]; intros st H; [reflexivity|].
  apply Forall_cons in H. destruct H as [Hp H].
  simpl. rewrite (step15_overlay loc minutesByDate st p).
  unfold covered in Hp. destruct (overlay p); [discriminate|].
  rewrite (IH st H). reflexivity.
Qed.

(** The bars the overlay reads are all stamped 09:00..09:45. *)
Lemma inFirst15_upTo0945 b : inFirst15 loc b = true -> upTo0945 loc b = true.
Proof.
  unfold inFirst15, upTo0945. rewrite !andb_true_iff.
  intros [[H1 H2] H3]. split; [exact H1|].
  apply Z.leb_le in H3. apply Z.leb_le. lia.
Qed.

Lemma filter_filter_sub {A} (f g : A -> bool) (l : list A) :
  (forall x, f x = true -> g x = true) ->
  List.filter f (List.filter g l) = List.filter f l.
Proof.
  intros Hfg. induction l as [|x l IH]; [reflexivity|].
  simpl. destruct (g x) eqn:Eg; simpl.
  - rewrite IH. reflexivity.
  - destruct (f x) eqn:Ef; [|exact IH].
    rewrite (Hfg x Ef) in Eg. discriminate.
Qed.

Lemma window15_onlyWindow p :
  window15 loc (onlyWindow loc minutesByDate) p = window15 loc minutesByDate p.
Proof.
  unfold window15, onlyWindow. cbv zeta. rewrite lookup_fmap.
  assert (E : default [] (List.filter (upTo0945 loc)
                            <$> minutesByDate !! GapPoint.Date p)
              = List.filter (upTo0945 loc)
                  (default [] (minutesByDate !! GapPoint.Date p))).
  { destruct (minutesByDate !! GapPoint.Date p); reflexivity. }
  rewrite E.
  rewrite (filter_filter_sub (inFirst15 loc) (upTo0945 loc))
    by apply inFirst15_upTo0945.
  rewrite (filter_filter_sub (upTo0945 loc) (upTo0945 loc)) by auto.
  reflexivity.
Qed.

Lemma window15_bars p :
  Forall (fun b => b ∈ default [] (minutesByDate !! GapPoint.Date p)
                   /\ Hour loc (polygonBar.T b) = 9%Z
                   /\ (0 <= Minute loc (polygonBar.T b) <= 45)%Z)
    (window15 loc minutesByDate p).
Proof.
  assert (Hm : forall t, (0 <= Minute loc t)%Z).
  { intros t. unfold Minute. apply Z.div_pos; [|lia].
    apply Z.mod_pos_bound. lia. }
  unfold window15. cbv zeta.
  destruct (length _ =? 0)%nat; apply Forall_forall; intros b Hb;
    apply list_elem_of_In, filter_In in Hb; destruct Hb as [Hin Hb];
    (split; [apply list_elem_of_In, Hin|]).
  - unfold upTo0945 in Hb. apply andb_true_iff in Hb. destruct Hb as [H1 H2].
    apply Z.eqb_eq in H1. apply Z.leb_le in H2. split; [exact H1|].
    split; [apply Hm | exact H2].
  - apply inFirst15_upTo0945 in Hb.
    unfold upTo0945 in Hb. apply andb_true_iff in Hb. destruct Hb as [H1 H2].
    apply Z.eqb_eq in H1. apply Z.leb_le in H2. split; [exact H1|].
    split; [apply Hm | exact H2].
Qed.

Lemma overlayOf_onlyWindow p :
  overlayOf loc (onlyWindow loc minutesByDate) p = overlay p.
Proof. unfold overlayOf. rewrite window15_onlyWindow. reflexivity. Qed.

Lemma loop15_onlyWindow pts : forall st,
  loop15 loc (onlyWindow loc minutesByDate) st pts = loop st pts.
Proof.
  induction pts as [|p pts IH]; intros st; [reflexivity|].
  simpl. rewrite !step15_overlay, overlayOf_onlyWindow.
  destruct (overlay p) as [[[r c] f]|]; rewrite IH; reflexivity.
Qed.

Local Abbreviation contAt m k := (agg15.cont (default agg15.zero (m !! k))).





End OverlayCounts.




(** ** Labels of daily bars *)

Lemma formatDate_day loc loc' t t' :
  (wall loc t / msPerDay = wall loc' t' / msPerDay)%Z ->
  formatDate loc t = formatDate loc' t' /\ weekday3 loc t = weekday3 loc' t'.
Proof. unfold formatDate, weekday3. intros ->. split; reflexivity. Qed.

Lemma wall_next_day loc tms :
  (- msPerDay <= utcOffset loc (tms + 24 * 3600000))%Z ->
  (tms mod msPerDay < - utcOffset loc (tms + 24 * 3600000))%Z ->
  (wall loc (tms + 24 * 3600000) / msPerDay = wall utc tms / msPerDay)%Z.
Proof.
  unfold wall, utc, fixedZone, msPerDay. cbn [utcOffset].
  set (off := utcOffset loc (tms + 24 * 3600000)). intros H1 H2.
  pose proof (Z.mod_pos_bound tms 86400000 ltac:(lia)) as Hr.
  pose proof (Z.div_mod tms 86400000 ltac:(lia)) as Hq.
  rewrite Z.add_0_r.
  symmetry. apply (Z.div_unique _ _ _ (tms mod 86400000 + 86400000 + off)); lia.
Qed.

Lemma wall_previous_day loc tms :
  (- msPerDay <= utcOffset loc tms)%Z ->
  (tms mod msPerDay < - utcOffset loc tms)%Z ->
  (wall loc tms / msPerDay = wall utc (tms - msPerDay) / msPerDay)%Z.
Proof.
  unfold wall, utc, fixedZone, msPerDay. cbn [utcOffset].
  set (off := utcOffset loc tms). intros H1 H2.
  pose proof (Z.mod_pos_bound tms 86400000 ltac:(lia)) as Hr.
  pose proof (Z.div_mod tms 86400000 ltac:(lia)) as Hq.
  rewrite Z.add_0_r.
  transitivity (tms / 86400000 - 1)%Z.
  - symmetry.
    apply (Z.div_unique _ _ _ (tms mod 86400000 + 86400000 + off)); lia.
  - apply (Z.div_unique _ _ _ (tms mod 86400000)); lia.
Qed.

(** ** Which events fall outside the bins *)



Section OtherFacts.

Variables dateOf dowOf : Z -> string.
Variable minGap : Q.

Local Abbreviation bins := (defaultBins minGap).
Local Abbreviation core := (analyzeCore dateOf dowOf).


(** With a threshold of 0.5 or more no event can fall in the first bin. *)
Lemma core_first_bin daily years ticker :
  0.5 <= minGap ->
  Forall (fun p => GapPoint.Bin p
                   <> sprintf1f (effectiveMin minGap) +:+ "–0.5%")
    (snd (core daily minGap years ticker)).
Proof.
  intros Hmg. apply core_events_Forall. intros pd Hq.
  apply qualifies_threshold in Hq. destruct Hq as (Hmin & _).
  cbn [eventOf GapPoint.Bin].
  set (a := Qabs (gapPctOf (polygonBar.C pd.1) (polygonBar.O pd.2))) in *.
  destruct (first_label_fresh (sprintf1f (effectiveMin minGap)))
    as (F0 & F1 & F2 & F3).
  destruct (labelFor_cases a bins) as [[Ho _]|(b & Hin & Hr & Hl)].
  - rewrite Ho. congruence.
  - rewrite Hl. revert Hin Hr. unfold defaultBins, inRange.
    fold (effectiveMin minGap).
    rewrite !elem_of_cons, !elem_of_nil.
    intros [->|[->|[->|[->|[]]]]]; simpl; intros [H1 H2]; try congruence.
    lra.
Qed.

Lemma countIn_none k pts :
  Forall (fun p => GapPoint.Bin p <> k) pts -> countIn k pts = 0%Z.
Proof.
  intros H. unfold countIn, inBin.
  induction H as [|p pts Hp _ IH]; [reflexivity|].
  simpl List.filter. destruct (String.eqb_spec (GapPoint.Bin p) k); [contradiction|].
  exact IH.
Qed.

Lemma core_first_bin_empty daily years ticker :
  0.5 <= minGap -> (2 <= length daily)%nat ->
  exists s rest,
    AnalyzeResponse.Bins (fst (core daily minGap years ticker)) = s :: rest
    /\ BinStat.Count s = 0%Z /\ BinStat.Recommendation s = "".
Proof.
  intros Hmg Hlen.
  pose proof (core_bins dateOf dowOf minGap daily years ticker Hlen) as HB.
  pose proof (core_first_bin daily years ticker Hmg) as HF.
  unfold defaultBins in HB. fold (effectiveMin minGap) in HB.
  inversion HB as [|s b ss bs (Hl & Hc & Hz & _) Hrest E1 E2]; subst.
  exists s, ss. split; [reflexivity|].
  cbn [lab] in Hc.
  assert (E : BinStat.Count s = 0%Z).
  { rewrite Hc. apply countIn_none, HF. }
  split; [exact E | apply Hz, E].
Qed.

(** The tables are computed from the events alone. *)
Lemma core_from_events daily daily' years ticker :
  (2 <= length daily)%nat -> (2 <= length daily')%nat ->
  snd (core daily minGap years ticker) = snd (core daily' minGap years ticker) ->
  fst (core daily minGap years ticker) = fst (core daily' minGap years ticker).
Proof.
  intros H H' E. rewrite !core_events in E.
  rewrite !core_long by assumption. cbn [fst].
  rewrite !dailyRun_apply, E. reflexivity.
Qed.

End OtherFacts.

(** * The analysis as a whole *)

(** ** Rounding and rates *)

(** X1. In exact arithmetic [round1], [round2] and [round3] move a value by
    at most half a unit of the last decimal they keep: 0.05, 0.005 and
    0.0005. *)
Theorem rounding_error_bound (x : Q) :
  Qabs (round1 x - x) <= 0.05
  /\ Qabs (round2 x - x) <= 0.005
  /\ Qabs (round3 x - x) <= 0.0005.
Proof.
  split; [|split].
  - change (round1 x) with (roundTo 10 x).
    eapply Qle_trans; [apply roundTo_near; lra|]. unfold Qle. simpl. lia.
  - change (round2 x) with (roundTo 100 x).
    eapply Qle_trans; [apply roundTo_near; lra|]. unfold Qle. simpl. lia.
  - change (round3 x) with (roundTo 1000 x).
    eapply Qle_trans; [apply roundTo_near; lra|]. unfold Qle. simpl. lia.
Qed.

(** X2. The three rounding functions keep the order of their arguments,
    commute with negation (halves are rounded away from zero on both
    sides) and leave an already rounded value as it is. *)
Theorem rounding_monotone_odd_idempotent (x y : Q) :
  x <= y ->
  (round1 x <= round1 y /\ round2 x <= round2 y /\ round3 x <= round3 y)
  /\ (round1 (- x) == - round1 x
      /\ round2 (- x) == - round2 x
      /\ round3 (- x) == - round3 x)
  /\ (round1 (round1 x) = round1 x
      /\ round2 (round2 x) = round2 x
      /\ round3 (round3 x) = round3 x).
Proof.
  intros Hxy.
  change round1 with (roundTo 10). change round2 with (roundTo 100).
  change round3 with (roundTo 1000).
  split; [|split].
  - split; [|split]; apply roundTo_mono; (lra || exact Hxy).
  - split; [|split]; apply roundTo_opp; lra.
  - split; [|split]; apply roundTo_idem; lra.
Qed.

(** X3. [rate n d] is a percentage, between 0 and 100, whenever
    [0 <= n <= d]; this includes [d = 0], where it is 0. *)
Theorem rate_is_a_percentage (n d : Z) :
  (0 <= n <= d)%Z -> isPercent (rate n d).
Proof. apply rate_percent. Qed.

(** ** The daily tables against the events *)

(** X4. The session count of the summary is the number of returned
    events; the gap-up and gap-down counts are the numbers of events of
    direction 1 and -1; the up side counts the events of direction 1 and
    the down side all the others.  The same holds of [analyzeGaps]. *)
Theorem daily_counts_match_events
    (loc : Location) (daily : list polygonBar.t) (minGap : Q)
    (years : Z) (ticker : string) :
  talliesRule (fst (analyzeDaily loc daily minGap years ticker))
    (snd (analyzeDaily loc daily minGap years ticker))
  /\ talliesRule (analyzeGaps loc daily minGap years ticker)
       (AnalyzeResponse.Data (analyzeGaps loc daily minGap years ticker)).
Proof.
  unfold analyzeDaily, analyzeGaps. rewrite core_data.
  split; apply core_tallies.
Qed.

(** X5. With a positive threshold every returned event has direction 1
    or -1, so that gap-ups and gap-downs add up to the sessions. *)
Theorem positive_threshold_gives_directed_events
    (loc : Location) (daily : list polygonBar.t) (minGap : Q)
    (years : Z) (ticker : string) :
  0 < minGap ->
  Forall (fun p => GapPoint.Direction p = 1%Z \/ GapPoint.Direction p = (-1)%Z)
    (snd (analyzeDaily loc daily minGap years ticker))
  /\ (Summary.GapUps
        (AnalyzeResponse.Summary (fst (analyzeDaily loc daily minGap years ticker)))
      + Summary.GapDowns
          (AnalyzeResponse.Summary (fst (analyzeDaily loc daily minGap years ticker))))%Z
     = Summary.Sessions
         (AnalyzeResponse.Summary (fst (analyzeDaily loc daily minGap years ticker))).
Proof. intros H. unfold analyzeDaily. apply core_directions, H. Qed.

(** X6. Every rate of the daily tables (summary, bins with their fill
    rates, both sides, each weekday) lies between 0 and 100.  The same
    holds of [analyzeGaps]. *)
Theorem daily_rates_are_percentages
    (loc : Location) (daily : list polygonBar.t) (minGap : Q)
    (years : Z) (ticker : string) :
  percentTables (fst (analyzeDaily loc daily minGap years ticker))
  /\ percentTables (analyzeGaps loc daily minGap years ticker).
Proof. unfold analyzeDaily, analyzeGaps. split; apply core_percent. Qed.

(** X7. For two bars or more, the by-weekday entry of each of Mon .. Fri
    counts the returned events labelled with that weekday. *)
Theorem weekday_counts_match_events
    (loc : Location) (daily : list polygonBar.t) (minGap : Q)
    (years : Z) (ticker : string) (k : string) :
  (2 <= length daily)%nat -> k ∈ weekdays ->
  exists d,
    AnalyzeResponse.ByDOW (fst (analyzeDaily loc daily minGap years ticker)) !! k
    = Some d
    /\ DowStat.Count d
       = countIf (onWeekday k) (snd (analyzeDaily loc daily minGap years ticker)).
Proof. intros H Hk. unfold analyzeDaily. apply core_dow_counts; assumption. Qed.

(** X8. Every returned event has its gap, rounded to two decimals,
    between [MaxGapDown] and [MaxGapUp]; and each of the two extremes is
    0 or the rounded gap of some returned event. *)
Theorem extremes_bound_every_gap
    (loc : Location) (daily : list polygonBar.t) (minGap : Q)
    (years : Z) (ticker : string) :
  Forall (fun p =>
            round2 (gapOf p)
            <= Summary.MaxGapUp
                 (AnalyzeResponse.Summary (fst (analyzeDaily loc daily minGap years ticker)))
            /\ Summary.MaxGapDown
                 (AnalyzeResponse.Summary (fst (analyzeDaily loc daily minGap years ticker)))
               <= round2 (gapOf p))
    (snd (analyzeDaily loc daily minGap years ticker))
  /\ (Summary.MaxGapUp
        (AnalyzeResponse.Summary (fst (analyzeDaily loc daily minGap years ticker))) == 0
      \/ exists p, p ∈ snd (analyzeDaily loc daily minGap years ticker)
           /\ Summary.MaxGapUp
                (AnalyzeResponse.Summary (fst (analyzeDaily loc daily minGap years ticker)))
              = round2 (gapOf p))
  /\ (Summary.MaxGapDown
        (AnalyzeResponse.Summary (fst (analyzeDaily loc daily minGap years ticker))) == 0
      \/ exists p, p ∈ snd (analyzeDaily loc daily minGap years ticker)
           /\ Summary.MaxGapDown
                (AnalyzeResponse.Summary (fst (analyzeDaily loc daily minGap years ticker)))
              = round2 (gapOf p)).
Proof. unfold analyzeDaily. apply core_extremes. Qed.

(** X9. In every daily table the fade figure is the negation of the
    follow figure: the two averages of the summary, of each bin, of each
    side and of each weekday, and the two cumulative series element by
    element.  The same holds of [analyzeGaps]. *)
Theorem fade_mirrors_follow
    (loc : Location) (daily : list polygonBar.t) (minGap : Q)
    (years : Z) (ticker : string) :
  mirrorTables (fst (analyzeDaily loc daily minGap years ticker))
  /\ mirrorTables (analyzeGaps loc daily minGap years ticker).
Proof. unfold analyzeDaily, analyzeGaps. split; apply core_mirror. Qed.

(** X10. For two bars or more the best strategy is "FOLLOW", "FADE" or
    "NEUTRAL".  It is "FOLLOW" whenever the reported follow average is
    positive and "FADE" whenever it is negative; conversely the reported
    follow average is not negative under "FOLLOW", not positive under
    "FADE" and 0 under "NEUTRAL".  The expected return is the absolute
    value of the reported follow average, hence never negative.  (The
    strategy is decided on the averages before rounding, so nothing is
    stated of it from a reported average of 0 under "FOLLOW" or
    "FADE".) *)
Theorem best_strategy_follows_reported_average
    (loc : Location) (daily : list polygonBar.t) (minGap : Q)
    (years : Z) (ticker : string) :
  (2 <= length daily)%nat ->
  bestRule (fst (analyzeDaily loc daily minGap years ticker)).
Proof. intros H. unfold analyzeDaily. apply core_best, H. Qed.


(** X12. Direction and continuation of every returned event can be read
    on the three prices it records: direction 1 exactly when it opened
    above the previous close, -1 exactly when below; continuation exactly
    when it gapped up and closed above its open, or gapped down and
    closed below it, which is when its follow return is positive. *)
Theorem events_follow_price_rule
    (loc : Location) (daily : list polygonBar.t) (minGap : Q)
    (years : Z) (ticker : string) :
  Forall priceRule (snd (analyzeDaily loc daily minGap years ticker))
  /\ Forall priceRule
       (AnalyzeResponse.Data (analyzeGaps loc daily minGap years ticker)).
Proof.
  unfold analyzeDaily, analyzeGaps. rewrite core_data.
  split; apply core_events_Forall; intros pd Hq;
    apply (qualifies_priceRule _ _ _ _ _ Hq).
Qed.

(** X13. On the same bars [analyzeGaps] of main.go and [analyzeDaily]
    report the same success flag, error, summary, bins, sides and
    cumulative returns, and events that differ at most in their date and
    weekday labels. *)
Theorem single_pass_agrees_with_daily_pass
    (loc : Location) (daily : list polygonBar.t) (minGap : Q)
    (years : Z) (ticker : string) :
  let r := fst (analyzeDaily loc daily minGap years ticker) in
  let g := analyzeGaps loc daily minGap years ticker in
  AnalyzeResponse.Success g = AnalyzeResponse.Success r
  /\ AnalyzeResponse.Error g = AnalyzeResponse.Error r
  /\ AnalyzeResponse.Summary g = AnalyzeResponse.Summary r
  /\ AnalyzeResponse.Bins g = AnalyzeResponse.Bins r
  /\ AnalyzeResponse.UpSide g = AnalyzeResponse.UpSide r
  /\ AnalyzeResponse.DownSide g = AnalyzeResponse.DownSide r
  /\ AnalyzeResponse.CumFade g = AnalyzeResponse.CumFade r
  /\ AnalyzeResponse.CumFollow g = AnalyzeResponse.CumFollow r
  /\ Forall2 sameButLabels (AnalyzeResponse.Data r) (AnalyzeResponse.Data g).
Proof.
  exact (core_agree (sessionDateNYFromDaily loc) (sessionWeekdayNYFromDaily loc)
           (dateNY loc) (weekdayNY loc) minGap daily years ticker).
Qed.

(** ** Bins *)

(** X14. Whatever the threshold, [defaultBins] gives four bins whose
    labels are pairwise distinct and none of which is "other", so that the
    accumulators keyed by label never merge two bins. *)
Theorem default_bins_have_distinct_labels (minGap : Q) :
  length (defaultBins minGap) = 4%nat
  /\ NoDup (lab <$> defaultBins minGap)
  /\ "other" ∉ lab <$> defaultBins minGap.
Proof.
  split; [reflexivity|].
  split; [apply defaultBins_labels_NoDup | apply defaultBins_labels_not_other].
Qed.


(** X16. For two bars or more the counts of the four bins add up to the
    number of returned events that are not labelled "other". *)
Theorem bin_counts_sum_to_binned_events
    (loc : Location) (daily : list polygonBar.t) (minGap : Q)
    (years : Z) (ticker : string) :
  (2 <= length daily)%nat ->
  sumZ (BinStat.Count
          <$> AnalyzeResponse.Bins (fst (analyzeDaily loc daily minGap years ticker)))
  = Z.of_nat (length (binned (snd (analyzeDaily loc daily minGap years ticker)))).
Proof. intros H. unfold analyzeDaily. apply core_bin_counts_sum, H. Qed.

(** X17. With a threshold of 0.5 or more the first bin, whose upper edge
    is 0.5, can hold no event: it is reported with count 0 and an empty
    recommendation. *)
Theorem first_bin_empty_from_half_percent
    (loc : Location) (daily : list polygonBar.t) (minGap : Q)
    (years : Z) (ticker : string) :
  0.5 <= minGap -> (2 <= length daily)%nat ->
  exists s rest,
    AnalyzeResponse.Bins (fst (analyzeDaily loc daily minGap years ticker))
    = s :: rest
    /\ BinStat.Count s = 0%Z /\ BinStat.Recommendation s = "".
Proof.
  intros Hmg H. unfold analyzeDaily. apply core_first_bin_empty; assumption.
Qed.

(** X18. The response is computed from the returned events alone: two bar
    sequences of two bars or more that give the same events give the same
    response, so a bar that produces no event leaves no trace in any
    table. *)
Theorem tables_depend_on_events_only
    (loc : Location) (daily daily' : list polygonBar.t) (minGap : Q)
    (years : Z) (ticker : string) :
  (2 <= length daily)%nat -> (2 <= length daily')%nat ->
  snd (analyzeDaily loc daily minGap years ticker)
  = snd (analyzeDaily loc daily' minGap years ticker) ->
  fst (analyzeDaily loc daily minGap years ticker)
  = fst (analyzeDaily loc daily' minGap years ticker).
Proof. unfold analyzeDaily. apply core_from_events. Qed.

(** ** The 0-15m overlay *)

(** X19. Running the overlay a second time with the same minute bars
    gives the response of the first run. *)
Theorem overlay_is_idempotent
    (loc : Location) (minutesByDate : gmap string (list polygonBar.t))
    (r : AnalyzeResponse.t) :
  analyzeFirst15 loc (analyzeFirst15 loc (Some r) minutesByDate) minutesByDate
  = analyzeFirst15 loc (Some r) minutesByDate.
Proof. apply analyzeFirst15_twice. Qed.

(** X20. When the response has events, the 0-15m session count is the
    number of events for which the overlay computed something; these are
    among the events whose date has minute bars, which are among all
    events; and the counts of the two 0-15m sides add up to it. *)
Theorem overlay_session_counts
    (loc : Location) (minutesByDate : gmap string (list polygonBar.t))
    (r r' : AnalyzeResponse.t) :
  AnalyzeResponse.Data r <> [] ->
  analyzeFirst15 loc (Some r) minutesByDate = Some r' ->
  sessions15Rule loc minutesByDate (AnalyzeResponse.Data r) r'.
Proof.
  intros Hne E.
  destruct (analyzeFirst15_cases loc minutesByDate r)
    as [[Hnil _]|[_ (r0 & E0 & _ & _ & H15)]]; [contradiction|].
  rewrite E0 in E. injection E as <-. apply tables15_sessions, H15.
Qed.

(** X21. When the response has events, every rate of the 0-15m tables
    lies between 0 and 100, and in every 0-15m table the fade average is
    the negation of the follow average. *)
Theorem overlay_rates_and_mirror
    (loc : Location) (minutesByDate : gmap string (list polygonBar.t))
    (r r' : AnalyzeResponse.t) :
  AnalyzeResponse.Data r <> [] ->
  analyzeFirst15 loc (Some r) minutesByDate = Some r' ->
  percentTables15 r' /\ mirrorTables15 r'.
Proof.
  intros Hne E.
  destruct (analyzeFirst15_cases loc minutesByDate r)
    as [[Hnil _]|[_ (r0 & E0 & _ & _ & H15)]]; [contradiction|].
  rewrite E0 in E. injection E as <-.
  split; [eapply tables15_percent | eapply tables15_mirror];
    try exact H15; apply run15_inv.
Qed.

(** X22. When the response has events, the 0-15m entry of each bin counts
    the events of that bin for which the overlay computed something, never
    more than the bin holds; each entry of the 0-15m by-weekday map counts
    the covered events of its weekday, and Mon .. Fri are always
    present. *)
Theorem overlay_bin_and_weekday_counts
    (loc : Location) (minutesByDate : gmap string (list polygonBar.t))
    (r r' : AnalyzeResponse.t) :
  AnalyzeResponse.Data r <> [] ->
  analyzeFirst15 loc (Some r) minutesByDate = Some r' ->
  Forall2 (fun s b =>
             BinStat15.Label s = lab b
             /\ BinStat15.Count s
                = countIf (coveredIn loc minutesByDate (lab b))
                    (AnalyzeResponse.Data r)
             /\ (BinStat15.Count s <= countIn (lab b) (AnalyzeResponse.Data r))%Z)
    (AnalyzeResponse.Bins15 r') (defaultBins (AnalyzeResponse.MinGap r))
  /\ (forall k d, AnalyzeResponse.ByDOW15 r' !! k = Some d ->
      DowStat.Count d
      = countIf (coveredOn loc minutesByDate k) (AnalyzeResponse.Data r))
  /\ (forall k, k ∈ weekdays -> is_Some (AnalyzeResponse.ByDOW15 r' !! k)).
Proof.
  intros Hne E.
  destruct (analyzeFirst15_cases loc minutesByDate r)
    as [[Hnil _]|[_ (r0 & E0 & Hsame & _ & H15)]]; [contradiction|].
  rewrite E0 in E. injection E as <-.
  destruct Hsame as (_ & _ & _ & _ & Hmin & _).
  destruct H15 as (_ & HB & HD & _). rewrite Hmin in HB.
  unfold run15 in HB, HD.
  split; [|split].
  - rewrite HB. apply Forall2_fmap_self. intros b _.
    destruct (binStat15Of_rule
                (binAgg15 (loop15 loc minutesByDate
                             (init15 (defaultBins (AnalyzeResponse.MinGap r)))
                             (AnalyzeResponse.Data r)).1) b)
      as (Hl & Hc & _).
    rewrite loop15_bin_count in Hc. cbn [init15 binAgg15] in Hc.
    rewrite newAggs15_count in Hc.
    split; [exact Hl|]. split; [rewrite Hc; lia|].
    rewrite Hc. rewrite Z.add_0_l.
    apply (countIf_le (coveredIn loc minutesByDate (lab b))
             (fun p => String.eqb (GapPoint.Bin p) (lab b))).
    intros p Hp. unfold coveredIn in Hp. apply andb_true_iff in Hp. apply Hp.
  - intros k d Hk. rewrite HD, lookup_fmap in Hk.
    pose proof (loop15_dow_count loc minutesByDate (AnalyzeResponse.Data r) k
                  (init15 (defaultBins (AnalyzeResponse.MinGap r)))) as Hc.
    cbn [init15 dowAgg15] in Hc. rewrite newAggs15_count in Hc.
    destruct (dowAgg15 _ !! k) as [a|]; [|discriminate].
    injection Hk as <-. rewrite Z.add_0_l in Hc. exact Hc.
  - intros k Hk. rewrite HD, lookup_fmap.
    pose proof (loop15_dow_keys loc minutesByDate (AnalyzeResponse.Data r) k
                  (init15 (defaultBins (AnalyzeResponse.MinGap r)))
                  (newAggs15_keys weekdays k Hk)) as [a Ha].
    rewrite Ha. eexists; reflexivity.
Qed.

(** X23. The overlay reads only the minute bars stamped between 09:00 and
    09:45 local time: removing every other bar from the map changes
    nothing in the response. *)
Theorem overlay_reads_only_the_window
    (loc : Location) (minutesByDate : gmap string (list polygonBar.t))
    (resp : option AnalyzeResponse.t) :
  analyzeFirst15 loc resp (onlyWindow loc minutesByDate)
  = analyzeFirst15 loc resp minutesByDate.
Proof.
  destruct resp as [r|]; [|reflexivity].
  unfold analyzeFirst15, run15. rewrite loop15_onlyWindow. reflexivity.
Qed.

(** X24. When the response has events and the overlay can compute
    something for none of them (no minute bars in the window, or no
    positive opening price), the events are left as they are and the
    0-15m tables are empty: no session, "NEUTRAL" as best strategy, and
    every bin with count 0 and no recommendation. *)
Theorem overlay_without_coverage
    (loc : Location) (minutesByDate : gmap string (list polygonBar.t))
    (r r' : AnalyzeResponse.t) :
  AnalyzeResponse.Data r <> [] ->
  Forall (fun p => covered loc minutesByDate p = false) (AnalyzeResponse.Data r) ->
  analyzeFirst15 loc (Some r) minutesByDate = Some r' ->
  AnalyzeResponse.Data r' = AnalyzeResponse.Data r
  /\ Summary15.Sessions (AnalyzeResponse.Summary15 r') = 0%Z
  /\ Summary15.BestStrategy (AnalyzeResponse.Summary15 r') = "NEUTRAL"
  /\ Forall (fun s => BinStat15.Count s = 0%Z /\ BinStat15.Recommendation s = "")
       (AnalyzeResponse.Bins15 r')
  /\ SideStat.Count (AnalyzeResponse.UpSide15 r') = 0%Z
  /\ SideStat.Count (AnalyzeResponse.DownSide15 r') = 0%Z.
Proof.
  intros Hne Hun E.
  destruct (analyzeFirst15_cases loc minutesByDate r)
    as [[Hnil _]|[_ (r0 & E0 & _ & Hpts & H15)]]; [contradiction|].
  rewrite E0 in E. injection E as <-.
  unfold run15 in Hpts, H15. rewrite (loop15_uncovered _ _ _ _ Hun) in Hpts, H15.
  destruct H15 as (HS & HB & _ & HU & HD).
  split; [exact Hpts|]. rewrite HS, HB, HU, HD.
  split; [reflexivity|]. split; [reflexivity|].
  split; [|split; reflexivity].
  apply Forall_fmap, Forall_forall. intros b _.
  destruct (binStat15Of_rule
              (binAgg15 (init15 (defaultBins (AnalyzeResponse.MinGap r)))) b)
    as (_ & Hc & Hz & _).
  cbn [init15 binAgg15] in Hc, Hz. rewrite newAggs15_count in Hc.
  split; [exact Hc | apply Hz, Hc].
Qed.

(** ** Labels of daily bars *)

(** X25. For a daily bar stamped earlier in its UTC day than the zone lags
    behind UTC (as a bar stamped 00:00 UTC is for New York),
    [sessionDateNYFromDaily] and [sessionWeekdayNYFromDaily] give the date
    and weekday of that UTC day, whereas [dateNY] and [weekdayNY] give
    those of the day before. *)
Theorem daily_stamp_labels (loc : Location) (tms : Z) :
  (- msPerDay <= utcOffset loc (tms + 24 * 3600000))%Z ->
  (tms mod msPerDay < - utcOffset loc (tms + 24 * 3600000))%Z ->
  (- msPerDay <= utcOffset loc tms)%Z ->
  (tms mod msPerDay < - utcOffset loc tms)%Z ->
  sessionDateNYFromDaily loc tms = dateNY utc tms
  /\ sessionWeekdayNYFromDaily loc tms = weekdayNY utc tms
  /\ dateNY loc tms = dateNY utc (tms - msPerDay)
  /\ weekdayNY loc tms = weekdayNY utc (tms - msPerDay).
Proof.
  intros H1 H2 H3 H4.
  unfold sessionDateNYFromDaily, sessionWeekdayNYFromDaily, dateNY, weekdayNY.
  destruct (formatDate_day loc utc (tms + 24 * 3600000) tms
              (wall_next_day loc tms H1 H2)) as [Ea Eb].
  destruct (formatDate_day loc utc tms (tms - msPerDay)
              (wall_previous_day loc tms H3 H4)) as [Ec Ed].
  auto.
Qed.

(** ** The further statements at concrete inputs *)

Lemma rounding_on_neighbours : round3 1.2345 <= round3 1.2355.
Proof.
  destruct (rounding_monotone_odd_idempotent 1.2345 1.2355) as [(_ & _ & H) _].
  - unfold Qle. simpl. lia.
  - exact H.
Defined.

Lemma rate_on_one_of_three : isPercent (rate 1 3).
Proof. apply (rate_is_a_percentage 1 3). lia. Defined.

Lemma directions_on_three_sessions :
  Forall (fun p => GapPoint.Direction p = 1%Z \/ GapPoint.Direction p = (-1)%Z)
    (snd (analyzeDaily est threeSessions 0.3 3 "X")).
Proof.
  destruct (positive_threshold_gives_directed_events est threeSessions 0.3 3 "X")
    as [H _].
  - reflexivity.
  - exact H.
Defined.

Lemma monday_count_on_three_sessions :
  exists d,
    AnalyzeResponse.ByDOW (fst (analyzeDaily est threeSessions 0.3 3 "X")) !! "Mon"
    = Some d
    /\ DowStat.Count d
       = countIf (onWeekday "Mon") (snd (analyzeDaily est threeSessions 0.3 3 "X")).
Proof.
  apply (weekday_counts_match_events est threeSessions 0.3 3 "X" "Mon").
  - simpl. lia.
  - unfold weekdays. left.
Defined.

Lemma best_strategy_on_three_sessions :
  bestRule (fst (analyzeDaily est threeSessions 0.3 3 "X")).
Proof.
  apply (best_strategy_follows_reported_average est threeSessions 0.3 3 "X").
  simpl. lia.
Defined.


Lemma bin_counts_on_three_sessions :
  sumZ (BinStat.Count
          <$> AnalyzeResponse.Bins (fst (analyzeDaily est threeSessions 0.3 3 "X")))
  = Z.of_nat (length (binned (snd (analyzeDaily est threeSessions 0.3 3 "X")))).
Proof.
  apply (bin_counts_sum_to_binned_events est threeSessions 0.3 3 "X").
  simpl. lia.
Defined.

Lemma first_bin_on_three_sessions :
  exists s rest,
    AnalyzeResponse.Bins (fst (analyzeDaily est threeSessions 0.5 3 "X"))
    = s :: rest
    /\ BinStat.Count s = 0%Z /\ BinStat.Recommendation s = "".
Proof.
  apply (first_bin_empty_from_half_percent est threeSessions 0.5 3 "X").
  - unfold Qle. simpl. lia.
  - simpl. lia.
Defined.

Lemma tables_on_padded_sessions :
  fst (analyzeDaily est gapUpThenDown 0.3 3 "X")
  = fst (analyzeDaily est paddedGapUpThenDown 0.3 3 "X").
Proof.
  apply (tables_depend_on_events_only est gapUpThenDown paddedGapUpThenDown
           0.3 3 "X").
  - simpl. lia.
  - simpl. lia.
  - vm_compute. reflexivity.
Defined.

Lemma overlay_sessions_on_three_sessions :
  sessions15Rule est minutes0305 (AnalyzeResponse.Data dailyOfThree) overlaidThree.
Proof.
  apply (overlay_session_counts est minutes0305 dailyOfThree overlaidThree).
  - vm_compute. discriminate.
  - vm_compute. reflexivity.
Defined.

Lemma overlay_rates_on_three_sessions :
  percentTables15 overlaidThree /\ mirrorTables15 overlaidThree.
Proof.
  apply (overlay_rates_and_mirror est minutes0305 dailyOfThree overlaidThree).
  - vm_compute. discriminate.
  - vm_compute. reflexivity.
Defined.

Lemma overlay_weekdays_on_three_sessions :
  is_Some (AnalyzeResponse.ByDOW15 overlaidThree !! "Mon").
Proof.
  destruct (overlay_bin_and_weekday_counts est minutes0305 dailyOfThree
              overlaidThree) as (_ & _ & H).
  - vm_compute. discriminate.
  - vm_compute. reflexivity.
  - apply H. unfold weekdays. left.
Defined.

Lemma overlay_without_minute_bars :
  AnalyzeResponse.Data
    (default dailyOfThree (analyzeFirst15 est (Some dailyOfThree) ∅))
  = AnalyzeResponse.Data dailyOfThree.
Proof.
  destruct (overlay_without_coverage est ∅ dailyOfThree
              (default dailyOfThree (analyzeFirst15 est (Some dailyOfThree) ∅)))
    as [H _].
  - vm_compute. discriminate.
  - vm_compute. repeat constructor.
  - vm_compute. reflexivity.
  - exact H.
Defined.

Lemma labels_of_a_midnight_stamp :
  sessionDateNYFromDaily est 1709510400000 = dateNY utc 1709510400000
  /\ sessionWeekdayNYFromDaily est 1709510400000 = weekdayNY utc 1709510400000
  /\ dateNY est 1709510400000 = dateNY utc (1709510400000 - msPerDay)
  /\ weekdayNY est 1709510400000 = weekdayNY utc (1709510400000 - msPerDay).
Proof.
  apply (daily_stamp_labels est 1709510400000); vm_compute;
    first [reflexivity | discriminate].
Defined.

(** * Fetchers and handlers *)

(** ** Session dates *)

Lemma string_compare_trans_le (a b c : string) :
  String.leb a b = true -> String.leb b c = true -> String.leb a c = true.
Proof.
  unfold String.leb. revert b c.
  induction a as [|x a IH]; intros [|y b] [|z c]; simpl; try congruence.
  unfold Ascii.compare.
  destruct (N.compare_spec (Ascii.N_of_ascii x) (Ascii.N_of_ascii y)) as [E1|E1|E1];
    destruct (N.compare_spec (Ascii.N_of_ascii y) (Ascii.N_of_ascii z)) as [E2|E2|E2];
    destruct (N.compare_spec (Ascii.N_of_ascii x) (Ascii.N_of_ascii z)) as [E3|E3|E3];
    try congruence; try lia.
  apply IH.
Qed.

Lemma StronglySorted_weaken {A} (R R' : A -> A -> Prop) (l : list A) :
  (forall x y, R x y -> R' x y) -> StronglySorted R l -> StronglySorted R' l.
Proof.
  intros HR. induction 1 as [|x l Hl IH Hx]; constructor; [exact IH|].
  eapply Forall_impl; [exact Hx|]. intros y. apply HR.
Qed.

Lemma sortStrings_sorted (l : list string) : StronglySorted dateLe (sortStrings l).
Proof.
  unfold sortStrings.
  assert (Htrans : Transitive (fun a b : string => Is_true (String.leb a b))).
  { intros a b c Hab Hbc. apply Is_true_true. apply Is_true_true in Hab, Hbc.
    eapply string_compare_trans_le; eassumption. }
  assert (Htotal : Total (fun a b : string => Is_true (String.leb a b))).
  { intros a b. destruct (String.leb_total a b) as [H|H];
      [left | right]; apply Is_true_true, H. }
  eapply StronglySorted_weaken;
    [|apply (StronglySorted_merge_sort (fun a b : string => Is_true (String.leb a b)))].
  intros x y H. apply Is_true_true, H.
Qed.

Lemma sortStrings_Permutation (l : list string) : sortStrings l ≡ₚ l.
Proof. apply merge_sort_Permutation. Qed.

Lemma collectDates_inv (points : list GapPoint.t) : forall acc,
  (forall d, d ∈ acc.1 <-> d ∈ acc.2) -> NoDup acc.2 ->
  (forall d, d ∈ (foldl collectStep acc points).1
             <-> d ∈ (foldl collectStep acc points).2)
  /\ NoDup (foldl collectStep acc points).2
  /\ (forall d, d ∈ (foldl collectStep acc points).2
                <-> d ∈ acc.2 \/ d ∈ GapPoint.Date <$> points).
Proof.
  induction points as [|p points IH]; intros acc Hseen Hnd.
  - simpl. split; [exact Hseen|]. split; [exact Hnd|].
    intros d. rewrite elem_of_nil. tauto.
  - cbn [foldl].
    destruct (decide (GapPoint.Date p ∈ acc.1)) as [Hin|Hin].
    + assert (Es : collectStep acc p = acc)
        by (unfold collectStep; rewrite (bool_decide_eq_true_2 _ Hin); reflexivity).
      rewrite Es.
      destruct (IH acc Hseen Hnd) as (H1 & H2 & H3).
      split; [exact H1|]. split; [exact H2|].
      intros d. rewrite H3, fmap_cons, elem_of_cons.
      split; [tauto|]. intros [H|[->|H]]; auto.
      left. apply Hseen, Hin.
    + assert (Es : collectStep acc p
                   = ({[GapPoint.Date p]} ∪ acc.1, acc.2 ++ [GapPoint.Date p]))
        by (unfold collectStep; rewrite (bool_decide_eq_false_2 _ Hin); reflexivity).
      rewrite Es.
      destruct (IH ({[GapPoint.Date p]} ∪ acc.1, acc.2 ++ [GapPoint.Date p]))
        as (H1 & H2 & H3).
      * intros d. cbn [fst snd].
        rewrite elem_of_union, elem_of_singleton, elem_of_app, list_elem_of_singleton.
        rewrite Hseen. tauto.
      * cbn [snd]. apply NoDup_app. split; [exact Hnd|].
        split; [|apply NoDup_singleton].
        intros d Hd Hd'. apply list_elem_of_singleton in Hd'. subst d.
        apply Hin, Hseen, Hd.
      * split; [exact H1|]. split; [exact H2|].
        intros d. rewrite H3. cbn [snd].
        rewrite elem_of_app, list_elem_of_singleton, fmap_cons, elem_of_cons. tauto.
Qed.

Lemma collectDates_spec (points : list GapPoint.t) :
  NoDup (collectDates points)
  /\ (forall d, d ∈ collectDates points <-> d ∈ GapPoint.Date <$> points).
Proof.
  unfold collectDates.
  destruct (collectDates_inv points (∅, [])) as (_ & H2 & H3).
  - intros d. cbn [fst snd]. rewrite elem_of_empty, elem_of_nil. tauto.
  - apply NoDup_nil_2.
  - split; [exact H2|]. intros d. rewrite H3. cbn [snd].
    rewrite elem_of_nil. tauto.
Qed.

(** ** The minute fetcher *)

Section FetchFacts.

Variable polygonAPIKey : string.
Variable httpGet : string -> httpReply.
Variable ticker : string.

Local Abbreviation reply d := (httpGet (minuteURL polygonAPIKey ticker d)).
Local Abbreviation fetched := (fetchedBars polygonAPIKey httpGet ticker).

Lemma fetch1MinLoop_ok dates : forall out out',
  fetch1MinLoop polygonAPIKey httpGet ticker dates out = inr out' ->
  (forall d, d ∈ dates -> forall err, reply d <> GetFailed err)
  /\ (forall d, d ∉ dates -> out' !! d = out !! d)
  /\ (forall d, d ∈ dates ->
      out' !! d = match fetched d with Some r => Some r | None => out !! d end).
Proof.
  induction dates as [|d0 dates IH]; intros out out' E.
  - simpl in E. injection E as <-.
    split; [intros d Hd; inversion Hd|]. split; [reflexivity|].
    intros d Hd; inversion Hd.
  - simpl in E. unfold fetchedBars.
    destruct (reply d0) as [err|status|err|results] eqn:Er; [discriminate| | |];
      destruct (IH _ _ E) as (H1 & H2 & H3).
    + split; [|split].
      * intros d Hd err'. apply elem_of_cons in Hd. destruct Hd as [->|Hd];
          [rewrite Er; discriminate | apply H1, Hd].
      * intros d Hd. apply H2. intros Hin. apply Hd. right. exact Hin.
      * intros d Hd. destruct (decide (d ∈ dates)) as [Hin|Hin];
          [exact (H3 d Hin)|].
        apply elem_of_cons in Hd. destruct Hd as [->|Hd]; [|contradiction].
        rewrite Er. apply H2, Hin.
    + split; [|split].
      * intros d Hd err'. apply elem_of_cons in Hd. destruct Hd as [->|Hd];
          [rewrite Er; discriminate | apply H1, Hd].
      * intros d Hd. apply H2. intros Hin. apply Hd. right. exact Hin.
      * intros d Hd. destruct (decide (d ∈ dates)) as [Hin|Hin];
          [exact (H3 d Hin)|].
        apply elem_of_cons in Hd. destruct Hd as [->|Hd]; [|contradiction].
        rewrite Er. apply H2, Hin.
    + split; [|split].
      * intros d Hd err'. apply elem_of_cons in Hd. destruct Hd as [->|Hd];
          [rewrite Er; discriminate | apply H1, Hd].
      * intros d Hd. rewrite H2 by (intros Hin; apply Hd; right; exact Hin).
        apply lookup_insert_ne. intros ->. apply Hd. left.
      * intros d Hd. destruct (decide (d ∈ dates)) as [Hin|Hin].
        -- rewrite (H3 d Hin). unfold fetchedBars.
           destruct (reply d) eqn:Ed; try reflexivity.
           ++ destruct (decide (d = d0)) as [->|Hne]; [congruence|].
              apply lookup_insert_ne. congruence.
           ++ destruct (decide (d = d0)) as [->|Hne]; [congruence|].
              apply lookup_insert_ne. congruence.
           ++ destruct (decide (d = d0)) as [->|Hne]; [congruence|].
              apply lookup_insert_ne. congruence.
        -- apply elem_of_cons in Hd. destruct Hd as [->|Hd]; [|contradiction].
           rewrite Er, (H2 d0 Hin). apply lookup_insert_eq.
Qed.

Lemma fetch1MinLoop_error dates : forall out err,
  fetch1MinLoop polygonAPIKey httpGet ticker dates out = inl err ->
  exists d, d ∈ dates /\ reply d = GetFailed err.
Proof.
  induction dates as [|d0 dates IH]; intros out err E; [discriminate|].
  simpl in E.
  destruct (reply d0) as [err0|status|err0|results] eqn:Er.
  - injection E as <-. exists d0. split; [left | exact Er].
  - destruct (IH _ _ E) as (d & Hd & Hr). exists d. split; [right|]; assumption.
  - destruct (IH _ _ E) as (d & Hd & Hr). exists d. split; [right|]; assumption.
  - destruct (IH _ _ E) as (d & Hd & Hr). exists d. split; [right|]; assumption.
Qed.

Lemma fetch1MinLoop_cases dates out :
  (exists err, fetch1MinLoop polygonAPIKey httpGet ticker dates out = inl err)
  <-> exists d err, d ∈ dates /\ reply d = GetFailed err.
Proof.
  split.
  - intros [err E]. destruct (fetch1MinLoop_error _ _ _ E) as (d & Hd & Hr).
    exists d, err. split; assumption.
  - intros (d & err & Hd & Hr).
    destruct (fetch1MinLoop polygonAPIKey httpGet ticker dates out)
      as [e|out'] eqn:E; [exists e; reflexivity|].
    destruct (fetch1MinLoop_ok _ _ _ E) as (H1 & _).
    exfalso. exact (H1 d Hd err Hr).
Qed.

End FetchFacts.

(** ** The handlers *)

Lemma yearsOf_range (q : query) : (1 <= yearsOf q <= 5)%Z.
Proof.
  unfold yearsOf. destruct (qYears q) as [v|]; [|lia].
  destruct (Z.leb_spec 1 v), (Z.leb_spec v 5); simpl; lia.
Qed.

Lemma minGapOf_range (q : query) : 0 < minGapOf q /\ minGapOf q < 20.
Proof.
  unfold minGapOf. destruct (qMinGap q) as [v|]; [|split; reflexivity].
  destruct (Qltb 0 v) eqn:E1; [|split; reflexivity].
  destruct (Qltb v 20) eqn:E2; [|split; reflexivity].
  simpl. split; apply Qltb_lt; assumption.
Qed.

Lemma core_fields dateOf dowOf daily minGap years ticker :
  AnalyzeResponse.Ticker (fst (analyzeCore dateOf dowOf daily minGap years ticker))
  = ticker
  /\ AnalyzeResponse.Years (fst (analyzeCore dateOf dowOf daily minGap years ticker))
     = years
  /\ AnalyzeResponse.MinGap (fst (analyzeCore dateOf dowOf daily minGap years ticker))
     = minGap
  /\ (AnalyzeResponse.Error (fst (analyzeCore dateOf dowOf daily minGap years ticker))
      = ""
      \/ AnalyzeResponse.Error (fst (analyzeCore dateOf dowOf daily minGap years ticker))
         = "not enough data").
Proof.
  destruct (core_cases dateOf dowOf minGap daily years ticker) as [[_ E]|[_ E]];
    rewrite E; cbn [fst]; repeat split; auto.
Qed.

Lemma core_served dateOf dowOf daily (q : query) :
  qTicker q <> "" ->
  servedRule q
    (fst (analyzeCore dateOf dowOf daily (minGapOf q) (yearsOf q) (qTicker q))).
Proof.
  intros Ht.
  destruct (core_fields dateOf dowOf daily (minGapOf q) (yearsOf q) (qTicker q))
    as (E1 & E2 & E3 & _).
  destruct (minGapOf_range q) as [Hlo Hhi].
  destruct (core_directions dateOf dowOf (minGapOf q) daily (yearsOf q) (qTicker q) Hlo)
    as [Hd Hs].
  unfold servedRule. rewrite E1, E2, E3, core_data.
  split; [exact Ht|]. split; [reflexivity|].
  split; [apply yearsOf_range|]. auto.
Qed.

Lemma sameDaily_refl (pts : list GapPoint.t) : Forall2 sameDaily pts pts.
Proof. induction pts; constructor; [repeat split | assumption]. Qed.

Lemma overlay_keeps loc m r r' :
  analyzeFirst15 loc (Some r) m = Some r' ->
  sameDailyTables r r'
  /\ Forall2 sameDaily (AnalyzeResponse.Data r) (AnalyzeResponse.Data r')
  /\ Forall2 (fun p p' => default [] (m !! GapPoint.Date p) = [] -> p' = p)
       (AnalyzeResponse.Data r) (AnalyzeResponse.Data r').
Proof.
  intros E.
  destruct (analyzeFirst15_cases loc m r)
    as [[Hnil E0]|[_ (r0 & E0 & Hsame & Hpts & _)]];
    rewrite E0 in E; injection E as <-.
  - split; [repeat split|]. rewrite Hnil. split; constructor.
  - split; [exact Hsame|]. rewrite Hpts. unfold run15.
    split; [apply loop15_sameDaily | apply loop15_no_bars_unchanged].
Qed.

Lemma analyzeFirst15_some loc m r : is_Some (analyzeFirst15 loc (Some r) m).
Proof.
  destruct (analyzeFirst15_cases loc m r) as [[_ E]|[_ (r0 & E & _)]];
    rewrite E; eexists; reflexivity.
Qed.

Lemma servedRule_sameDaily q r r' :
  sameDailyTables r r' ->
  Forall2 sameDaily (AnalyzeResponse.Data r) (AnalyzeResponse.Data r') ->
  servedRule q r -> servedRule q r'.
Proof.
  intros (_ & _ & Et & Ey & Em & Es & _) HD (H1 & H2 & H3 & H4 & H5 & H6 & H7).
  unfold servedRule. rewrite Et, Ey, Em, Es.
  repeat (split; [assumption|]). split; [|exact H7].
  clear - HD H6. induction HD as [|p p' l l' Hp _ IH]; constructor.
  - apply Forall_inv in H6. destruct Hp as (_ & _ & _ & Ed & _).
    rewrite Ed. exact H6.
  - apply IH. exact (Forall_inv_tail H6).
Qed.

Lemma session_dates_elem (points : list GapPoint.t) d :
  d ∈ sortStrings (collectDates points) <-> d ∈ GapPoint.Date <$> points.
Proof.
  rewrite (sortStrings_Permutation (collectDates points)).
  apply collectDates_spec.
Qed.

Lemma intraday_prefix_fresh err :
  "" <> "intraday fetch failed: " +:+ err
  /\ "not enough data" <> "intraday fetch failed: " +:+ err.
Proof. split; discriminate. Qed.

Lemma minute_fetch_map polygonAPIKey httpGet ticker dates m :
  fetchPolygon1MinForDates polygonAPIKey httpGet ticker dates = inr m ->
  forall d, d ∈ dates -> m !! d = fetchedBars polygonAPIKey httpGet ticker d.
Proof.
  intros E d Hd.
  destruct (fetch1MinLoop_ok _ _ _ _ _ _ E) as (_ & _ & H3).
  rewrite (H3 d Hd), lookup_empty.
  destruct (fetchedBars polygonAPIKey httpGet ticker d); reflexivity.
Qed.

Lemma Encoded_inj (a b : AnalyzeResponse.t) : Encoded a = Encoded b -> a = b.
Proof. intros E. congruence. Qed.

Lemma Forall2_to_right {A B} (R S : A -> B -> Prop) (P : A -> Prop)
    (Q : B -> Prop) (l : list A) (l' : list B) :
  (forall x y, R x y -> S x y -> P x -> Q y) ->
  Forall2 R l l' -> Forall2 S l l' -> Forall P l -> Forall Q l'.
Proof.
  intros HQ HR. induction HR as [|x y l l' Hxy _ IH]; intros HS HP;
    [constructor|].
  inversion HS; subst. constructor.
  - eapply HQ; [eassumption | eassumption | exact (Forall_inv HP)].
  - apply IH; [assumption | exact (Forall_inv_tail HP)].
Qed.

(** X26. The dates the handler asks minute bars for are the dates of the
    returned events, each once, in ascending order. *)
Theorem session_dates_sorted_unique (points : list GapPoint.t) :
  NoDup (sortStrings (collectDates points))
  /\ StronglySorted dateLe (sortStrings (collectDates points))
  /\ (forall d, d ∈ sortStrings (collectDates points)
                <-> d ∈ GapPoint.Date <$> points).
Proof.
  split; [|split].
  - rewrite (sortStrings_Permutation (collectDates points)).
    apply collectDates_spec.
  - apply sortStrings_sorted.
  - apply session_dates_elem.
Qed.

(** X27. The minute fetcher fails only on an error of the transport, with
    the error of one of the dates it was given.  When it succeeds no
    request failed in transport, and the map it returns holds, for each
    date it was given, the bars the provider decoded for it; a date the
    provider answered with another status or with an undecodable body,
    and any other date, is absent. *)
Theorem minute_fetch_outcomes
    (polygonAPIKey : string) (httpGet : string -> httpReply)
    (ticker : string) (dates : list string) :
  match fetchPolygon1MinForDates polygonAPIKey httpGet ticker dates with
  | inl err =>
      exists d, d ∈ dates
                /\ httpGet (minuteURL polygonAPIKey ticker d) = GetFailed err
  | inr out =>
      (forall d err, d ∈ dates ->
         httpGet (minuteURL polygonAPIKey ticker d) <> GetFailed err)
      /\ (forall d, d ∈ dates ->
           out !! d = fetchedBars polygonAPIKey httpGet ticker d)
      /\ (forall d, d ∉ dates -> out !! d = None)
  end.
Proof.
  unfold fetchPolygon1MinForDates.
  destruct (fetch1MinLoop polygonAPIKey httpGet ticker dates ∅)
    as [err|out] eqn:E.
  - apply (fetch1MinLoop_error _ _ _ _ _ _ E).
  - destruct (fetch1MinLoop_ok _ _ _ _ _ _ E) as (H1 & H2 & H3).
    split; [intros d err Hd; apply H1, Hd|].
    split.
    + intros d Hd. rewrite (H3 d Hd), lookup_empty.
      destruct (fetchedBars polygonAPIKey httpGet ticker d); reflexivity.
    + intros d Hd. rewrite (H2 d Hd). apply lookup_empty.
Qed.

(** X28. Whatever the query and the provider, a response that either
    handler encodes carries the ticker of the query, which is not empty,
    a number of years between 1 and 5 and a threshold strictly between 0
    and 20; every event in it has direction 1 or -1, and its gap-ups and
    gap-downs add up to its sessions. *)
Theorem handlers_serve_directed_events
    (loc : Location) (polygonAPIKey : string) (httpGet : string -> httpReply)
    (span : Z -> string * string) (q : query) (resp : AnalyzeResponse.t) :
  handleAnalyze loc polygonAPIKey httpGet span q = Encoded resp
  \/ handleAnalyzeGaps loc polygonAPIKey httpGet span q = Encoded resp ->
  servedRule q resp.
Proof.
  unfold handleAnalyze, handleAnalyzeGaps. cbv zeta.
  destruct (String.eqb_spec (qTicker q) "") as [Et|Et];
    [intros [E|E]; discriminate|].
  destruct (fetchPolygonDaily polygonAPIKey httpGet (qTicker q)
              (span (yearsOf q)).1 (span (yearsOf q)).2) as [err|daily];
    [intros [E|E]; discriminate|].
  intros [E|E].
  - pose proof (core_served (sessionDateNYFromDaily loc)
                  (sessionWeekdayNYFromDaily loc) daily q Et) as Hr.
    fold (analyzeDaily loc daily (minGapOf q) (yearsOf q) (qTicker q)) in Hr.
    destruct (fetchPolygon1MinForDates _ _ _ _) as [e|m];
      apply Encoded_inj in E; subst resp.
    + exact Hr.
    + destruct (analyzeFirst15_some loc m
                  (analyzeDaily loc daily (minGapOf q) (yearsOf q) (qTicker q)).1)
        as [r' E'].
      rewrite E'. cbn [default].
      destruct (overlay_keeps _ _ _ _ E') as (Hsame & HD & _).
      exact (servedRule_sameDaily q _ _ Hsame HD Hr).
  - apply Encoded_inj in E. subst resp. unfold analyzeGaps.
    apply core_served, Et.
Qed.

(** X29. In a response that [handleAnalyze] encodes with the success flag
    set, an event for whose date the provider has no decoded minute bars
    (another status than 200, an undecodable body, or no bars) is left
    without 0-15m figures: the request does not fail for it. *)
Theorem handler_skips_refused_dates
    (loc : Location) (polygonAPIKey : string) (httpGet : string -> httpReply)
    (span : Z -> string * string) (q : query) (resp : AnalyzeResponse.t) :
  handleAnalyze loc polygonAPIKey httpGet span q = Encoded resp ->
  AnalyzeResponse.Success resp = true ->
  Forall (fun p =>
            default [] (fetchedBars polygonAPIKey httpGet (qTicker q)
                          (GapPoint.Date p)) = [] ->
            GapPoint.Ret15mPct p = 0 /\ GapPoint.FilledBy0945 p = 0%Z)
    (AnalyzeResponse.Data resp).
Proof.
  unfold handleAnalyze. cbv zeta.
  destruct (String.eqb_spec (qTicker q) "") as [Et|Et]; [discriminate|].
  destruct (fetchPolygonDaily polygonAPIKey httpGet (qTicker q)
              (span (yearsOf q)).1 (span (yearsOf q)).2) as [err|daily];
    [discriminate|].
  pose proof (analyzeDaily_fresh_points loc daily (minGapOf q) (yearsOf q)
                (qTicker q)) as Hfresh.
  destruct (analyzeDaily_response loc daily (minGapOf q) (yearsOf q) (qTicker q))
    as [Hdata _].
  destruct (fetchPolygon1MinForDates _ _ _ _) as [e|m] eqn:Ef;
    intros E; apply Encoded_inj in E; subst resp;
    [intros H; discriminate H|].
  intros _.
  destruct (analyzeFirst15_some loc m
              (analyzeDaily loc daily (minGapOf q) (yearsOf q) (qTicker q)).1)
    as [r' E'].
  rewrite E'. cbn [default].
  destruct (overlay_keeps _ _ _ _ E') as (_ & HD & HN).
  pose proof (minute_fetch_map polygonAPIKey httpGet (qTicker q) _ _ Ef) as Hm.
  rewrite Hdata in HD, HN.
  eapply (Forall2_to_right _ _
            (fun p => (GapPoint.Ret15mPct p = 0 /\ GapPoint.FilledBy0945 p = 0%Z)
                      /\ m !! GapPoint.Date p
                         = fetchedBars polygonAPIKey httpGet (qTicker q)
                             (GapPoint.Date p)));
    [|exact HD|exact HN|].
  - intros p p' (Ed & _) Hno [Hf Hl] Hc. cbv beta in Hc.
    rewrite Ed, <- Hl in Hc. rewrite (Hno Hc). exact Hf.
  - apply Forall_forall. intros p Hp. split.
    + rewrite Forall_forall in Hfresh. apply Hfresh, Hp.
    + apply Hm. apply session_dates_elem. apply list_elem_of_fmap.
      exists p. split; [reflexivity | exact Hp].
Qed.

(** X30. Once the daily bars are fetched, [handleAnalyze] always encodes
    a response: its daily tables are those of [analyzeDaily] and its
    events are the returned events, the 0-15m fields apart.  It reports
    "intraday fetch failed: ..." with the success flag cleared exactly
    when the request for the minute bars of the date of some event failed
    in transport. *)
Theorem handler_keeps_daily_results
    (loc : Location) (polygonAPIKey : string) (httpGet : string -> httpReply)
    (span : Z -> string * string) (q : query) (daily : list polygonBar.t) :
  qTicker q <> "" ->
  fetchPolygonDaily polygonAPIKey httpGet (qTicker q)
    (span (yearsOf q)).1 (span (yearsOf q)).2 = inr daily ->
  exists resp,
    handleAnalyze loc polygonAPIKey httpGet span q = Encoded resp
    /\ dailyTablesOf
         (fst (analyzeDaily loc daily (minGapOf q) (yearsOf q) (qTicker q))) resp
    /\ Forall2 sameDaily
         (snd (analyzeDaily loc daily (minGapOf q) (yearsOf q) (qTicker q)))
         (AnalyzeResponse.Data resp)
    /\ ((exists p err,
           p ∈ snd (analyzeDaily loc daily (minGapOf q) (yearsOf q) (qTicker q))
           /\ httpGet (minuteURL polygonAPIKey (qTicker q) (GapPoint.Date p))
              = GetFailed err)
        <-> (exists err,
              AnalyzeResponse.Success resp = false
              /\ AnalyzeResponse.Error resp = "intraday fetch failed: " +:+ err)).
Proof.
  intros Et Ed. unfold handleAnalyze. cbv zeta.
  destruct (String.eqb_spec (qTicker q) "") as [Et'|_]; [contradiction|].
  rewrite Ed.
  destruct (analyzeDaily_response loc daily (minGapOf q) (yearsOf q) (qTicker q))
    as [Hdata _].
  pose proof (core_fields (sessionDateNYFromDaily loc)
                (sessionWeekdayNYFromDaily loc) daily (minGapOf q) (yearsOf q)
                (qTicker q)) as (_ & _ & _ & Herr).
  fold (analyzeDaily loc daily (minGapOf q) (yearsOf q) (qTicker q)) in Herr.
  set (r := (analyzeDaily loc daily (minGapOf q) (yearsOf q) (qTicker q)).1) in *.
  set (pts := (analyzeDaily loc daily (minGapOf q) (yearsOf q) (qTicker q)).2) in *.
  destruct (fetchPolygon1MinForDates polygonAPIKey httpGet (qTicker q)
              (sortStrings (collectDates pts))) as [e|m] eqn:Ef.
  - eexists. split; [reflexivity|].
    split; [repeat split|].
    split; [cbn [withError AnalyzeResponse.Data]; rewrite Hdata; apply sameDaily_refl|].
    split.
    + intros _. exists e. split; reflexivity.
    + intros _.
      destruct (fetch1MinLoop_error _ _ _ _ _ _ Ef) as (d & Hd & Hr).
      apply session_dates_elem, list_elem_of_fmap in Hd.
      destruct Hd as (p & -> & Hp). exists p, e. split; assumption.
  - destruct (analyzeFirst15_some loc m r) as [r' E'].
    rewrite E'. change (default r (Some r')) with r'.
    destruct (overlay_keeps _ _ _ _ E') as (Hsame & HD & _).
    destruct Hsame as (Hs & He & _ & _ & _ & H1 & H2 & H3 & H4 & H5 & H6 & H7 & H8).
    eexists. split; [reflexivity|].
    split; [repeat split; assumption|].
    split; [rewrite <- Hdata; exact HD|].
    split.
    + intros (p & err & Hp & Hr). exfalso.
      destruct (fetch1MinLoop_ok _ _ _ _ _ _ Ef) as (Hok & _).
      apply (Hok (GapPoint.Date p)) in Hr; [exact Hr|].
      apply session_dates_elem, list_elem_of_fmap.
      exists p. split; [reflexivity | exact Hp].
    + intros (err & _ & Herr'). exfalso. rewrite He in Herr'.
      destruct (intraday_prefix_fresh err) as [F1 F2].
      destruct Herr as [Herr|Herr]; rewrite Herr in Herr'; congruence.
Qed.

Lemma served_on_three_sessions : servedRule queryX overlaidThree.
Proof.
  apply (handlers_serve_directed_events est "k" provider threeYears queryX
           overlaidThree).
  left. vm_compute. reflexivity.
Defined.

Lemma refused_date_on_three_sessions :
  Forall (fun p =>
            default [] (fetchedBars "k" provider "X" (GapPoint.Date p)) = [] ->
            GapPoint.Ret15mPct p = 0 /\ GapPoint.FilledBy0945 p = 0%Z)
    (AnalyzeResponse.Data overlaidThree).
Proof.
  apply (handler_skips_refused_dates est "k" provider threeYears queryX
           overlaidThree).
  - vm_compute. reflexivity.
  - vm_compute. reflexivity.
Defined.

Lemma transport_error_on_three_sessions :
  exists resp,
    handleAnalyze est "k" flakyProvider threeYears queryX = Encoded resp
    /\ AnalyzeResponse.Success resp = false
    /\ AnalyzeResponse.Error resp = "intraday fetch failed: timeout".
Proof.
  destruct (handler_keeps_daily_results est "k" flakyProvider threeYears queryX
              threeSessions) as (resp & E & _ & _ & [H _]).
  - discriminate.
  - vm_compute. reflexivity.
  - exists resp. split; [exact E|].
    destruct H as (err & Hs & He).
    + eexists _, "timeout". split; [left|]. vm_compute. reflexivity.
    + split; [exact Hs|]. rewrite He.
      assert (Ee : Encoded resp
                   = Encoded (withError dailyOfThree
                                "intraday fetch failed: timeout"))
        by (rewrite <- E; vm_compute; reflexivity).
      apply Encoded_inj in Ee. rewrite Ee in He. cbn [withError AnalyzeResponse.Error] in He.
      congruence.
Defined.
